(** * appModules/outlook.py: the Outlook app module of NVDA

    A shallow embedding of the parts of [source/appModules/outlook.py] that
    decide what is spoken for mail, calendar and list surfaces, and the
    properties of those parts.

    Conventions of the embedding:
    - Python [str] is [string]; Python [int] is [Z]; a Python list is a [list].
    - [_( msgid )] is the host's gettext.  It is a section variable
      ([gettext]) of every definition that calls it; the properties are stated
      for the catalogue that returns each message id unchanged
      ([untranslated]), which is what gettext does when no catalogue is loaded.
    - A remote (COM) read that may raise is a value of type [option]: [None]
      is the raised [COMError].
    - Code that raises returns a [PyResult]; code that mutates an attribute
      or calls the host returns the new state and the list of host calls. *)

From Stdlib Require Import ZArith List String Ascii Bool Lia DecimalString.
Import ListNotations.

Open Scope list_scope.
Open Scope string_scope.
Open Scope Z_scope.

(* ================================================================== *)
(** * Python built-ins used by the module *)
(* ================================================================== *)

(** [sep.join(parts)] *)
Fixpoint join (sep : string) (parts : list string) : string :=
  match parts with
  | [] => ""
  | p :: rest =>
      match rest with
      | [] => p
      | _ :: _ => p ++ sep ++ join sep rest
      end
  end.

(** [fmt % args] for formats whose only conversions are [%s] and that have
    as many of them as there are arguments: each [%s] is replaced, left to
    right, by the next argument; the arguments are not scanned again.
    Outside that domain Python raises ([TypeError] on an arity mismatch,
    [ValueError] on a lone [%]) and this function does not.  The literal
    formats of the module are in the domain; of the formats that go through
    the catalogue ([subject: %s], [received: %s] and [sent: %s]) that holds
    for the message ids themselves, and a translation of them need not be in
    it, so every property below that depends on the result of such a format
    is stated for [untranslated]. *)
Fixpoint pct_format (fmt : string) (args : list string) : string :=
  match fmt with
  | EmptyString => ""
  | String c rest =>
      match rest with
      | String c' rest' =>
          if (Ascii.eqb c "%" && Ascii.eqb c' "s")%bool then
            match args with
            | a :: args' => a ++ pct_format rest' args'
            | [] => pct_format rest' []
            end
          else String c (pct_format rest args)
      | EmptyString => String c ""
      end
  end.

(** Keyword lookup of [str.format]. *)
Fixpoint kw_get (name : string) (kw : list (string * string)) : string :=
  match kw with
  | [] => ""
  | (k, v) :: kw' => if String.eqb k name then v else kw_get name kw'
  end.

(** [fmt.format(date=..., ...)] for formats whose replacement fields are plain
    [{name}] with [name] one of the keywords passed: [field] holds the
    characters of the field being read.  Outside that domain Python raises
    ([KeyError] on another name, [IndexError] on an empty or positional
    field, [ValueError] on an unbalanced brace) and this function does not.
    The literal formats and the message ids of the module are in the
    domain; a translation of a message id need not be, so every property
    below that depends on the result of a catalogue's format is stated for
    [untranslated]. *)
Fixpoint str_format_from (fmt : string) (kw : list (string * string))
    (field : option string) : string :=
  match fmt with
  | EmptyString => ""
  | String c rest =>
      match field with
      | None =>
          if Ascii.eqb c "{" then str_format_from rest kw (Some "")
          else String c (str_format_from rest kw None)
      | Some f =>
          if Ascii.eqb c "}" then kw_get f kw ++ str_format_from rest kw None
          else str_format_from rest kw (Some (f ++ String c ""))
      end
  end.

Definition str_format (fmt : string) (kw : list (string * string)) : string :=
  str_format_from fmt kw None.

(** [s.split(sep)] for a one-character separator: every occurrence of the
    separator ends a token, so the result is never empty and the empty
    string appears between adjacent separators. *)
Fixpoint split_from (sep : ascii) (s : string) (cur : string) : list string :=
  match s with
  | EmptyString => [cur]
  | String c rest =>
      if Ascii.eqb c sep then cur :: split_from sep rest ""
      else split_from sep rest (cur ++ String c "")
  end.

Definition split (sep : ascii) (s : string) : list string :=
  split_from sep s "".

(** [len(l)] *)
Definition len {A : Type} (l : list A) : Z := Z.of_nat (List.length l).

(** One bound of a slice: a negative index counts from the end, and the
    result is clamped to [0 .. len]. *)
Definition slice_bound (n i : Z) : Z :=
  let j := if i <? 0 then i + n else i in
  Z.max 0 (Z.min n j).

(** [l[first:last]] *)
Definition slice {A : Type} (l : list A) (first last : Z) : list A :=
  let lo := slice_bound (len l) first in
  let hi := slice_bound (len l) last in
  firstn (Z.to_nat (hi - lo)) (skipn (Z.to_nat lo) l).

(** [x in xs] for strings *)
Definition str_in (x : string) (xs : list string) : bool :=
  existsb (String.eqb x) xs.

(** [s.startswith(p)] *)
Definition startswith (s p : string) : bool := String.prefix p s.

(** [d.get(key)] on a dict with integer keys, written as its item list. *)
Fixpoint dict_get (d : list (Z * string)) (key : Z) : option string :=
  match d with
  | [] => None
  | (k, v) :: d' => if k =? key then Some v else dict_get d' key
  end.

(** The catalogue that returns every message id unchanged. *)
Definition untranslated (msgid : string) : string := msgid.

(* ================================================================== *)
(** * Module constants *)
(* ================================================================== *)

Definition silentMessageClasses : list string :=
  ["IPM.Appointment"; "IPM.Contact"; "IPM.Note"].

(** [SECONDS_PER_DAY = 86400.0]; durations are whole seconds here, and the
    float comparison of the source is exact on them. *)
Definition SECONDS_PER_DAY : Z := 86400.

Section Catalogue.

Variable gettext : string -> string.

Definition oleFlagIconLabels : list (Z * string) :=
  [ (1, gettext "purple flag");
    (2, gettext "Orange flag");
    (3, gettext "Green flag");
    (4, gettext "Yellow flag");
    (5, gettext "Blue flag");
    (6, gettext "Red flag") ].

Definition importanceLabels : list (Z * string) :=
  [ (2, gettext "high importance");
    (0, gettext "low importance") ].

(* ================================================================== *)
(** * Formatting helpers *)
(* ================================================================== *)

(** The properties of a received mail item that [getReceivedMessageString]
    reads; [attachments_count] is [obj.attachments.count]. *)
Record ReceivedMessage : Type := {
  senderName : string;
  subject : string;
  receivedTime : string;
  unread : bool;
  attachments_count : Z
}.

Definition getReceivedMessageString (obj : ReceivedMessage) : string :=
  let nameList : list string := [] in
  let nameList := (nameList ++ [senderName obj])%list in
  let nameList := (nameList ++ [pct_format (gettext "subject: %s") [subject obj]])%list in
  let nameList := (nameList ++ [pct_format (gettext "received: %s") [receivedTime obj]])%list in
  let text := join ", " nameList in
  let text :=
    if unread obj then pct_format "%s %s" [gettext "unread"; text] else text in
  let text :=
    if attachments_count obj >? 0
    then pct_format "%s %s" [gettext "attachment"; text] else text in
  text.

End Catalogue.

(* ================================================================== *)
(** * Exceptions, host calls and the effect monad *)
(* ================================================================== *)

Inductive PyExc : Type :=
| NameError (name : string)
| UnboundLocalError (name : string)
| AttributeError (attr : string)
| ValueError
| COMError
| HostError (what : string).

Inductive PyResult (A : Type) : Type :=
| Return (a : A)
| Raise (e : PyExc).

Arguments Return {A} a.
Arguments Raise {A} e.

(** [datetime.date] and [datetime.datetime] *)
Record date : Type := { d_year : Z; d_month : Z; d_day : Z }.

Record datetime : Type := {
  year : Z; month : Z; day : Z;
  hour : Z; minute : Z; second : Z
}.

(** Values that reach [MessageItem.__init__]: [None], a window handle, an
    NVDA object (known by its window handle) or a remote mail item (known by
    its [entryID] and [Class]). *)
Inductive PyVal : Type :=
| PyNone
| PyInt (n : Z)
| PyNVDAObject (windowHandle : Z)
| PyMailItem (entryID : string) (Class : Z).

(** The object built by [MessageItem.__init__]. *)
Record MessageItem : Type := {
  mi_windowHandle : PyVal;
  mi_msg : PyVal;
  mi_parent : PyVal
}.

(** A UI Automation object fetched for the focus: whether the overlay chosen
    for it is [UIAGridRow], and the parent it is given. *)
Record UIAObject : Type := {
  uia_isUIAGridRow : bool;
  uia_runtimeId : Z;
  uia_parent : option Z
}.

(** The calls into the host that the module makes, in the order made. *)
Inductive HostCall : Type :=
| Dialog_Center
| mainFrame_prePopup
| Dialog_Show (title : string)
| api_processPendingEvents
| PumpEvents (timeout : Z)
| Dialog_Destroy
| mainFrame_postPopup
| log_error (msg : string)
| log_debugWarning (msg : string)
| ui_message (text : string)
| gesture_send
| super_reportFocus
| event_valueChange
| super_event_gainFocus
| executeEvent_MessageItem (eventName : string) (target : MessageItem)
| executeEvent_UIA (eventName : string) (target : UIAObject).

(** State, exception and trace: a computation maps the state to its outcome,
    the new state and the host calls it made. *)
Definition Eff (S A : Type) : Type := S -> PyResult A * S * list HostCall.

Definition ret {S A : Type} (a : A) : Eff S A := fun s => (Return a, s, []).

Definition raise {S A : Type} (e : PyExc) : Eff S A := fun s => (Raise e, s, []).

Definition bind {S A B : Type} (m : Eff S A) (k : A -> Eff S B) : Eff S B :=
  fun s =>
    match m s with
    | (Return a, s1, t1) =>
        match k a s1 with
        | (r, s2, t2) => (r, s2, (t1 ++ t2)%list)
        end
    | (Raise e, s1, t1) => (Raise e, s1, t1)
    end.

Definition get {S : Type} : Eff S S := fun s => (Return s, s, []).

Definition put {S : Type} (s : S) : Eff S unit := fun _ => (Return tt, s, []).

Definition call {S : Type} (c : HostCall) : Eff S unit := fun s => (Return tt, s, [c]).

Definition lift {S A : Type} (r : PyResult A) : Eff S A := fun s => (r, s, []).

Declare Scope eff_scope.
Delimit Scope eff_scope with eff.

Notation "x <- m ;; k" := (bind m (fun x => k))
  (at level 100, m at next level, right associativity) : eff_scope.
Notation "m ;;; k" := (bind m (fun _ => k))
  (at level 100, right associativity) : eff_scope.

(** Outcome, final state and trace of a computation. *)
Definition outcome {S A : Type} (x : PyResult A * S * list HostCall) : PyResult A :=
  fst (fst x).
Definition final {S A : Type} (x : PyResult A * S * list HostCall) : S :=
  snd (fst x).
Definition trace {S A : Type} (x : PyResult A * S * list HostCall) : list HostCall :=
  snd x.

(* ================================================================== *)
(** * Dates *)
(* ================================================================== *)

Definition datetime_date (t : datetime) : date :=
  {| d_year := year t; d_month := month t; d_day := day t |}.

Definition date_eqb (a b : date) : bool :=
  ((d_year a =? d_year b) && (d_month a =? d_month b) && (d_day a =? d_day b))%bool.

Definition is_leap (y : Z) : bool :=
  ((y mod 4 =? 0) && (negb (y mod 100 =? 0) || (y mod 400 =? 0)))%bool.

Definition days_before_year (y : Z) : Z :=
  let y := y - 1 in y * 365 + y / 4 - y / 100 + y / 400.

Definition DAYS_BEFORE_MONTH : list Z :=
  [0; 31; 59; 90; 120; 151; 181; 212; 243; 273; 304; 334].

Definition days_before_month (y m : Z) : Z :=
  nth (Z.to_nat (m - 1)) DAYS_BEFORE_MONTH 0
  + (if ((m >? 2) && is_leap y)%bool then 1 else 0).

(** [date.toordinal()]: day 1 is 0001-01-01 of the proleptic Gregorian
    calendar. *)
Definition toordinal (d : date) : Z :=
  days_before_year (d_year d) + days_before_month (d_year d) (d_month d) + d_day d.

(** [(a - b).total_seconds()] for two dates. *)
Definition date_sub_total_seconds (a b : date) : Z :=
  (toordinal a - toordinal b) * 86400.

(** [(a - b).total_seconds()] for two datetimes. *)
Definition datetime_sub_total_seconds (a b : datetime) : Z :=
  (toordinal (datetime_date a) - toordinal (datetime_date b)) * 86400
  + (hour a - hour b) * 3600 + (minute a - minute b) * 60 + (second a - second b).

(* ================================================================== *)
(** * The remote object model and the session (AppModule) *)
(* ================================================================== *)

(** What the calendar code reads from the remote side.  A read that can
    fail with [COMError] is an [option], [None] being the failure: of
    [p.start] and [p.end] the source catches it, of [p.subject] it does
    not. *)
Record AppointmentItem : Type := {
  appt_start : option datetime;
  appt_end : option datetime;
  appt_subject : option string
}.

Record Explorer : Type := {
  (** [e.selection]: [s.count] is its length, [s.item(1)] its head *)
  selection : list AppointmentItem;
  (** [e.currentView.selectedStartTime] and [selectedEndTime] *)
  selectedStartTime : option datetime;
  selectedEndTime : option datetime;
  (** [e.currentFolder.items], sorted on [Start] with recurrences:
      whether [find(query)] returns an item; [None] when one of these four
      remote calls fails with [COMError], which the source does not catch *)
  items_find : string -> option bool
}.

Record OutlookApplication : Type := {
  version : string;
  activeExplorer : Explorer
}.

(** Instance attributes of the app module.  [nativeOm_attr] is the instance
    attribute written by [self.nativeOm=nativeOm]: [None] while it has not
    been written, [Some v] once it holds [v] (which may be Python's [None]). *)
Record AppModule : Type := {
  _hasTriedoutlookAppSwitch : bool;
  nativeOm_attr : option (option OutlookApplication)
}.

(** The process-wide state: the app module, the class attribute
    [CalendarView._lastStartDate], and how many times
    [comHelper.getActiveObject] has been called. *)
Record World : Type := {
  appModule : AppModule;
  CalendarView_lastStartDate : option date;
  getActiveObject_calls : nat
}.

(** A freshly started session: [_hasTriedoutlookAppSwitch=False] and
    [_lastStartDate=None] are the class-level defaults. *)
Definition fresh_world : World :=
  {| appModule := {| _hasTriedoutlookAppSwitch := false; nativeOm_attr := None |};
     CalendarView_lastStartDate := None;
     getActiveObject_calls := 0 |}.

Definition set_appModule (w : World) (a : AppModule) : World :=
  {| appModule := a;
     CalendarView_lastStartDate := CalendarView_lastStartDate w;
     getActiveObject_calls := getActiveObject_calls w |}.

Definition set_lastStartDate (w : World) (d : option date) : World :=
  {| appModule := appModule w;
     CalendarView_lastStartDate := d;
     getActiveObject_calls := getActiveObject_calls w |}.

Definition count_getActiveObject (w : World) : World :=
  {| appModule := appModule w;
     CalendarView_lastStartDate := CalendarView_lastStartDate w;
     getActiveObject_calls := S (getActiveObject_calls w) |}.

(** Truth value of what [getActiveObject] gave: a COM object is true,
    [None] is false. *)
Definition om_truthy (o : option OutlookApplication) : bool :=
  match o with
  | Some _ => true
  | None => false
  end.

(** A calendar view instance; nothing of it is read by the code below. *)
Record CalendarView : Type := { cv_windowHandle : Z }.

(** The double quote character, for the query sent to [items.find]. *)
Definition dquote : string := String (Ascii.ascii_of_nat 34) EmptyString.

Section Session.

Local Open Scope eff_scope.

Variable gettext : string -> string.

(** [comHelper.getActiveObject("outlook.application",dynamic=True)]: the
    outcome of the n-th call of the session; [None] is one of the caught
    exceptions ([COMError], [WindowsError], [RuntimeError]). *)
Variable getActiveObject : nat -> option OutlookApplication.

(** Python's [int] on a string. *)
Variable py_int : string -> PyResult Z.

(** [winKernel.GetTimeFormatEx(LOCALE_NAME_USER_DEFAULT, TIME_NOSECONDS, t, None)],
    [winKernel.GetDateFormatEx(LOCALE_NAME_USER_DEFAULT, DATE_LONGDATE, t, None)] and
    [winKernel.GetTimeFormat(LOCALE_USER_DEFAULT, TIME_NOSECONDS, t, None)]. *)
Variable GetTimeFormatEx : datetime -> string.
Variable GetDateFormatEx : datetime -> string.
Variable GetTimeFormat : datetime -> string.

Definition _registerCOMWithFocusJuggle : Eff World unit :=
  call Dialog_Center ;;;
  call mainFrame_prePopup ;;;
  call (Dialog_Show (gettext "Waiting for Outlook...")) ;;;
  w <- get ;;
  put (set_appModule w {| _hasTriedoutlookAppSwitch := true;
                          nativeOm_attr := nativeOm_attr (appModule w) |}) ;;;
  call api_processPendingEvents ;;;
  call (PumpEvents 1) ;;;
  call Dialog_Destroy ;;;
  call mainFrame_postPopup.

Definition _get_nativeOm : Eff World (option OutlookApplication) :=
  w <- get ;;
  put (count_getActiveObject w) ;;;
  nativeOm <-
    match getActiveObject (getActiveObject_calls w) with
    | Some om => ret (Some om)
    | None =>
        (if _hasTriedoutlookAppSwitch (appModule w)
         then call (log_error "Failed to get native object model")
         else ret tt) ;;;
        ret None
    end ;;
  w <- get ;;
  if (negb (om_truthy nativeOm) && negb (_hasTriedoutlookAppSwitch (appModule w)))%bool
  then
    _registerCOMWithFocusJuggle ;;;
    ret None
  else
    w <- get ;;
    put (set_appModule w {| _hasTriedoutlookAppSwitch :=
                              _hasTriedoutlookAppSwitch (appModule w);
                            nativeOm_attr := Some nativeOm |}) ;;;
    ret nativeOm.

(** Reading the attribute [nativeOm] of the app module: the instance
    attribute when it has been written, the getter otherwise. *)
Definition nativeOm : Eff World (option OutlookApplication) :=
  w <- get ;;
  match nativeOm_attr (appModule w) with
  | Some v => ret v
  | None => _get_nativeOm
  end.

Definition _get_outlookVersion : Eff World Z :=
  nativeOm <- nativeOm ;;
  match nativeOm with
  | Some om => lift (py_int (hd "" (split "." (version om))))
  | None => ret 0
  end.

(** [outlookVersion] is never assigned, so every read runs the getter. *)
Definition outlookVersion : Eff World Z := _get_outlookVersion.

(* ================================================================== *)
(** * CalendarView *)
(* ================================================================== *)

Definition _generateTimeRangeText (self : CalendarView)
    (startTime endTime : datetime) : Eff World string :=
  let startText := GetTimeFormatEx startTime in
  let endText := GetTimeFormatEx endTime in
  let startDate := datetime_date startTime in
  let endDate := datetime_date endTime in
  w <- get ;;
  (* [startDateText] is bound only inside the first [if] *)
  let startDateText : option string :=
    if match CalendarView_lastStartDate w with
       | None => true
       | Some last =>
           (negb (date_eqb startDate last) || negb (date_eqb endDate startDate))%bool
       end
    then Some (GetDateFormatEx startTime) else None in
  let startText :=
    match startDateText with
    | Some d => pct_format "%s %s" [d; startText]
    | None => startText
    end in
  put (set_lastStartDate w (Some startDate)) ;;;
  let finish (endText : string) : Eff World string :=
    ret (str_format (gettext "{startTime} to {endTime}")
           [("startTime", startText); ("endTime", endText)]) in
  if negb (date_eqb endDate startDate) then
    if ((hour startTime =? 0) && (minute startTime =? 0) && (second startTime =? 0)
        && (date_sub_total_seconds endDate startDate =? SECONDS_PER_DAY))%bool
    then
      match startDateText with
      | Some d => ret (str_format (gettext "{date} (all day)") [("date", d)])
      | None => raise (UnboundLocalError "startDateText")
      end
    else finish (pct_format "%s %s" [GetDateFormatEx endTime; endText])
  else finish endText.

(** A remote read outside every [try]: its [COMError] propagates. *)
Definition uncaught {A : Type} (read : option A) : Eff World A :=
  match read with
  | Some a => ret a
  | None => raise COMError
  end.

(** The reads [activeExplorer()], [e.selection], [s.count], [s.item(1)] and
    [e.currentView] are the fields of the records above, so they are taken
    here as having returned; [p.subject] and the search of the folder's
    items, which the source also leaves outside its [try] blocks, can
    fail. *)
Definition reportFocus (self : CalendarView) : Eff World unit :=
  v <- outlookVersion ;;
  (* [and] reads [nativeOm] only when the version test holds *)
  om <- (if v >=? 13 then nativeOm else ret None) ;;
  match om with
  | Some om =>
      (* the attribute now holds [om]: the reads that follow return it *)
      let e := activeExplorer om in
      let s := selection e in
      match s with
      | p :: _ =>
          match appt_start p, appt_end p with
          | Some start, Some end_ =>
              t <- _generateTimeRangeText self start end_ ;;
              subject <- uncaught (appt_subject p) ;;
              call (ui_message
                      (str_format (gettext "Appointment {subject}, {time}")
                         [("subject", subject); ("time", t)]))
          | _, _ => call super_reportFocus
          end
      | [] =>
          match selectedStartTime e, selectedEndTime e with
          | Some selStart, Some selEnd =>
              timeSlotText <- _generateTimeRangeText self selStart selEnd ;;
              let startLimit :=
                pct_format "%s %s" [GetDateFormatEx selStart; GetTimeFormat selStart] in
              let endLimit :=
                pct_format "%s %s" [GetDateFormatEx selEnd; GetTimeFormat selEnd] in
              let query :=
                str_format
                  ("[Start] < " ++ dquote ++ "{endLimit}" ++ dquote
                   ++ " And [End] > " ++ dquote ++ "{startLimit}" ++ dquote)%string
                  [("startLimit", startLimit); ("endLimit", endLimit)] in
              found <- uncaught (items_find e query) ;;
              let timeSlotText :=
                if found : bool
                then (gettext "Has appointment" ++ " " ++ timeSlotText)%string
                else timeSlotText in
              call (ui_message timeSlotText)
          | _, _ => call super_reportFocus
          end
      end
  | None => call event_valueChange
  end.

End Session.

(* ================================================================== *)
(** * SuperGridClient2010 *)
(* ================================================================== *)

Record SuperGridClient2010 : Type := { sgc_parent : Z }.

Section SuperGridClient.

Local Open Scope eff_scope.

Variable gettext : string -> string.
Variable getActiveObject : nat -> option OutlookApplication.
Variable py_int : string -> PyResult Z.

(** [UIAHandler.handler] is set, and what the [UIA] constructor called for the focus
    returns: [None] when anything in the [try] block raises. *)
Variable UIAHandler_handler : bool.
Variable UIA_focus : option UIAObject.

Definition SuperGridClient2010_event_gainFocus (self : SuperGridClient2010)
  : Eff World unit :=
  v <- outlookVersion gettext getActiveObject py_int ;;
  if ((v <? 14) || negb UIAHandler_handler)%bool then call super_event_gainFocus
  else
    match UIA_focus with
    | None =>
        call (log_debugWarning "Retrieving UIA focus failed") ;;;
        call super_event_gainFocus
    | Some obj =>
        if negb (uia_isUIAGridRow obj) then call super_event_gainFocus
        else
          let obj := {| uia_isUIAGridRow := uia_isUIAGridRow obj;
                        uia_runtimeId := uia_runtimeId obj;
                        uia_parent := Some (sgc_parent self) |} in
          call (executeEvent_UIA "gainFocus" obj)
    end.

End SuperGridClient.

(* ================================================================== *)
(** * MessageItem and MessageList_pre2003 *)
(* ================================================================== *)

(** Truth value of a Python value. *)
Definition py_truthy (v : PyVal) : bool :=
  match v with
  | PyNone => false
  | PyInt n => negb (n =? 0)
  | PyNVDAObject _ => true
  | PyMailItem _ _ => true
  end.

(** [v.windowHandle] *)
Definition getattr_windowHandle (v : PyVal) : PyResult PyVal :=
  match v with
  | PyNVDAObject h => Return (PyInt h)
  | _ => Raise (AttributeError "windowHandle")
  end.

(** [v.entryID] *)
Definition getattr_entryID (v : PyVal) : PyResult string :=
  match v with
  | PyMailItem entryID _ => Return entryID
  | _ => Raise (AttributeError "entryID")
  end.

(** The legacy message list: its window handle and the attribute
    [curMessageItem], [None] while the attribute does not exist. *)
Record MessageList_pre2003 : Type := {
  ml_windowHandle : Z;
  curMessageItem : option MessageItem
}.

Section LegacyList.

Local Open Scope eff_scope.

(** [Window.__init__(self,windowHandle=windowHandle)] of the host. *)
Variable Window__init__ : PyVal -> PyResult unit.

(** [MessageItem.__init__(self,windowHandle=None,parent=None,msg=None)];
    an argument that is not given is [PyNone].  The name [ArguementError] is
    bound nowhere, so the [raise] statement raises [NameError]. *)
Definition MessageItem__init__ (windowHandle parent msg : PyVal)
  : PyResult MessageItem :=
  if (negb (py_truthy parent) || negb (py_truthy msg))%bool then
    Raise (NameError "ArguementError")
  else
    match (if negb (py_truthy windowHandle)
           then getattr_windowHandle parent
           else Return windowHandle) with
    | Raise e => Raise e
    | Return windowHandle =>
        let self := {| mi_windowHandle := windowHandle;
                       mi_msg := msg;
                       mi_parent := parent |} in
        match Window__init__ windowHandle with
        | Raise e => Raise e
        | Return _ => Return self
        end
    end.

(** What [self.nativeOm.ActiveExplorer().selection[0]] gives inside
    [try ... except:]; [None] is any exception. *)
Definition selected_msg (query : option PyVal) : PyVal :=
  match query with
  | Some msg => msg
  | None => PyNone
  end.

Definition option_string_eqb (a b : option string) : bool :=
  match a, b with
  | Some x, Some y => String.eqb x y
  | None, None => true
  | _, _ => false
  end.

(** [MessageItem(self,msg)] passes its arguments by position: [self] (the
    list) is bound to [windowHandle], [msg] to [parent], and the parameter
    [msg] keeps its default. *)
Definition MessageList_pre2003_event_gainFocus (query : option PyVal)
  : Eff MessageList_pre2003 unit :=
  self <- get ;;
  let msg := selected_msg query in
  (if py_truthy msg then
     item <- lift (MessageItem__init__ (PyNVDAObject (ml_windowHandle self)) msg PyNone) ;;
     put {| ml_windowHandle := ml_windowHandle self; curMessageItem := Some item |}
   else ret tt) ;;;
  call super_event_gainFocus ;;;
  if py_truthy msg then
    self <- get ;;
    match curMessageItem self with
    | Some item => call (executeEvent_MessageItem "gainFocus" item)
    | None => raise (AttributeError "curMessageItem")
    end
  else ret tt.

(** [query] is the selection read after the gesture has been sent. *)
Definition script_moveByMessage (query : option PyVal)
  : Eff MessageList_pre2003 unit :=
  self <- get ;;
  oldEntryID <-
    match curMessageItem self with
    | Some item =>
        entryID <- lift (getattr_entryID (mi_msg item)) ;;
        ret (Some entryID)
    | None => ret None
    end ;;
  call gesture_send ;;;
  let msg := selected_msg query in
  if py_truthy msg then
    messageItem <-
      lift (MessageItem__init__ (PyNVDAObject (ml_windowHandle self)) msg PyNone) ;;
    newEntryID <- lift (getattr_entryID (mi_msg messageItem)) ;;
    if negb (option_string_eqb (Some newEntryID) oldEntryID) then
      put {| ml_windowHandle := ml_windowHandle self;
             curMessageItem := Some messageItem |} ;;;
      call (executeEvent_MessageItem "gainFocus" messageItem)
    else ret tt
  else ret tt.

End LegacyList.

(* ================================================================== *)
(** * UIAGridRow *)
(* ================================================================== *)

(** The properties of the selected remote item that [_get_name] reads, each
    inside its own [try ... except COMError]. *)
Record SelectionItem : Type := {
  sel_unread : option bool;
  sel_messageClass : option string;
  sel_flagIcon : option Z;
  sel_attachments_count : option Z;
  sel_importance : option Z
}.

(** A cached text child: its [cachedName] (Python's [None] is the empty
    string here, both are false) and the [currentName] of each of its
    column header items ([None]: the property is not set). *)
Record CachedChild : Type := {
  cachedName : string;
  columnHeaderItems : option (list string)
}.

(** What [_get_name] reads of the row and, through it, of the app module. *)
Record UIAGridRow : Type := {
  row_STATE_EXPANDED : bool;
  row_STATE_COLLAPSED : bool;
  (** [self.appModule.nativeOm] is true *)
  row_nativeOm : bool;
  (** [nativeOm.activeExplorer().selection.item(1)]; [None] on [COMError] *)
  row_selection : option SelectionItem;
  row_outlookVersion : Z;
  (** [self._get_value()] *)
  row_value : string;
  row_cachedChildren : list CachedChild;
  (** [super(UIAGridRow, self).name] *)
  row_super_name : string
}.

(** [textList.append(x)] and [textList.extend(xs)] *)
Definition append (textList : list string) (x : string) : list string :=
  (textList ++ [x])%list.

Definition extend (textList xs : list string) : list string :=
  (textList ++ xs)%list.

Definition nonempty (s : string) : bool := negb (String.eqb s "").

Section GridRow.

Variable gettext : string -> string.

(** [controlTypes.stateLabels] at [STATE_EXPANDED] and [STATE_COLLAPSED],
    and [config.conf['documentFormatting']['reportTableHeaders']]. *)
Variable stateLabels_EXPANDED : string.
Variable stateLabels_COLLAPSED : string.
Variable reportTableHeaders : bool.

(** [if label: textList.append(label)] for the result of a [dict.get]. *)
Definition append_label (textList : list string) (label : option string)
  : list string :=
  match label with
  | Some l => if nonempty l then append textList l else textList
  | None => textList
  end.

(** The tokens of the value that the modern branch appends. *)
Definition value_tokens (value : string) (unread : bool) (messageClass : string)
  : list string :=
  let valueParts := split " " value in
  let valueCount := len valueParts in
  let lastPart := if unread then valueCount else valueCount - 1 in
  let firstPart :=
    if str_in messageClass silentMessageClasses
    then Z.max 1 (valueCount - 2) else 0 in
  slice valueParts firstPart lastPart.

(** The body of [if selection:]. *)
Definition selection_labels (self : UIAGridRow) (selection : SelectionItem)
    (textList : list string) : list string :=
  let unread := match sel_unread selection with Some u => u | None => false end in
  let messageClass := sel_messageClass selection in
  let flagIcon := match sel_flagIcon selection with Some f => f | None => 0 end in
  let flagIconLabel := dict_get (oleFlagIconLabels gettext) flagIcon in
  let textList := append_label textList flagIconLabel in
  let attachmentCount :=
    match sel_attachments_count selection with Some c => c | None => 0 end in
  let textList :=
    if attachmentCount >? 0 then append textList (gettext "has attachment")
    else textList in
  let importance := match sel_importance selection with Some i => i | None => 1 end in
  let importanceLabel := dict_get (importanceLabels gettext) importance in
  let textList := append_label textList importanceLabel in
  if row_outlookVersion self <? 15 then
    let textList := if unread then append textList (gettext "unread") else textList in
    match messageClass with
    | Some mc =>
        if String.eqb mc "IPM.Schedule.Meeting.Request"
        then append textList (gettext "meeting request") else textList
    | None => textList
    end
  else
    match messageClass with
    | Some mc => extend textList (value_tokens (row_value self) unread mc)
    | None => textList
    end.

(** One turn of the loop over the cached children: the text appended for
    the child, if any. *)
Definition child_text (e : CachedChild) : option string :=
  let name := cachedName e in
  let columnHeaderItems :=
    if (nonempty name && reportTableHeaders)%bool then columnHeaderItems e else None in
  let columnHeaderTextList :=
    match columnHeaderItems with
    | Some items => items
    | None => []
    end in
  let columnHeaderText := join " " columnHeaderTextList in
  let text :=
    if nonempty columnHeaderText
    then str_format "{header} {name}" [("header", columnHeaderText); ("name", name)]
    else name in
  if nonempty text then Some (text ++ ",")%string else None.

Fixpoint children_texts (textList : list string) (children : list CachedChild)
  : list string :=
  match children with
  | [] => textList
  | e :: rest =>
      children_texts
        (match child_text e with
         | Some text => append textList text
         | None => textList
         end) rest
  end.

(** [UIAGridRow._get_name]; the debug log of the branch without children is
    not part of the result. *)
Definition UIAGridRow_get_name (self : UIAGridRow) : string :=
  let textList : list string := [] in
  let textList :=
    if row_STATE_EXPANDED self then append textList stateLabels_EXPANDED
    else if row_STATE_COLLAPSED self then append textList stateLabels_COLLAPSED
    else textList in
  let selection := if row_nativeOm self then row_selection self else None in
  let textList :=
    match selection with
    | Some selection => selection_labels self selection textList
    | None => textList
    end in
  match row_cachedChildren self with
  | [] => row_super_name self
  | _ :: _ => join " " (children_texts textList (row_cachedChildren self))
  end.

End GridRow.

(* ================================================================== *)
(** * The classification hook *)
(* ================================================================== *)

(** The classes that may stand in an overlay list: those the hook names,
    and any other class of the host. *)
Inductive OverlayClass : Type :=
| cls_Dialog
| cls_WordDocument
| cls_UIAGridRow
| cls_OutlookWordDocument
| cls_DatePickerButton
| cls_DatePickerCell
| cls_REListBox20W_CheckBox
| cls_AutoCompleteListItem
| cls_AddressBookEntry
| cls_MessageList_pre2003
| cls_SuperGridClient2010
| cls_CalendarView
| cls_other (name : string).

Definition OverlayClass_eq_dec (a b : OverlayClass) : {a = b} + {a <> b}.
Proof. decide equality. apply string_dec. Defined.

Definition cls_eqb (a b : OverlayClass) : bool :=
  if OverlayClass_eq_dec a b then true else false.

Inductive Role : Type :=
| ROLE_BUTTON
| ROLE_TABLECELL
| ROLE_CHECKBOX
| ROLE_LISTITEM
| ROLE_other (n : Z).

Definition Role_eq_dec (a b : Role) : {a = b} + {a <> b}.
Proof. decide equality. apply Z.eq_dec. Defined.

Definition role_eqb (a b : Role) : bool :=
  if Role_eq_dec a b then true else false.

(** [winUser.OBJID_CLIENT] *)
Definition OBJID_CLIENT : Z := -4.

(** What the hook reads of the raw object. *)
Record NVDAObject : Type := {
  isUIA : bool;                       (* isinstance(obj,UIA) *)
  UIAElement_cachedClassName : string;
  isIAccessible : bool;               (* isinstance(obj,IAccessible) *)
  windowHandle : Z;
  role : Role;
  windowClassName : string;
  windowControlID : Z;
  event_objectID : Z;
  event_childID : Z
}.

(** [x in clsList], [clsList.insert(0,x)] and [clsList.remove(x)], which
    removes the first occurrence only. *)
Definition cls_in (x : OverlayClass) (clsList : list OverlayClass) : bool :=
  existsb (cls_eqb x) clsList.

Definition insert0 (x : OverlayClass) (clsList : list OverlayClass)
  : list OverlayClass := x :: clsList.

Fixpoint list_remove (x : OverlayClass) (clsList : list OverlayClass)
  : list OverlayClass :=
  match clsList with
  | [] => []
  | y :: rest => if cls_eqb y x then rest else y :: list_remove x rest
  end.

(** The state of the hook: the world, and the list object [clsList], which
    the hook changes in place. *)
Record HookState : Type := {
  hook_world : World;
  clsList : list OverlayClass
}.

Definition in_world {A : Type} (m : Eff World A) : Eff HookState A :=
  fun s =>
    match m (hook_world s) with
    | (r, w, t) => (r, {| hook_world := w; clsList := clsList s |}, t)
    end.

Definition update_clsList (f : list OverlayClass -> list OverlayClass)
  : Eff HookState unit :=
  fun s => (Return tt, {| hook_world := hook_world s; clsList := f (clsList s) |}, []).

Section Classification.

Local Open Scope eff_scope.

Variable gettext : string -> string.
Variable getActiveObject : nat -> option OutlookApplication.
Variable py_int : string -> PyResult Z.

(** [winUser.getAncestor(hwnd,winUser.GA_PARENT)] (0: no parent) and
    [winUser.getClassName(hwnd)]. *)
Variable getAncestor_GA_PARENT : Z -> Z.
Variable getClassName : Z -> string.

Definition chooseNVDAObjectOverlayClasses (obj : NVDAObject) : Eff HookState unit :=
  (if (isUIA obj
       && str_in (UIAElement_cachedClassName obj) ["LeafRow"; "ThreadItem"; "ThreadHeader"])%bool
   then update_clsList (insert0 cls_UIAGridRow) else ret tt) ;;;
  if negb (isIAccessible obj) then ret tt
  else
    s <- get ;;
    (if cls_in cls_Dialog (clsList s) then
       let parentWindow := getAncestor_GA_PARENT (windowHandle obj) in
       if (negb (parentWindow =? 0)
           && String.eqb (getClassName parentWindow) "AfxWndW")%bool
       then update_clsList (list_remove cls_Dialog) else ret tt
     else ret tt) ;;;
    s <- get ;;
    (if cls_in cls_WordDocument (clsList s)
     then update_clsList (insert0 cls_OutlookWordDocument) else ret tt) ;;;
    let role := role obj in
    let windowClassName := windowClassName obj in
    let controlID := windowControlID obj in
    (if ((controlID =? 4352) && role_eqb role ROLE_BUTTON)%bool then
       update_clsList (insert0 cls_DatePickerButton)
     else if (role_eqb role ROLE_TABLECELL
              && String.eqb windowClassName "rctrl_renwnd32")%bool then
       update_clsList (insert0 cls_DatePickerCell)
     else if (String.eqb windowClassName "REListBox20W"
              && role_eqb role ROLE_CHECKBOX)%bool then
       update_clsList (insert0 cls_REListBox20W_CheckBox)
     else if (role_eqb role ROLE_LISTITEM
              && (startswith windowClassName "REListBox"
                  || startswith windowClassName "NetUIHWND"))%bool then
       update_clsList (insert0 cls_AutoCompleteListItem)
     else ret tt) ;;;
    if (role_eqb role ROLE_LISTITEM && String.eqb windowClassName "OUTEXVLB")%bool then
      update_clsList (insert0 cls_AddressBookEntry)
    else
      (if ((String.eqb windowClassName "SUPERGRID" && (controlID =? 4704))
           || (String.eqb windowClassName "rctrl_renwnd32" && (controlID =? 109)))%bool
       then
         outlookVersion <- in_world (outlookVersion gettext getActiveObject py_int) ;;
         if (negb (outlookVersion =? 0) && (outlookVersion <=? 9))%bool then
           update_clsList (insert0 cls_MessageList_pre2003)
         else if ((event_objectID obj =? OBJID_CLIENT) && (event_childID obj =? 0))%bool
         then update_clsList (insert0 cls_SuperGridClient2010)
         else ret tt
       else ret tt) ;;;
      if ((String.eqb windowClassName "AfxWndW" && (controlID =? 109))
          || str_in windowClassName ["WeekViewWnd"; "DayViewWnd"])%bool
      then update_clsList (insert0 cls_CalendarView)
      else ret tt.

End Classification.

(* ================================================================== *)
(** * Further formatting helpers *)
(* ================================================================== *)

(** The properties of a contact that [getContactString] reads; [None] is
    Python's [None]. *)
Record ContactItem : Type := {
  fullName : option string;
  companyName : option string;
  jobTitle : option string;
  email1address : option string
}.

(** The properties of a sent mail item that [getSentMessageString] reads. *)
Record SentMessage : Type := {
  sent_to : string;
  sent_subject : string;
  sentOn : string
}.

Section MoreFormatting.

Variable gettext : string -> string.

(** Python's classification of a character as white space. *)
Variable isspace_char : ascii -> bool.

Fixpoint all_chars (p : ascii -> bool) (s : string) : bool :=
  match s with
  | EmptyString => true
  | String c rest => (p c && all_chars p rest)%bool
  end.

(** [s.isspace()]: at least one character, and white space only. *)
Definition isspace (s : string) : bool :=
  (nonempty s && all_chars isspace_char s)%bool.

(** [x and not x.isspace()] as a truth value. *)
Definition contact_field_kept (x : option string) : bool :=
  match x with
  | Some s => (nonempty s && negb (isspace s))%bool
  | None => false
  end.

(** [[x for x in fields if x and not x.isspace()]] *)
Fixpoint kept_fields (fields : list (option string)) : list string :=
  match fields with
  | [] => []
  | x :: rest =>
      match x with
      | Some s => if contact_field_kept x then s :: kept_fields rest
                  else kept_fields rest
      | None => kept_fields rest
      end
  end.

Definition getContactString (obj : ContactItem) : string :=
  join ", " (kept_fields [fullName obj; companyName obj; jobTitle obj; email1address obj]).

Definition getSentMessageString (obj : SentMessage) : string :=
  let nameList : list string := [] in
  let nameList := (nameList ++ [sent_to obj])%list in
  let nameList := (nameList ++ [pct_format (gettext "subject: %s") [sent_subject obj]])%list in
  let nameList := (nameList ++ [pct_format (gettext "sent: %s") [sentOn obj]])%list in
  join ", " nameList.

End MoreFormatting.

(* ================================================================== *)
(** * Further parts of the app module and of the overlays *)
(* ================================================================== *)

(** [AppModule.isBadUIAWindow] *)
Definition isBadUIAWindow (getClassName : Z -> string) (hwnd : Z) : bool :=
  if str_in (getClassName hwnd) ["WeekViewWnd"; "DayViewWnd"] then true else false.

(** [MessageList_pre2003._get_children]; a message item is a true value. *)
Definition MessageList_pre2003_get_children (self : MessageList_pre2003)
  : list MessageItem :=
  match curMessageItem self with
  | Some child => [child]
  | None => []
  end.

(** A position info dict, as its item list in insertion order. *)
Fixpoint info_get (info : list (string * Z)) (key : string) : option Z :=
  match info with
  | [] => None
  | (k, v) :: rest => if String.eqb k key then Some v else info_get rest key
  end.

(** [info[key]=value] *)
Fixpoint info_set (info : list (string * Z)) (key : string) (value : Z)
  : list (string * Z) :=
  match info with
  | [] => [(key, value)]
  | (k, v) :: rest =>
      if String.eqb k key then (k, value) :: rest
      else (k, v) :: info_set rest key value
  end.

(** [UIAGridRow._get_positionInfo]: [super_positionInfo] is the info of the
    base class ([None] when it is [None]), [UIAClassName] the cached class
    name, [parent_isUIAGridRow] whether the base parent is a grid row. *)
Definition UIAGridRow_get_positionInfo (super_positionInfo : option (list (string * Z)))
    (UIAClassName : string) (parent_isUIAGridRow : bool) : list (string * Z) :=
  let info := match super_positionInfo with Some info => info | None => [] end in
  if String.eqb UIAClassName "ThreadHeader" then info_set info "level" 1
  else if (String.eqb UIAClassName "ThreadItem" && parent_isUIAGridRow)%bool
  then info_set info "level" 2
  else info.

(** The calls of [MailViewerTreeInterceptor.script_tab], in the order made. *)
Inductive TabCall : Type :=
| tab_gesture_send
| tab_expand_UNIT_CELL
| tab_speakTextInfo
| tab_braille_handleCaretMove.

(** [MailViewerTreeInterceptor.script_tab]: [caretMoved] is what
    [_hasCaretMoved(bookmark)] reports after the gesture, [inTable] whether
    the new selection counts a table, [isCollapsed] whether it is collapsed. *)
Definition script_tab (caretMoved inTable isCollapsed : bool) : list TabCall :=
  ([tab_gesture_send]
   ++ (if negb caretMoved then []
       else
         let expand := (inTable && isCollapsed)%bool in
         let isCollapsed := if expand then false else isCollapsed in
         (if expand then [tab_expand_UNIT_CELL] else [])
         ++ (if negb isCollapsed then [tab_speakTextInfo] else [])
         ++ [tab_braille_handleCaretMove]))%list.

(* ================================================================== *)
(** * AutoCompleteListItem and event_NVDAObject_init *)
(* ================================================================== *)

(** The states that [AutoCompleteListItem.event_stateChange] tests, and any
    other state of the host. *)
Inductive State : Type :=
| STATE_SELECTED
| STATE_INVISIBLE
| STATE_UNAVAILABLE
| STATE_OFFSCREEN
| STATE_other (n : Z).

Definition State_eq_dec (a b : State) : {a = b} + {a <> b}.
Proof. decide equality. apply Z.eq_dec. Defined.

(** [x in states] *)
Definition state_in (x : State) (states : list State) : bool :=
  existsb (fun y => if State_eq_dec x y then true else false) states.

(** The calls of [AutoCompleteListItem.event_stateChange]. *)
Inductive SpeechCall : Type :=
| speech_cancelSpeech
| ui_message_of (text : string).

(** What [event_NVDAObject_init] reads and writes of the object.
    [init_parent] is the attribute [parent] when the function has written
    it ([None]: not written), [init_description_cleared] whether the
    attribute [description] has been set to [None]. *)
Record InitObject : Type := {
  init_id : Z;
  init_role : Role;
  init_windowClassName : string;
  init_windowControlID : Z;
  init_isMSHTML : bool;
  init_parent : option Z;
  init_description_cleared : bool;
  init_shouldAllowIAccessibleFocusEvent : bool
}.

Section HostRoles.

(** The roles of [controlTypes] that the two functions name, besides
    those of [Role]. *)
Variable ROLE_EDITABLETEXT : Role.
Variable ROLE_PANE : Role.
Variable ROLE_MENUBAR : Role.
Variable ROLE_MENUITEM : Role.
Variable ROLE_TREEVIEW : Role.
Variable ROLE_TREEVIEWITEM : Role.
Variable ROLE_LIST : Role.
Variable ROLE_UNKNOWN : Role.

(** [Window._get_parent] on objects, each known by an id. *)
Variable Window_get_parent : Z -> Z.

(** [AutoCompleteListItem.event_stateChange]: [states] is [self.states],
    [focus_role] the role of [api.getFocusObject()], [name] is [self.name]. *)
Definition AutoCompleteListItem_event_stateChange (states : list State)
    (focus_role : Role) (name : string) : list SpeechCall :=
  if ((role_eqb focus_role ROLE_EDITABLETEXT || role_eqb focus_role ROLE_BUTTON)
      && state_in STATE_SELECTED states
      && negb (state_in STATE_INVISIBLE states)
      && negb (state_in STATE_UNAVAILABLE states)
      && negb (state_in STATE_OFFSCREEN states))%bool
  then [speech_cancelSpeech; ui_message_of name]
  else [].

Definition role_in (x : Role) (roles : list Role) : bool :=
  existsb (role_eqb x) roles.

Definition event_NVDAObject_init (obj : InitObject) : InitObject :=
  let role := init_role obj in
  let windowClassName := init_windowClassName obj in
  let controlID := init_windowControlID obj in
  let parent1 :=
    if (role_eqb role ROLE_EDITABLETEXT && String.eqb windowClassName "RichEdit20W"
        && (controlID =? 8224))%bool
    then Some (Window_get_parent (Window_get_parent (init_id obj)))
    else init_parent obj in
  let parent2 :=
    if (String.eqb windowClassName "Internet Explorer_Server" && role_eqb role ROLE_PANE
        && negb (init_isMSHTML obj))%bool
    then Some (Window_get_parent (Window_get_parent (init_id obj)))
    else parent1 in
  let description_cleared :=
    if role_in role [ROLE_MENUBAR; ROLE_MENUITEM] then true
    else init_description_cleared obj in
  let shouldAllow :=
    if role_in role [ROLE_TREEVIEW; ROLE_TREEVIEWITEM; ROLE_LIST; ROLE_LISTITEM] then true
    else init_shouldAllowIAccessibleFocusEvent obj in
  let role' :=
    if (((String.eqb windowClassName "SUPERGRID" && (controlID =? 4704))
         || (String.eqb windowClassName "rctrl_renwnd32" && (controlID =? 109)))
        && role_eqb role ROLE_UNKNOWN)%bool
    then ROLE_LISTITEM else role in
  {| init_id := init_id obj;
     init_role := role';
     init_windowClassName := windowClassName;
     init_windowControlID := controlID;
     init_isMSHTML := init_isMSHTML obj;
     init_parent := parent2;
     init_description_cleared := description_cleared;
     init_shouldAllowIAccessibleFocusEvent := shouldAllow |}.

End HostRoles.

(* ================================================================== *)
(** * Vocabulary of the properties *)
(* ================================================================== *)

(** [n] successive reads of the attribute [nativeOm]. *)
Fixpoint nativeOm_reads (gettext : string -> string)
    (getActiveObject : nat -> option OutlookApplication) (n : nat)
  : Eff World (list (option OutlookApplication)) :=
  match n with
  | O => ret []
  | S n' =>
      bind (nativeOm gettext getActiveObject) (fun r =>
      bind (nativeOm_reads gettext getActiveObject n') (fun rs =>
      ret (r :: rs)))
  end.

(** The host calls that show the waiting dialog, and those that log an
    error. *)
Definition is_Dialog_Show (c : HostCall) : bool :=
  match c with
  | Dialog_Show _ => true
  | _ => false
  end.

Definition is_log_error (c : HostCall) : bool :=
  match c with
  | log_error _ => true
  | _ => false
  end.

Definition count_calls (p : HostCall -> bool) (t : list HostCall) : nat :=
  List.length (filter p t).

(** A session on which no acquisition has been tried yet. *)
Definition untried (w : World) : Prop :=
  _hasTriedoutlookAppSwitch (appModule w) = false
  /\ nativeOm_attr (appModule w) = None.

(** An oracle under which every acquisition fails. *)
Definition never_available (n : nat) : option OutlookApplication := None.

(** A datetime from its six fields. *)
Definition mk_datetime (y mo d h mi s : Z) : datetime :=
  {| year := y; month := mo; day := d; hour := h; minute := mi; second := s |}.

Definition starts_at_midnight (t : datetime) : bool :=
  ((hour t =? 0) && (minute t =? 0) && (second t =? 0))%bool.

(** The slots that the code renders as all day: the start is at midnight
    and the end falls on the calendar day after the start's. *)
Definition all_day_slot (startTime endTime : datetime) : bool :=
  (starts_at_midnight startTime
   && (toordinal (datetime_date endTime) - toordinal (datetime_date startTime) =? 1))%bool.

(** Sample formatters: a clock as hh:mm and a long date as day, month name
    and year. *)
Definition Z_to_string (n : Z) : string :=
  NilZero.string_of_uint (N.to_uint (Z.to_N n)).

Definition two_digits (n : Z) : string :=
  ((if (n <? 10)%Z then "0" else "") ++ Z_to_string n)%string.

Definition clock_text (t : datetime) : string :=
  (two_digits (hour t) ++ ":" ++ two_digits (minute t))%string.

Definition month_names : list string :=
  ["January"; "February"; "March"; "April"; "May"; "June"; "July";
   "August"; "September"; "October"; "November"; "December"].

Definition long_date_text (t : datetime) : string :=
  (Z_to_string (day t) ++ " "
   ++ nth (Z.to_nat (month t - 1)) month_names "" ++ " "
   ++ Z_to_string (year t))%string.

(** A host [Window.__init__] that accepts every handle. *)
Definition Window_accepts (windowHandle : PyVal) : PyResult unit := Return tt.

(** A message item as the legacy list would hold it, for the mail item with
    the given [entryID] and [Class]. *)
Definition item_of (h : Z) (m : string * Z) : MessageItem :=
  {| mi_windowHandle := PyInt h;
     mi_msg := PyMailItem (fst m) (snd m);
     mi_parent := PyNVDAObject h |}.

Definition is_executeEvent (c : HostCall) : bool :=
  match c with
  | executeEvent_MessageItem _ _ => true
  | executeEvent_UIA _ _ => true
  | _ => false
  end.


Definition flag_label (flagIcon : option Z) : list string :=
  match flagIcon with
  | Some 1 => ["purple flag"]
  | Some 2 => ["Orange flag"]
  | Some 3 => ["Green flag"]
  | Some 4 => ["Yellow flag"]
  | Some 5 => ["Blue flag"]
  | Some 6 => ["Red flag"]
  | _ => []
  end.

Definition attachment_label (attachmentCount : option Z) : list string :=
  match attachmentCount with
  | Some c => if c >? 0 then ["has attachment"] else []
  | None => []
  end.

Definition importance_label (importance : option Z) : list string :=
  match importance with
  | Some 2 => ["high importance"]
  | Some 0 => ["low importance"]
  | _ => []
  end.

Definition is_unread (unread : option bool) : bool :=
  match unread with
  | Some true => true
  | _ => false
  end.

(** The tokens of the value kept for a row of the modern backend: without
    the last token unless the message is unread, and for a silent class
    without the tokens before index max(1, n-2) of the n tokens. *)
Definition kept_value_tokens (value : string) (unread : bool) (messageClass : string)
  : list string :=
  let valueParts := split " " value in
  let kept := if unread then valueParts else removelast valueParts in
  if str_in messageClass silentMessageClasses
  then skipn (Nat.max 1 (List.length valueParts - 2)) kept
  else kept.

(** The tokens as C7 words them: without the last token unless the message
    is unread, and without the first token for a silent class. *)
Definition value_tokens_claimed (value : string) (unread : bool) (messageClass : string)
  : list string :=
  let valueParts := split " " value in
  let kept := if unread then valueParts else removelast valueParts in
  if str_in messageClass silentMessageClasses then tl kept else kept.

Definition trailing_tokens (outlookVersion : Z) (unread : bool)
    (messageClass : option string) (value : string) : list string :=
  if outlookVersion <? 15 then
    ((if unread then ["unread"] else [])
     ++ (match messageClass with
         | Some mc =>
             if String.eqb mc "IPM.Schedule.Meeting.Request"
             then ["meeting request"] else []
         | None => []
         end))%list
  else
    match messageClass with
    | Some mc => kept_value_tokens value unread mc
    | None => []
    end.



(** A sample row of the modern backend: a flagged, unread mail with high
    importance whose attachment count could not be read. *)
Definition sample_selection : SelectionItem :=
  {| sel_unread := Some true;
     sel_messageClass := Some "IPM.Note";
     sel_flagIcon := Some 6;
     sel_attachments_count := None;
     sel_importance := Some 2 |}.

Definition sample_row : UIAGridRow :=
  {| row_STATE_EXPANDED := false;
     row_STATE_COLLAPSED := false;
     row_nativeOm := true;
     row_selection := Some sample_selection;
     row_outlookVersion := 16;
     row_value := "Message Replied Unread";
     row_cachedChildren := [ {| cachedName := "Bob"; columnHeaderItems := Some ["From"] |} ];
     row_super_name := "row" |}.


(** A computation of the hook that does not bring [Dialog] into a list
    that is free of it. *)
Definition keeps_Dialog_out {A : Type} (m : Eff HookState A) : Prop :=
  forall s : HookState,
    cls_in cls_Dialog (clsList s) = false ->
    cls_in cls_Dialog (clsList (final (m s))) = false.

(** Sample host functions and objects for the hook: every window has the
    parent 7, whose class is AfxWndW. *)
Definition parent_is_7 (hwnd : Z) : Z := 7.
Definition class_is_AfxWndW (hwnd : Z) : string := "AfxWndW".
Definition int_fails (s : string) : PyResult Z := Raise ValueError.

Definition sample_UIA_dialog : NVDAObject :=
  {| isUIA := true; UIAElement_cachedClassName := "";
     isIAccessible := false;
     windowHandle := 5; role := ROLE_other 0;
     windowClassName := "#32770"; windowControlID := 0;
     event_objectID := 0; event_childID := 0 |}.

Definition sample_IAccessible_dialog : NVDAObject :=
  {| isUIA := false; UIAElement_cachedClassName := "";
     isIAccessible := true;
     windowHandle := 5; role := ROLE_other 0;
     windowClassName := "#32770"; windowControlID := 0;
     event_objectID := 0; event_childID := 0 |}.

(** A world in which [None] has been written to the attribute. *)
Definition world_without_Outlook : World :=
  {| appModule := {| _hasTriedoutlookAppSwitch := true; nativeOm_attr := Some None |};
     CalendarView_lastStartDate := None;
     getActiveObject_calls := 2 |}.

(** A sample remote object model, and an oracle under which the first
    acquisition fails and every later one gives it. *)
Definition sample_Outlook : OutlookApplication :=
  {| version := "16.0.4266.1001";
     activeExplorer := {| selection := [];
                          selectedStartTime := None;
                          selectedEndTime := None;
                          items_find := fun _ => Some false |} |}.

Definition available_later (n : nat) : option OutlookApplication :=
  match n with
  | O => None
  | S _ => Some sample_Outlook
  end.

(** A world in which the object model [om] has been written to the
    attribute. *)
Definition world_with (om : OutlookApplication) : World :=
  {| appModule := {| _hasTriedoutlookAppSwitch := false;
                     nativeOm_attr := Some (Some om) |};
     CalendarView_lastStartDate := None;
     getActiveObject_calls := 1 |}.

(** The character [c] does not occur in [s]. *)
Fixpoint no_char (c : ascii) (s : string) : bool :=
  match s with
  | EmptyString => true
  | String x rest => (negb (Ascii.eqb x c) && no_char c rest)%bool
  end.

(** A sample [int]: the value of a non-empty string of decimal digits. *)
Definition digit_value (c : ascii) : option Z :=
  let n := Z.of_nat (nat_of_ascii c) in
  if ((48 <=? n) && (n <=? 57))%bool then Some (n - 48) else None.

Fixpoint digits_value (acc : Z) (s : string) : option Z :=
  match s with
  | EmptyString => Some acc
  | String c rest =>
      match digit_value c with
      | Some d => digits_value (acc * 10 + d) rest
      | None => None
      end
  end.

Definition int_of_digits (s : string) : PyResult Z :=
  match s with
  | EmptyString => Raise ValueError
  | String _ _ =>
      match digits_value 0 s with
      | Some n => Return n
      | None => Raise ValueError
      end
  end.

(** The three calls by which [reportFocus] announces something. *)
Definition is_announcement (c : HostCall) : bool :=
  match c with
  | ui_message _ => true
  | super_reportFocus => true
  | event_valueChange => true
  | _ => false
  end.

(** A sample explorer with one appointment selected. *)
Definition sample_appointment : AppointmentItem :=
  {| appt_start := Some (mk_datetime 2024 3 1 10 0 0);
     appt_end := Some (mk_datetime 2024 3 1 11 0 0);
     appt_subject := Some "Review" |}.

Definition Outlook_with_appointment : OutlookApplication :=
  {| version := "16.0.4266.1001";
     activeExplorer := {| selection := [sample_appointment];
                          selectedStartTime := None;
                          selectedEndTime := None;
                          items_find := fun _ => Some false |} |}.

(** A sample explorer with an appointment whose end cannot be read. *)
Definition Outlook_with_unreadable_appointment : OutlookApplication :=
  {| version := "16.0.4266.1001";
     activeExplorer := {| selection := [ {| appt_start := Some (mk_datetime 2024 3 1 10 0 0);
                                            appt_end := None;
                                            appt_subject := Some "Review" |} ];
                          selectedStartTime := None;
                          selectedEndTime := None;
                          items_find := fun _ => Some false |} |}.

(** A sample explorer with a time slot selected, in a folder where every
    query finds an appointment. *)
Definition Outlook_with_time_slot : OutlookApplication :=
  {| version := "16.0.4266.1001";
     activeExplorer := {| selection := [];
                          selectedStartTime := Some (mk_datetime 2024 3 1 10 0 0);
                          selectedEndTime := Some (mk_datetime 2024 3 1 10 30 0);
                          items_find := fun _ => Some true |} |}.

(** The events that the legacy list handles, each with the selection that
    the remote side gives when it is handled, and a run of the list through
    a sequence of them (an exception ends the handler, not the run). *)
Inductive ListEvent : Type :=
| list_gainFocus (query : option PyVal)
| list_moveByMessage (query : option PyVal).

Fixpoint run_list_events (Window__init__ : PyVal -> PyResult unit)
    (events : list ListEvent) (self : MessageList_pre2003)
  : MessageList_pre2003 * list HostCall :=
  match events with
  | [] => (self, [])
  | ev :: rest =>
      let r :=
        match ev with
        | list_gainFocus query =>
            MessageList_pre2003_event_gainFocus Window__init__ query self
        | list_moveByMessage query =>
            script_moveByMessage Window__init__ query self
        end in
      let rest_run := run_list_events Window__init__ rest (final r) in
      (fst rest_run, (trace r ++ snd rest_run)%list)
  end.

(** The contact in which every field that [getContactString] leaves out is
    [None]. *)
Definition without_blanks (isspace_char : ascii -> bool) (obj : ContactItem)
  : ContactItem :=
  let keep (x : option string) :=
    if contact_field_kept isspace_char x then x else None in
  {| fullName := keep (fullName obj);
     companyName := keep (companyName obj);
     jobTitle := keep (jobTitle obj);
     email1address := keep (email1address obj) |}.

(** A sample classification: the blank, and the controls 9 to 13. *)
Definition ascii_space (c : ascii) : bool :=
  let n := Z.of_nat (nat_of_ascii c) in
  ((n =? 32) || ((9 <=? n) && (n <=? 13)))%bool.

Definition tab_call_eqb (a b : TabCall) : bool :=
  match a, b with
  | tab_gesture_send, tab_gesture_send => true
  | tab_expand_UNIT_CELL, tab_expand_UNIT_CELL => true
  | tab_speakTextInfo, tab_speakTextInfo => true
  | tab_braille_handleCaretMove, tab_braille_handleCaretMove => true
  | _, _ => false
  end.

(** Whether the call [c] is made. *)
Definition makes (c : TabCall) (calls : list TabCall) : bool :=
  existsb (tab_call_eqb c) calls.

Definition is_super_event_gainFocus (c : HostCall) : bool :=
  match c with
  | super_event_gainFocus => true
  | _ => false
  end.

Definition default_info (super_positionInfo : option (list (string * Z)))
  : list (string * Z) :=
  match super_positionInfo with
  | Some info => info
  | None => []
  end.

(** The tests of the hook on the window of the object. *)
Definition is_message_list_window (obj : NVDAObject) : bool :=
  ((String.eqb (windowClassName obj) "SUPERGRID" && (windowControlID obj =? 4704))
   || (String.eqb (windowClassName obj) "rctrl_renwnd32" && (windowControlID obj =? 109)))%bool.

Definition is_address_book_row (obj : NVDAObject) : bool :=
  (role_eqb (role obj) ROLE_LISTITEM && String.eqb (windowClassName obj) "OUTEXVLB")%bool.

Definition is_calendar_window (obj : NVDAObject) : bool :=
  ((String.eqb (windowClassName obj) "AfxWndW" && (windowControlID obj =? 109))
   || str_in (windowClassName obj) ["WeekViewWnd"; "DayViewWnd"])%bool.

(** The overlay list after each rule of the hook, in the order of the
    rules. *)
Definition after_row_rule (obj : NVDAObject) (l : list OverlayClass)
  : list OverlayClass :=
  if (isUIA obj
      && str_in (UIAElement_cachedClassName obj) ["LeafRow"; "ThreadItem"; "ThreadHeader"])%bool
  then insert0 cls_UIAGridRow l else l.

Definition after_dialog_rule (getAncestor_GA_PARENT : Z -> Z) (getClassName : Z -> string)
    (obj : NVDAObject) (l : list OverlayClass) : list OverlayClass :=
  if cls_in cls_Dialog l then
    if (negb (getAncestor_GA_PARENT (windowHandle obj) =? 0)
        && String.eqb (getClassName (getAncestor_GA_PARENT (windowHandle obj))) "AfxWndW")%bool
    then list_remove cls_Dialog l else l
  else l.

Definition after_document_rule (l : list OverlayClass) : list OverlayClass :=
  if cls_in cls_WordDocument l then insert0 cls_OutlookWordDocument l else l.

Definition after_control_rules (obj : NVDAObject) (l : list OverlayClass)
  : list OverlayClass :=
  if ((windowControlID obj =? 4352) && role_eqb (role obj) ROLE_BUTTON)%bool then
    insert0 cls_DatePickerButton l
  else if (role_eqb (role obj) ROLE_TABLECELL
           && String.eqb (windowClassName obj) "rctrl_renwnd32")%bool then
    insert0 cls_DatePickerCell l
  else if (String.eqb (windowClassName obj) "REListBox20W"
           && role_eqb (role obj) ROLE_CHECKBOX)%bool then
    insert0 cls_REListBox20W_CheckBox l
  else if (role_eqb (role obj) ROLE_LISTITEM
           && (startswith (windowClassName obj) "REListBox"
               || startswith (windowClassName obj) "NetUIHWND"))%bool then
    insert0 cls_AutoCompleteListItem l
  else l.

Definition before_window_rules (getAncestor_GA_PARENT : Z -> Z) (getClassName : Z -> string)
    (obj : NVDAObject) (l : list OverlayClass) : list OverlayClass :=
  after_control_rules obj
    (after_document_rule
       (after_dialog_rule getAncestor_GA_PARENT getClassName obj
          (after_row_rule obj l))).

Definition after_message_list_rule (obj : NVDAObject) (outlookVersion : Z)
    (l : list OverlayClass) : list OverlayClass :=
  if (negb (outlookVersion =? 0) && (outlookVersion <=? 9))%bool then
    insert0 cls_MessageList_pre2003 l
  else if ((event_objectID obj =? OBJID_CLIENT) && (event_childID obj =? 0))%bool
  then insert0 cls_SuperGridClient2010 l
  else l.

Definition after_calendar_rule (obj : NVDAObject) (l : list OverlayClass)
  : list OverlayClass :=
  if is_calendar_window obj then insert0 cls_CalendarView l else l.

(** The classes that the module defines. *)
Definition is_module_class (c : OverlayClass) : bool :=
  match c with
  | cls_Dialog => false
  | cls_WordDocument => false
  | cls_other _ => false
  | _ => true
  end.

(** Sample objects: a time slot of the week view, a row of the address
    book, and the client of the message list. *)
Definition sample_week_view : NVDAObject :=
  {| isUIA := false; UIAElement_cachedClassName := "";
     isIAccessible := true;
     windowHandle := 9; role := ROLE_other 0;
     windowClassName := "WeekViewWnd"; windowControlID := 0;
     event_objectID := -4; event_childID := 0 |}.

Definition sample_address_book_row : NVDAObject :=
  {| isUIA := false; UIAElement_cachedClassName := "";
     isIAccessible := true;
     windowHandle := 9; role := ROLE_LISTITEM;
     windowClassName := "OUTEXVLB"; windowControlID := 0;
     event_objectID := -4; event_childID := 3 |}.

Definition sample_message_list : NVDAObject :=
  {| isUIA := false; UIAElement_cachedClassName := "";
     isIAccessible := true;
     windowHandle := 9; role := ROLE_other 0;
     windowClassName := "SUPERGRID"; windowControlID := 4704;
     event_objectID := -4; event_childID := 0 |}.

Definition sample_UIA_row : NVDAObject :=
  {| isUIA := true; UIAElement_cachedClassName := "LeafRow";
     isIAccessible := false;
     windowHandle := 9; role := ROLE_other 0;
     windowClassName := "OutlookGrid"; windowControlID := 0;
     event_objectID := 0; event_childID := 0 |}.

Definition class_of_window (hwnd : Z) : string :=
  if hwnd =? 9 then "WeekViewWnd" else "AfxWndW".

(** The list [l] is [base] with classes of the module in front. *)
Definition extends (base l : list OverlayClass) : Prop :=
  exists pre : list OverlayClass,
    l = (pre ++ base)%list /\ forallb is_module_class pre = true.

(** A sample unknown object of the message list. *)
Definition sample_unknown_row : InitObject :=
  {| init_id := 11;
     init_role := ROLE_other 0;
     init_windowClassName := "SUPERGRID";
     init_windowControlID := 4704;
     init_isMSHTML := false;
     init_parent := None;
     init_description_cleared := false;
     init_shouldAllowIAccessibleFocusEvent := false |}.

(* ================================================================== *)
(** * Properties of the built-ins *)
(* ================================================================== *)

Lemma append_empty_r (s : string) : (s ++ "")%string = s.
Proof. induction s as [|c s IH]; simpl; [reflexivity | now rewrite IH]. Qed.

Lemma append_assoc (a b c : string) :
  ((a ++ b) ++ c)%string = (a ++ (b ++ c))%string.
Proof. induction a as [|x a IH]; simpl; [reflexivity | now rewrite IH]. Qed.

Lemma length_append (a b : string) :
  String.length (a ++ b) = (String.length a + String.length b)%nat.
Proof. induction a as [|c a IH]; simpl; [reflexivity | now rewrite IH]. Qed.

Lemma substring_after_append (a b : string) :
  substring (String.length a) (String.length b) (a ++ b) = b.
Proof.
  induction a as [|c a IH]; simpl; [| exact IH].
  induction b as [|c b IH]; simpl; [reflexivity | now rewrite IH].
Qed.

Lemma pct_format_pair (a b : string) :
  pct_format "%s %s" [a; b] = (a ++ " " ++ b)%string.
Proof. simpl. now rewrite append_empty_r. Qed.

Lemma pct_format_subject (s : string) :
  pct_format "subject: %s" [s] = ("subject: " ++ s)%string.
Proof. simpl. now rewrite append_empty_r. Qed.

Lemma pct_format_received (s : string) :
  pct_format "received: %s" [s] = ("received: " ++ s)%string.
Proof. simpl. now rewrite append_empty_r. Qed.

(* ================================================================== *)
(** * Formatting helpers: the received-message string *)
(* ================================================================== *)

(** The text without prefixes. *)
Lemma received_base (obj : ReceivedMessage) :
  join ", " [senderName obj;
             pct_format (untranslated "subject: %s") [subject obj];
             pct_format (untranslated "received: %s") [receivedTime obj]]
  = (senderName obj ++ ", subject: " ++ subject obj
     ++ ", received: " ++ receivedTime obj)%string.
Proof.
  unfold untranslated.
  rewrite pct_format_subject, pct_format_received.
  simpl. rewrite ?append_assoc. reflexivity.
Qed.

(** C1, as the code has it: the string is
    [attachment] [unread] <senderName>, subject: <subject>, received: <receivedTime>;
    the word unread is there iff the unread flag is set, the word attachment
    iff the attachment count is above 0, and when both are there attachment
    comes first, since it is prepended last.  The record of the example gives
    the string that starts with attachment unread Alice. *)
Theorem getReceivedMessageString_attachment_then_unread :
  (forall obj : ReceivedMessage,
     getReceivedMessageString untranslated obj
     = ((if attachments_count obj >? 0 then "attachment " else "")
        ++ (if unread obj then "unread " else "")
        ++ senderName obj ++ ", subject: " ++ subject obj
        ++ ", received: " ++ receivedTime obj)%string)
  /\ getReceivedMessageString untranslated
       {| senderName := "Alice"; subject := "Hi";
          receivedTime := "2024-01-01T10:00";
          unread := true; attachments_count := 1 |}
     = "attachment unread Alice, subject: Hi, received: 2024-01-01T10:00".
Proof.
  split; [| reflexivity].
  intro obj. unfold getReceivedMessageString.
  cbn [app]. rewrite received_base.
  destruct (unread obj), (attachments_count obj >? 0);
    unfold untranslated; rewrite ?pct_format_pair; reflexivity.
Qed.

(** C1 as stated fails: for the record of the example the code does not
    return the string that starts with unread attachment. *)
Lemma getReceivedMessageString_not_unread_first :
  getReceivedMessageString untranslated
    {| senderName := "Alice"; subject := "Hi";
       receivedTime := "2024-01-01T10:00";
       unread := true; attachments_count := 1 |}
  <> "unread attachment Alice, subject: Hi, received: 2024-01-01T10:00".
Proof. vm_compute. discriminate. Qed.

(* ================================================================== *)
(** * The session: acquiring the remote object model *)
(* ================================================================== *)

(** Unfolds the monad and the observers of a run. *)
Ltac eff_simpl :=
  cbv [count_calls trace outcome final ret bind get put call lift raise];
  simpl.

Section SessionFacts.

Variable gettext : string -> string.
Variable getActiveObject : nat -> option OutlookApplication.

Lemma count_calls_app (p : HostCall -> bool) (t1 t2 : list HostCall) :
  count_calls p (t1 ++ t2) = (count_calls p t1 + count_calls p t2)%nat.
Proof. unfold count_calls. now rewrite filter_app, length_app. Qed.

(** Once the instance attribute is written, a read returns it and does
    nothing else. *)
Lemma nativeOm_cached (w : World) (v : option OutlookApplication) :
  nativeOm_attr (appModule w) = Some v ->
  nativeOm gettext getActiveObject w = (Return v, w, []).
Proof.
  intro H. unfold nativeOm, bind, get. simpl. rewrite H. reflexivity.
Qed.

Lemma nativeOm_reads_cached (n : nat) (w : World) (v : option OutlookApplication) :
  nativeOm_attr (appModule w) = Some v ->
  nativeOm_reads gettext getActiveObject n w = (Return (repeat v n), w, []).
Proof.
  intro H. induction n as [|n IH]; simpl; [reflexivity|].
  unfold bind. rewrite (nativeOm_cached w v H), IH. reflexivity.
Qed.

(** A failed attempt on an untried session: the dialog is shown, the switch
    is set, nothing is written to the attribute. *)
Lemma nativeOm_first_failure (w : World) :
  untried w ->
  getActiveObject (getActiveObject_calls w) = None ->
  nativeOm gettext getActiveObject w
  = (Return None,
     {| appModule := {| _hasTriedoutlookAppSwitch := true; nativeOm_attr := None |};
        CalendarView_lastStartDate := CalendarView_lastStartDate w;
        getActiveObject_calls := S (getActiveObject_calls w) |},
     [Dialog_Center; mainFrame_prePopup;
      Dialog_Show (gettext "Waiting for Outlook...");
      api_processPendingEvents; PumpEvents 1; Dialog_Destroy; mainFrame_postPopup]).
Proof.
  intros [Ht Ha] Ho. destruct w as [[t a] d c]. simpl in *. subst t a.
  unfold nativeOm, _get_nativeOm, bind, get. simpl. rewrite Ho. reflexivity.
Qed.

(** A failed attempt after the switch is set: one error is logged and
    [None] is written to the attribute. *)
Lemma nativeOm_later_failure (w : World) :
  _hasTriedoutlookAppSwitch (appModule w) = true ->
  nativeOm_attr (appModule w) = None ->
  getActiveObject (getActiveObject_calls w) = None ->
  nativeOm gettext getActiveObject w
  = (Return None,
     {| appModule := {| _hasTriedoutlookAppSwitch := true; nativeOm_attr := Some None |};
        CalendarView_lastStartDate := CalendarView_lastStartDate w;
        getActiveObject_calls := S (getActiveObject_calls w) |},
     [log_error "Failed to get native object model"]).
Proof.
  intros Ht Ha Ho. destruct w as [[t a] d c]. simpl in *. subst t a.
  unfold nativeOm, _get_nativeOm, bind, get. simpl. rewrite Ho. reflexivity.
Qed.

(** A successful attempt writes the object to the attribute and makes no
    host call. *)
Lemma nativeOm_success (w : World) (om : OutlookApplication) :
  nativeOm_attr (appModule w) = None ->
  getActiveObject (getActiveObject_calls w) = Some om ->
  nativeOm gettext getActiveObject w
  = (Return (Some om),
     {| appModule := {| _hasTriedoutlookAppSwitch :=
                          _hasTriedoutlookAppSwitch (appModule w);
                        nativeOm_attr := Some (Some om) |};
        CalendarView_lastStartDate := CalendarView_lastStartDate w;
        getActiveObject_calls := S (getActiveObject_calls w) |},
     []).
Proof.
  intros Ha Ho. destruct w as [[t a] d c]. simpl in *. subst a.
  unfold nativeOm, _get_nativeOm, bind, get. simpl. rewrite Ho. reflexivity.
Qed.

(** After the switch is set the dialog is not shown again, and at most one
    error is logged. *)
Lemma nativeOm_reads_after_switch (n : nat) (w : World) :
  _hasTriedoutlookAppSwitch (appModule w) = true ->
  count_calls is_Dialog_Show (trace (nativeOm_reads gettext getActiveObject n w)) = 0%nat
  /\ (count_calls is_log_error (trace (nativeOm_reads gettext getActiveObject n w)) <= 1)%nat.
Proof.
  intro Ht. destruct n as [|n]; [eff_simpl; split; lia|].
  destruct (nativeOm_attr (appModule w)) as [v|] eqn:Ha.
  - rewrite (nativeOm_reads_cached _ w v Ha). eff_simpl. split; lia.
  - simpl. unfold bind.
    destruct (getActiveObject (getActiveObject_calls w)) as [om|] eqn:Ho.
    + rewrite (nativeOm_success w om Ha Ho).
      rewrite nativeOm_reads_cached with (v := Some om) by reflexivity. eff_simpl. split; lia.
    + rewrite (nativeOm_later_failure w Ht Ha Ho).
      rewrite nativeOm_reads_cached with (v := None) by reflexivity. eff_simpl. split; lia.
Qed.

(** Whatever the acquisitions give, a session shows the waiting dialog at
    most once and logs at most one error. *)
Lemma waiting_dialog_at_most_once (n : nat) (w : World) :
  untried w ->
  (count_calls is_Dialog_Show (trace (nativeOm_reads gettext getActiveObject n w)) <= 1)%nat
  /\ (count_calls is_log_error (trace (nativeOm_reads gettext getActiveObject n w)) <= 1)%nat.
Proof.
  intros Hu. destruct n as [|n]; [eff_simpl; split; lia|].
  simpl. unfold bind.
  destruct (getActiveObject (getActiveObject_calls w)) as [om|] eqn:Ho.
  - rewrite (nativeOm_success w om (proj2 Hu) Ho).
    rewrite nativeOm_reads_cached with (v := Some om) by reflexivity. eff_simpl. split; lia.
  - rewrite (nativeOm_first_failure w Hu Ho).
    match goal with
    | |- context [nativeOm_reads _ _ n ?w1] =>
        destruct (nativeOm_reads_after_switch n w1 eq_refl) as [Hs Hl];
        destruct (nativeOm_reads gettext getActiveObject n w1) as [[r w2] t]
    end.
    simpl in Hs, Hl.
    destruct r; simpl; rewrite ?app_nil_r;
      change (fun c => is_Dialog_Show c) with is_Dialog_Show;
      unfold count_calls in *; simpl; lia.
Qed.

(** C2: on a session where nothing has been tried, a failed first attempt
    shows the waiting dialog once, logs nothing, returns [None] and writes
    nothing to the attribute, so that the next read calls
    [getActiveObject] again; when that second attempt fails too, one error
    is logged, [None] is written to the attribute, and from then on every
    read returns [None] without any host call and without changing the
    session: the dialog is not shown again. *)
Theorem nativeOm_two_failures (w : World) :
  untried w ->
  getActiveObject (getActiveObject_calls w) = None ->
  getActiveObject (S (getActiveObject_calls w)) = None ->
  let first := nativeOm gettext getActiveObject w in
  let second := nativeOm gettext getActiveObject (final first) in
  (outcome first = Return None
   /\ count_calls is_Dialog_Show (trace first) = 1%nat
   /\ count_calls is_log_error (trace first) = 0%nat
   /\ nativeOm_attr (appModule (final first)) = None
   /\ getActiveObject_calls (final first) = S (getActiveObject_calls w))
  /\ (outcome second = Return None
      /\ trace second = [log_error "Failed to get native object model"]
      /\ nativeOm_attr (appModule (final second)) = Some None
      /\ getActiveObject_calls (final second) = S (S (getActiveObject_calls w)))
  /\ (forall n : nat,
        nativeOm_reads gettext getActiveObject n (final second)
        = (Return (repeat None n), final second, [])).
Proof.
  intros Hu H1 H2 first second.
  assert (E1 : first = nativeOm gettext getActiveObject w) by reflexivity.
  rewrite (nativeOm_first_failure w Hu H1) in E1.
  assert (E2 : second = nativeOm gettext getActiveObject (final first)) by reflexivity.
  rewrite E1 in E2. unfold final in E2. simpl in E2.
  rewrite nativeOm_later_failure in E2 by (simpl; auto).
  simpl in E2.
  rewrite E1, E2. simpl.
  repeat split.
  intro n. apply nativeOm_reads_cached. reflexivity.
Qed.

End SessionFacts.

(** C2 on a fresh session on which Outlook is never available. *)
Lemma nativeOm_two_failures_witness :
  untried fresh_world
  /\ never_available (getActiveObject_calls fresh_world) = None
  /\ never_available (S (getActiveObject_calls fresh_world)) = None
  /\ let first := nativeOm untranslated never_available fresh_world in
     let second := nativeOm untranslated never_available (final first) in
     (outcome first = Return None
      /\ count_calls is_Dialog_Show (trace first) = 1%nat
      /\ count_calls is_log_error (trace first) = 0%nat
      /\ nativeOm_attr (appModule (final first)) = None
      /\ getActiveObject_calls (final first) = 1%nat)
     /\ (outcome second = Return None
         /\ trace second = [log_error "Failed to get native object model"]
         /\ nativeOm_attr (appModule (final second)) = Some None
         /\ getActiveObject_calls (final second) = 2%nat)
     /\ (forall n : nat,
           nativeOm_reads untranslated never_available n (final second)
           = (Return (repeat None n), final second, [])).
Proof.
  split; [split; reflexivity |].
  split; [reflexivity |].
  split; [reflexivity |].
  apply (nativeOm_two_failures untranslated never_available fresh_world).
  - split; reflexivity.
  - reflexivity.
  - reflexivity.
Defined.

(* ================================================================== *)
(** * CalendarView: the text of a time range *)
(* ================================================================== *)

Section TimeRange.

Variable GetTimeFormatEx : datetime -> string.
Variable GetDateFormatEx : datetime -> string.

Lemma str_format_range (a b : string) :
  str_format (untranslated "{startTime} to {endTime}")
    [("startTime", a); ("endTime", b)]
  = (a ++ " to " ++ b)%string.
Proof. unfold str_format, untranslated. simpl. now rewrite append_empty_r. Qed.

Lemma str_format_all_day (d : string) :
  str_format (untranslated "{date} (all day)") [("date", d)]
  = (d ++ " (all day)")%string.
Proof. reflexivity. Qed.

Lemma date_eqb_toordinal (a b : date) :
  date_eqb a b = true -> toordinal a = toordinal b.
Proof.
  unfold date_eqb. intro H.
  apply andb_prop in H as [H Hd]. apply andb_prop in H as [Hy Hm].
  apply Z.eqb_eq in Hy, Hm, Hd. unfold toordinal. now rewrite Hy, Hm, Hd.
Qed.

Lemma date_eqb_refl (a : date) : date_eqb a a = true.
Proof. unfold date_eqb. now rewrite !Z.eqb_refl. Qed.

(** The test of the all-day branch is [all_day_slot]. *)
Lemma all_day_test (startTime endTime : datetime) :
  (negb (date_eqb (datetime_date endTime) (datetime_date startTime))
   && ((hour startTime =? 0) && (minute startTime =? 0) && (second startTime =? 0)
       && (date_sub_total_seconds (datetime_date endTime) (datetime_date startTime)
           =? SECONDS_PER_DAY)))%bool
  = all_day_slot startTime endTime.
Proof.
  unfold all_day_slot, starts_at_midnight, date_sub_total_seconds, SECONDS_PER_DAY.
  set (m := ((hour startTime =? 0) && (minute startTime =? 0)
             && (second startTime =? 0))%bool).
  set (oe := toordinal (datetime_date endTime)).
  set (os := toordinal (datetime_date startTime)).
  assert (E : ((oe - os) * 86400 =? 86400) = (oe - os =? 1)).
  { destruct (oe - os =? 1) eqn:H1.
    - apply Z.eqb_eq in H1. apply Z.eqb_eq. lia.
    - apply Z.eqb_neq in H1. apply Z.eqb_neq. lia. }
  rewrite E.
  destruct (date_eqb (datetime_date endTime) (datetime_date startTime)) eqn:Hd;
    simpl; [| reflexivity].
  apply date_eqb_toordinal in Hd. fold oe os in Hd.
  replace (oe - os =? 1) with false by (symmetry; apply Z.eqb_neq; lia).
  now rewrite andb_false_r.
Qed.

(** What [_generateTimeRangeText] returns, for every slot and every state:
    it never raises, makes no host call, and leaves the start date in the
    class attribute. *)
Lemma generateTimeRangeText_cases (self : CalendarView) (w : World)
    (startTime endTime : datetime) :
  let same_day := date_eqb (datetime_date endTime) (datetime_date startTime) in
  let omit :=
    match CalendarView_lastStartDate w with
    | Some last => (date_eqb (datetime_date startTime) last && same_day)%bool
    | None => false
    end in
  _generateTimeRangeText untranslated GetTimeFormatEx GetDateFormatEx
    self startTime endTime w
  = (Return
       (if all_day_slot startTime endTime
        then (GetDateFormatEx startTime ++ " (all day)")%string
        else (((if omit then "" else GetDateFormatEx startTime ++ " ")
               ++ GetTimeFormatEx startTime)
              ++ " to "
              ++ ((if same_day then "" else GetDateFormatEx endTime ++ " ")
                  ++ GetTimeFormatEx endTime))%string),
     set_lastStartDate w (Some (datetime_date startTime)),
     []).
Proof.
  intros same_day omit.
  rewrite <- all_day_test.
  unfold _generateTimeRangeText, bind, get, put, ret, raise. simpl.
  fold same_day.
  destruct (CalendarView_lastStartDate w) as [last|];
    [destruct (date_eqb (datetime_date startTime) last) |];
    destruct same_day; subst omit; simpl;
    try destruct ((hour startTime =? 0) && (minute startTime =? 0)
                  && (second startTime =? 0)
                  && (date_sub_total_seconds (datetime_date endTime)
                        (datetime_date startTime) =? SECONDS_PER_DAY))%bool;
    rewrite ?str_format_range, ?str_format_all_day, ?pct_format_pair;
    simpl; rewrite ?append_empty_r, ?append_assoc; simpl;
    rewrite ?append_empty_r, ?append_assoc; reflexivity.
Qed.

(** A slot that starts at midnight and lasts 86400 seconds is rendered as
    all day (the end's time of day being a time of day). *)
Lemma all_day_if_midnight_and_one_day (startTime endTime : datetime) :
  starts_at_midnight startTime = true ->
  0 <= hour endTime < 24 -> 0 <= minute endTime < 60 -> 0 <= second endTime < 60 ->
  datetime_sub_total_seconds endTime startTime = SECONDS_PER_DAY ->
  all_day_slot startTime endTime = true.
Proof.
  unfold all_day_slot, starts_at_midnight, datetime_sub_total_seconds, SECONDS_PER_DAY.
  intros Hm Hh Hmi Hs Hd. rewrite Hm. simpl.
  apply andb_prop in Hm as [Hm H3]. apply andb_prop in Hm as [H1 H2].
  apply Z.eqb_eq in H1, H2, H3. rewrite H1, H2, H3 in Hd.
  apply Z.eqb_eq. lia.
Qed.

(** The slot of the spec's example, 2024-03-01T00:00:00 to
    2024-03-02T00:00:00, is rendered as the long date of its start followed
    by (all day), in every state. *)
Lemma all_day_text_2024_03_01 (self : CalendarView) (w : World) :
  let startTime := mk_datetime 2024 3 1 0 0 0 in
  let endTime := mk_datetime 2024 3 2 0 0 0 in
  outcome (_generateTimeRangeText untranslated GetTimeFormatEx GetDateFormatEx
             self startTime endTime w)
  = Return (GetDateFormatEx startTime ++ " (all day)")%string.
Proof.
  intros startTime endTime. rewrite generateTimeRangeText_cases. reflexivity.
Qed.

(** C3, where the code departs from it: the slot from 2024-03-01T00:00:00
    to 2024-03-02T15:30:00 starts at midnight and lasts 142200 seconds, not
    86400, and is rendered as the long date of its start followed by
    (all day), in every state; the test of the code compares the two dates
    and never reads the end's time of day. *)
Theorem all_day_text_ignores_end_time (self : CalendarView) (w : World) :
  let startTime := mk_datetime 2024 3 1 0 0 0 in
  let endTime := mk_datetime 2024 3 2 15 30 0 in
  outcome (_generateTimeRangeText untranslated GetTimeFormatEx GetDateFormatEx
             self startTime endTime w)
  = Return (GetDateFormatEx startTime ++ " (all day)")%string
  /\ starts_at_midnight startTime = true
  /\ datetime_sub_total_seconds endTime startTime = 142200
  /\ datetime_sub_total_seconds endTime startTime <> SECONDS_PER_DAY.
Proof.
  intros startTime endTime. rewrite generateTimeRangeText_cases.
  repeat split. vm_compute. discriminate.
Qed.

(** X29: a slot that the code does not render as all day, that is to say
    every slot but those that start at midnight and end on the next
    calendar day, is rendered as {startTime} to {endTime}; the long date of the start is left out of
    {startTime} exactly when the class attribute [_lastStartDate] holds the
    start's date and the end falls on the start's date, so it is always
    there when the attribute is still [None]; the end carries its own long
    date exactly when it falls on another date.  The attribute is part of
    the world, not of [self]: after the call it holds the start's date, and
    a same-day slot on that date announced next by any instance has no date
    at all. *)
Theorem time_range_date_prefix (self : CalendarView) (w : World)
    (startTime endTime : datetime) :
  all_day_slot startTime endTime = false ->
  let r := _generateTimeRangeText untranslated GetTimeFormatEx GetDateFormatEx
             self startTime endTime w in
  let same_day := date_eqb (datetime_date endTime) (datetime_date startTime) in
  let omit :=
    match CalendarView_lastStartDate w with
    | Some last => (date_eqb (datetime_date startTime) last && same_day)%bool
    | None => false
    end in
  outcome r
  = Return (((if omit then "" else GetDateFormatEx startTime ++ " ")
             ++ GetTimeFormatEx startTime)
            ++ " to "
            ++ ((if same_day then "" else GetDateFormatEx endTime ++ " ")
                ++ GetTimeFormatEx endTime))%string
  /\ trace r = []
  /\ CalendarView_lastStartDate (final r) = Some (datetime_date startTime)
  /\ (forall (other : CalendarView) (startTime' endTime' : datetime),
        datetime_date startTime' = datetime_date startTime ->
        datetime_date endTime' = datetime_date startTime ->
        outcome (_generateTimeRangeText untranslated GetTimeFormatEx GetDateFormatEx
                   other startTime' endTime' (final r))
        = Return (GetTimeFormatEx startTime' ++ " to " ++ GetTimeFormatEx endTime')%string).
Proof.
  intros Hall r same_day omit. subst r.
  rewrite generateTimeRangeText_cases. rewrite Hall.
  fold same_day. fold omit. eff_simpl.
  repeat split.
  intros other s' e' Hs He.
  rewrite generateTimeRangeText_cases. simpl.
  assert (Hn : all_day_slot s' e' = false).
  { unfold all_day_slot. rewrite Hs, He, Z.sub_diag. simpl. apply andb_false_r. }
  rewrite Hn, Hs, He, !date_eqb_refl. reflexivity.
Qed.

End TimeRange.

(** The spec's example with the sample formatters. *)
Example all_day_text_1_March_2024 :
  outcome (_generateTimeRangeText untranslated clock_text long_date_text
             {| cv_windowHandle := 1 |}
             (mk_datetime 2024 3 1 0 0 0) (mk_datetime 2024 3 2 0 0 0) fresh_world)
  = Return "1 March 2024 (all day)".
Proof. reflexivity. Qed.

(** C4, where the code departs from it: the slot from 2024-03-01T00:00:00
    to 2024-03-02T15:30:00 lasts 142200 seconds, not 86400, so it is not an
    all-day slot and its text is to be {startTime} to {endTime}, which with
    both long dates is 1 March 2024 00:00 to 2 March 2024 15:30.  In every
    state the code returns 1 March 2024 (all day) for it, without the times
    and without the end.  The defect is that of C3: the test of the all-day
    branch compares the two dates and never reads the end's time of day. *)
Theorem time_range_lost_for_slot_past_one_day (self : CalendarView) (w : World) :
  let startTime := mk_datetime 2024 3 1 0 0 0 in
  let endTime := mk_datetime 2024 3 2 15 30 0 in
  let r := _generateTimeRangeText untranslated clock_text long_date_text
             self startTime endTime w in
  outcome r = Return "1 March 2024 (all day)"
  /\ datetime_sub_total_seconds endTime startTime = 142200
  /\ datetime_sub_total_seconds endTime startTime <> SECONDS_PER_DAY
  /\ (long_date_text startTime ++ " " ++ clock_text startTime ++ " to "
      ++ long_date_text endTime ++ " " ++ clock_text endTime)%string
     = "1 March 2024 00:00 to 2 March 2024 15:30"
  /\ (forall text : string, outcome r <> Return (text ++ " to " ++ clock_text endTime)%string)
  /\ CalendarView_lastStartDate (final r)
     = Some {| d_year := 2024; d_month := 3; d_day := 1 |}.
Proof.
  intros startTime endTime r. subst r.
  rewrite generateTimeRangeText_cases.
  split; [reflexivity |]. split; [reflexivity |].
  split; [vm_compute; discriminate |]. split; [reflexivity |].
  split; [| reflexivity].
  intros text H.
  change (Return "1 March 2024 (all day)" = Return (text ++ " to 15:30")%string) in H.
  injection H as H.
  assert (Hlen : String.length "1 March 2024 (all day)"
                 = String.length (text ++ " to 15:30")%string) by (now rewrite <- H).
  rewrite length_append in Hlen. simpl in Hlen.
  pose proof (substring_after_append text " to 15:30") as Hsuf.
  rewrite <- H in Hsuf.
  replace (String.length text) with 13%nat in Hsuf by lia.
  vm_compute in Hsuf. discriminate.
Qed.

(** X29 on a fresh session: a slot from 10:00 to 11:00 on 1 March 2024. *)
Lemma time_range_date_prefix_witness :
  all_day_slot (mk_datetime 2024 3 1 10 0 0) (mk_datetime 2024 3 1 11 0 0) = false
  /\ let r := _generateTimeRangeText untranslated clock_text long_date_text
               {| cv_windowHandle := 1 |}
               (mk_datetime 2024 3 1 10 0 0) (mk_datetime 2024 3 1 11 0 0)
               fresh_world in
     outcome r = Return "1 March 2024 10:00 to 11:00"
     /\ trace r = []
     /\ CalendarView_lastStartDate (final r)
        = Some {| d_year := 2024; d_month := 3; d_day := 1 |}
     /\ (forall (other : CalendarView) (startTime' endTime' : datetime),
           datetime_date startTime' = {| d_year := 2024; d_month := 3; d_day := 1 |} ->
           datetime_date endTime' = {| d_year := 2024; d_month := 3; d_day := 1 |} ->
           outcome (_generateTimeRangeText untranslated clock_text long_date_text
                      other startTime' endTime' (final r))
           = Return (clock_text startTime' ++ " to " ++ clock_text endTime')%string).
Proof.
  split; [reflexivity |].
  apply (time_range_date_prefix clock_text long_date_text {| cv_windowHandle := 1 |}
           fresh_world (mk_datetime 2024 3 1 10 0 0) (mk_datetime 2024 3 1 11 0 0)).
  reflexivity.
Defined.

(* ================================================================== *)
(** * MessageItem and the legacy message list *)
(* ================================================================== *)

Section LegacyListFacts.

Variable Window__init__ : PyVal -> PyResult unit.

(** C9: a construction in which [parent] or [msg] is not given raises (the
    exception is the [NameError] of the unbound name in the [raise]
    statement); given an NVDA object as [parent] and a mail item as [msg],
    and a window handle that the host's [Window.__init__] accepts (the one
    given, or the parent's when none is given), the construction returns an
    object that holds [msg] and [parent]. *)
Theorem MessageItem_init_contract (windowHandle parent msg : PyVal) :
  (parent = PyNone \/ msg = PyNone ->
   MessageItem__init__ Window__init__ windowHandle parent msg
   = Raise (NameError "ArguementError"))
  /\ (forall (h : Z) (entryID : string) (Class : Z),
        parent = PyNVDAObject h ->
        msg = PyMailItem entryID Class ->
        Window__init__ (if py_truthy windowHandle then windowHandle else PyInt h)
        = Return tt ->
        exists item : MessageItem,
          MessageItem__init__ Window__init__ windowHandle parent msg = Return item
          /\ mi_msg item = msg
          /\ mi_parent item = parent
          /\ mi_windowHandle item
             = (if py_truthy windowHandle then windowHandle else PyInt h)).
Proof.
  split.
  - intros [H | H]; subst; unfold MessageItem__init__; simpl;
      [reflexivity | now rewrite orb_true_r].
  - intros h entryID Class Hp Hm HW. subst parent msg.
    unfold MessageItem__init__. simpl.
    destruct (py_truthy windowHandle); simpl in *; rewrite HW;
      eexists; repeat split.
Qed.

(** The call [MessageItem(self,msg)] of the list never returns: its second
    positional argument is bound to [parent] and [msg] keeps its default. *)
Lemma MessageItem_positional_call_raises (h : Z) (msg : PyVal) :
  MessageItem__init__ Window__init__ (PyNVDAObject h) msg PyNone
  = Raise (NameError "ArguementError").
Proof. unfold MessageItem__init__. simpl. now rewrite orb_true_r. Qed.

(** Whatever the selection is after the gesture, [script_moveByMessage]
    leaves the list as it was and dispatches no event. *)
Lemma script_moveByMessage_inert (query : option PyVal) (self : MessageList_pre2003) :
  final (script_moveByMessage Window__init__ query self) = self
  /\ count_calls is_executeEvent
       (trace (script_moveByMessage Window__init__ query self)) = 0%nat.
Proof.
  unfold script_moveByMessage, bind, get, call, lift.
  destruct self as [h [item|]]; cbn [curMessageItem ml_windowHandle].
  - destruct (getattr_entryID (mi_msg item)); [| split; reflexivity].
    destruct (py_truthy (selected_msg query)); [| split; reflexivity].
    rewrite MessageItem_positional_call_raises. split; reflexivity.
  - cbv [ret].
    destruct (py_truthy (selected_msg query)); [| split; reflexivity].
    rewrite MessageItem_positional_call_raises. split; reflexivity.
Qed.

(** [event_gainFocus] of the list does not set [curMessageItem] either. *)
Lemma event_gainFocus_never_sets_item (query : option PyVal) (self : MessageList_pre2003) :
  final (MessageList_pre2003_event_gainFocus Window__init__ query self) = self.
Proof.
  unfold MessageList_pre2003_event_gainFocus, bind, get, call, lift, ret.
  destruct (py_truthy (selected_msg query)); [| reflexivity].
  rewrite MessageItem_positional_call_raises. reflexivity.
Qed.

(** C5, where the code departs from it: the list holds no item, or the item
    of the mail [old], and after the gesture the remote selection is the
    mail with identity [entryID]; whether or not that identity differs from
    the old one, the script raises in [MessageItem(self,msg)], after sending
    the gesture: [curMessageItem] is not replaced and no focus event is
    dispatched. *)
Theorem script_moveByMessage_new_selection_raises
    (h : Z) (old : option (string * Z)) (entryID : string) (Class : Z) :
  let self := {| ml_windowHandle := h;
                 curMessageItem := option_map (item_of h) old |} in
  script_moveByMessage Window__init__ (Some (PyMailItem entryID Class)) self
  = (Raise (NameError "ArguementError"), self, [gesture_send]).
Proof.
  intro self. subst self.
  unfold script_moveByMessage, bind, get, call, lift, ret.
  destruct old as [[oldID oldClass]|];
    cbn [curMessageItem ml_windowHandle option_map item_of mi_msg getattr_entryID
         selected_msg py_truthy fst snd];
    rewrite MessageItem_positional_call_raises; reflexivity.
Qed.

End LegacyListFacts.

(** C9 at concrete arguments: no [msg] given, and then a parent with window
    handle 100 and the mail item A given, with no window handle. *)
Lemma MessageItem_init_contract_witness :
  MessageItem__init__ Window_accepts PyNone (PyNVDAObject 100) PyNone
  = Raise (NameError "ArguementError")
  /\ exists item : MessageItem,
       MessageItem__init__ Window_accepts PyNone (PyNVDAObject 100) (PyMailItem "A" 43)
       = Return item
       /\ mi_msg item = PyMailItem "A" 43
       /\ mi_parent item = PyNVDAObject 100
       /\ mi_windowHandle item = PyInt 100.
Proof.
  split.
  - apply (proj1 (MessageItem_init_contract Window_accepts PyNone (PyNVDAObject 100) PyNone)).
    right. reflexivity.
  - apply (proj2 (MessageItem_init_contract Window_accepts PyNone (PyNVDAObject 100)
                    (PyMailItem "A" 43)) 100 "A" 43); reflexivity.
Defined.

(** C5 at a concrete input: the list holds the item of mail A and the
    selection after the gesture is mail B. *)
Example script_moveByMessage_A_to_B :
  script_moveByMessage Window_accepts (Some (PyMailItem "B" 43))
    {| ml_windowHandle := 100; curMessageItem := Some (item_of 100 ("A", 43)) |}
  = (Raise (NameError "ArguementError"),
     {| ml_windowHandle := 100; curMessageItem := Some (item_of 100 ("A", 43)) |},
     [gesture_send]).
Proof. reflexivity. Qed.

(* ================================================================== *)
(** * UIAGridRow: the tokens of the value *)
(* ================================================================== *)

Lemma split_from_not_nil (sep : ascii) (s cur : string) : split_from sep s cur <> [].
Proof.
  revert cur. induction s as [|c s IH]; intro cur; simpl; [discriminate|].
  destruct (Ascii.eqb c sep); [discriminate | apply IH].
Qed.

Lemma split_length_pos (sep : ascii) (s : string) :
  (1 <= List.length (split sep s))%nat.
Proof.
  unfold split. pose proof (split_from_not_nil sep s "") as H.
  destruct (split_from sep s ""); [contradiction | simpl; lia].
Qed.

(** A slice with bounds inside the list, on [skipn] and [firstn]. *)
Lemma slice_inside {A : Type} (l : list A) (lo hi : nat) :
  (hi <= List.length l)%nat ->
  slice l (Z.of_nat lo) (Z.of_nat hi) = skipn lo (firstn hi l).
Proof.
  intro Hhi. unfold slice, slice_bound, len.
  replace (Z.of_nat lo <? 0) with false by (symmetry; apply Z.ltb_ge; lia).
  replace (Z.of_nat hi <? 0) with false by (symmetry; apply Z.ltb_ge; lia).
  destruct (Nat.le_gt_cases lo hi) as [Hle | Hgt].
  - replace (Z.to_nat (Z.max 0 (Z.min (Z.of_nat (List.length l)) (Z.of_nat lo))))
      with lo by lia.
    replace (Z.to_nat (Z.max 0 (Z.min (Z.of_nat (List.length l)) (Z.of_nat hi))
                       - Z.max 0 (Z.min (Z.of_nat (List.length l)) (Z.of_nat lo))))
      with (hi - lo)%nat by lia.
    rewrite firstn_skipn_comm. f_equal. f_equal. lia.
  - replace (Z.to_nat (Z.max 0 (Z.min (Z.of_nat (List.length l)) (Z.of_nat hi))
                       - Z.max 0 (Z.min (Z.of_nat (List.length l)) (Z.of_nat lo))))
      with 0%nat by lia.
    simpl. symmetry. apply skipn_all2. rewrite length_firstn. lia.
Qed.

(** The slice of the code is [kept_value_tokens]. *)
Lemma value_tokens_kept (value : string) (unread : bool) (messageClass : string) :
  value_tokens value unread messageClass = kept_value_tokens value unread messageClass.
Proof.
  unfold value_tokens, kept_value_tokens.
  set (parts := split " " value).
  pose proof (split_length_pos " " value) as Hpos. fold parts in Hpos.
  set (n := List.length parts) in *.
  assert (Hlast : (if unread then len parts else len parts - 1)
                  = Z.of_nat (if unread then n else (n - 1)%nat)).
  { unfold len. fold n. destruct unread; lia. }
  assert (Hkept : (if unread then parts else removelast parts)
                  = firstn (if unread then n else (n - 1)%nat) parts).
  { destruct unread.
    - unfold n. now rewrite firstn_all.
    - rewrite removelast_firstn_len. f_equal. unfold n. lia. }
  rewrite Hlast, Hkept.
  destruct (str_in messageClass silentMessageClasses).
  - replace (Z.max 1 (len parts - 2)) with (Z.of_nat (Nat.max 1 (n - 2)))
      by (unfold len; fold n; lia).
    apply slice_inside. fold n. destruct unread; lia.
  - change 0 with (Z.of_nat 0). rewrite slice_inside by (fold n; destruct unread; lia).
    reflexivity.
Qed.

(** With at most three tokens, or a class that is not silent, the code
    keeps the tokens that C7 describes. *)
Lemma kept_value_tokens_claimed (value : string) (unread : bool) (messageClass : string) :
  (List.length (split " " value) <= 3)%nat
  \/ str_in messageClass silentMessageClasses = false ->
  kept_value_tokens value unread messageClass
  = value_tokens_claimed value unread messageClass.
Proof.
  unfold kept_value_tokens, value_tokens_claimed.
  intros [H | H].
  - destruct (str_in messageClass silentMessageClasses); [| reflexivity].
    replace (Nat.max 1 (List.length (split " " value) - 2)) with 1%nat by lia.
    reflexivity.
  - now rewrite H.
Qed.

(* ================================================================== *)
(** * UIAGridRow: the order of the labels *)
(* ================================================================== *)

Lemma append_flag_label (textList : list string) (flagIcon : option Z) :
  append_label textList
    (dict_get (oleFlagIconLabels untranslated)
       (match flagIcon with Some f => f | None => 0 end))
  = (textList ++ flag_label flagIcon)%list.
Proof.
  destruct flagIcon as [f|]; [| simpl; now rewrite app_nil_r].
  destruct f as [|p|p]; try (simpl; now rewrite app_nil_r).
  destruct p as [[[p|p|]|[p|p|]|]|[[p|p|]|[p|p|]|]|];
    simpl; rewrite ?app_nil_r; reflexivity.
Qed.

Lemma append_importance_label (textList : list string) (importance : option Z) :
  append_label textList
    (dict_get (importanceLabels untranslated)
       (match importance with Some i => i | None => 1 end))
  = (textList ++ importance_label importance)%list.
Proof.
  destruct importance as [i|]; [| simpl; now rewrite app_nil_r].
  destruct i as [|p|p]; try (simpl; rewrite ?app_nil_r; reflexivity).
  destruct p as [[p|p|]|[p|p|]|]; simpl; rewrite ?app_nil_r; reflexivity.
Qed.

Lemma append_attachment_label (textList : list string) (attachmentCount : option Z) :
  (if (match attachmentCount with Some c => c | None => 0 end) >? 0
   then append textList (untranslated "has attachment") else textList)
  = (textList ++ attachment_label attachmentCount)%list.
Proof.
  destruct attachmentCount as [c|]; simpl; [| now rewrite app_nil_r].
  destruct (c >? 0); [reflexivity | now rewrite app_nil_r].
Qed.

Lemma unread_default (unread : option bool) :
  (match unread with Some u => u | None => false end) = is_unread unread.
Proof. destruct unread as [[|]|]; reflexivity. Qed.

(** The body of [if selection:] appends the four groups in their order. *)
Lemma selection_labels_order (self : UIAGridRow) (selection : SelectionItem)
    (textList : list string) :
  selection_labels untranslated self selection textList
  = (textList
     ++ flag_label (sel_flagIcon selection)
     ++ attachment_label (sel_attachments_count selection)
     ++ importance_label (sel_importance selection)
     ++ trailing_tokens (row_outlookVersion self) (is_unread (sel_unread selection))
          (sel_messageClass selection) (row_value self))%list.
Proof.
  unfold selection_labels, trailing_tokens.
  rewrite append_flag_label, append_attachment_label, append_importance_label.
  rewrite unread_default.
  rewrite <- !app_assoc.
  destruct (row_outlookVersion self <? 15).
  - destruct (is_unread (sel_unread selection));
      destruct (sel_messageClass selection) as [mc|];
      try destruct (String.eqb mc "IPM.Schedule.Meeting.Request");
      unfold append, untranslated; rewrite <- ?app_assoc; simpl;
      rewrite ?app_nil_r; reflexivity.
  - destruct (sel_messageClass selection) as [mc|].
    + unfold extend. rewrite value_tokens_kept. now rewrite <- !app_assoc.
    + now rewrite app_nil_r.
Qed.

Lemma children_texts_app (reportTableHeaders : bool) (children : list CachedChild)
    (textList : list string) :
  children_texts reportTableHeaders textList children
  = (textList ++ children_texts reportTableHeaders [] children)%list.
Proof.
  revert textList. induction children as [|e rest IH]; intro textList; simpl.
  - now rewrite app_nil_r.
  - rewrite IH. rewrite (IH (match child_text reportTableHeaders e with
                             | Some text => append [] text
                             | None => []
                             end)).
    destruct (child_text reportTableHeaders e); unfold append; simpl;
      [now rewrite <- app_assoc | reflexivity].
Qed.


(** A row without cached text children has the name of the base class,
    whatever its labels are. *)
Lemma UIAGridRow_name_without_children (expanded collapsed : string)
    (reportTableHeaders : bool) (self : UIAGridRow) :
  row_cachedChildren self = [] ->
  UIAGridRow_get_name untranslated expanded collapsed reportTableHeaders self
  = row_super_name self.
Proof. intro H. unfold UIAGridRow_get_name. now rewrite H. Qed.


(** C7, as the code has it: on a row of the modern backend (version 15 or
    later) whose message class could be read, the labels are followed by the
    tokens of the value without the last one unless the message is unread
    and, for a silent class, without the tokens before index max(1, n-2) of
    the n tokens; this is the slice that drops only the first token whenever
    the value has at most three tokens, and for a class that is not silent
    no leading token is dropped. *)
Theorem modern_row_value_tokens (self : UIAGridRow) (selection : SelectionItem)
    (messageClass : string) (textList : list string) :
  15 <= row_outlookVersion self ->
  sel_messageClass selection = Some messageClass ->
  let unread := is_unread (sel_unread selection) in
  let valueParts := split " " (row_value self) in
  let kept := if unread then valueParts else removelast valueParts in
  selection_labels untranslated self selection textList
  = (textList
     ++ flag_label (sel_flagIcon selection)
     ++ attachment_label (sel_attachments_count selection)
     ++ importance_label (sel_importance selection)
     ++ (if str_in messageClass silentMessageClasses
         then skipn (Nat.max 1 (List.length valueParts - 2)) kept
         else kept))%list
  /\ ((List.length valueParts <= 3)%nat
      \/ str_in messageClass silentMessageClasses = false ->
      value_tokens (row_value self) unread messageClass
      = value_tokens_claimed (row_value self) unread messageClass).
Proof.
  intros Hv Hmc unread valueParts kept. split.
  - rewrite selection_labels_order. unfold trailing_tokens.
    replace (row_outlookVersion self <? 15) with false
      by (symmetry; apply Z.ltb_ge; lia).
    rewrite Hmc. reflexivity.
  - intro H. rewrite value_tokens_kept. now apply kept_value_tokens_claimed.
Qed.

(** C7 as stated fails: for a read mail (class IPM.Note) whose value has
    four tokens the code keeps the third token only, and not the second and
    the third. *)
Lemma value_tokens_four_tokens :
  value_tokens "Message Replied Forwarded Read" false "IPM.Note" = ["Forwarded"]
  /\ value_tokens_claimed "Message Replied Forwarded Read" false "IPM.Note"
     = ["Replied"; "Forwarded"]
  /\ value_tokens "Message Replied Forwarded Read" false "IPM.Note"
     <> value_tokens_claimed "Message Replied Forwarded Read" false "IPM.Note".
Proof. repeat split. vm_compute. discriminate. Qed.



(** C7 on the sample row, whose value has three tokens. *)
Lemma modern_row_value_tokens_witness :
  15 <= row_outlookVersion sample_row
  /\ sel_messageClass sample_selection = Some "IPM.Note"
  /\ selection_labels untranslated sample_row sample_selection []
     = ["Red flag"; "high importance"; "Replied"; "Unread"]
  /\ ((List.length (split " " (row_value sample_row)) <= 3)%nat
      \/ str_in "IPM.Note" silentMessageClasses = false ->
      value_tokens (row_value sample_row) true "IPM.Note"
      = value_tokens_claimed (row_value sample_row) true "IPM.Note").
Proof.
  split; [vm_compute; discriminate |]. split; [reflexivity |].
  apply (modern_row_value_tokens sample_row sample_selection "IPM.Note" []);
    [vm_compute; discriminate | reflexivity].
Defined.

(** The name of a read mail whose value has four tokens. *)
Example UIAGridRow_name_four_tokens :
  UIAGridRow_get_name untranslated "expanded" "collapsed" true
    {| row_STATE_EXPANDED := false; row_STATE_COLLAPSED := false;
       row_nativeOm := true;
       row_selection := Some {| sel_unread := Some false;
                                sel_messageClass := Some "IPM.Note";
                                sel_flagIcon := Some 0;
                                sel_attachments_count := Some 0;
                                sel_importance := Some 1 |};
       row_outlookVersion := 16;
       row_value := "Message Replied Forwarded Read";
       row_cachedChildren := [ {| cachedName := "Bob"; columnHeaderItems := None |} ];
       row_super_name := "row" |}
  = "Forwarded Bob,".
Proof. reflexivity. Qed.

(* ================================================================== *)
(** * The classification hook: embedded dialog forms *)
(* ================================================================== *)

Lemma final_bind_return {S A B : Type} (m : Eff S A) (k : A -> Eff S B)
    (s s1 : S) (a : A) (t : list HostCall) :
  m s = (Return a, s1, t) ->
  final (bind m k s) = final (k a s1).
Proof.
  intro H. unfold bind, final. rewrite H. destruct (k a s1) as [[r s2] t2].
  reflexivity.
Qed.

Lemma keeps_ret {A : Type} (a : A) : keeps_Dialog_out (ret a).
Proof. intros s H. exact H. Qed.

Lemma keeps_get : keeps_Dialog_out get.
Proof. intros s H. exact H. Qed.

Lemma keeps_bind {A B : Type} (m : Eff HookState A) (k : A -> Eff HookState B) :
  keeps_Dialog_out m -> (forall a, keeps_Dialog_out (k a)) ->
  keeps_Dialog_out (bind m k).
Proof.
  intros Hm Hk s H. specialize (Hm s H). unfold bind, final in *.
  destruct (m s) as [[[a | e] s1] t1]; simpl in *; [| exact Hm].
  specialize (Hk a s1 Hm). unfold final in Hk.
  destruct (k a s1) as [[r s2] t2]. exact Hk.
Qed.

Lemma keeps_in_world {A : Type} (m : Eff World A) : keeps_Dialog_out (in_world m).
Proof.
  intros s H. unfold in_world, final.
  destruct (m (hook_world s)) as [[r w] t]. exact H.
Qed.

Lemma keeps_insert0 (x : OverlayClass) :
  x <> cls_Dialog -> keeps_Dialog_out (update_clsList (insert0 x)).
Proof.
  intros Hx s H. unfold update_clsList, final, insert0, cls_in. simpl.
  unfold cls_in in H. rewrite H. unfold cls_eqb.
  destruct (OverlayClass_eq_dec cls_Dialog x) as [E | E]; [| reflexivity].
  now subst x.
Qed.

(** Every step of the hook after the rule on [Dialog] only inserts classes
    of the module. *)
Ltac keeps_steps :=
  repeat first
    [ apply keeps_ret
    | apply keeps_get
    | apply keeps_in_world
    | apply keeps_insert0; discriminate
    | apply keeps_bind; [| intro]
    | match goal with
      | |- keeps_Dialog_out (if ?c then _ else _) => destruct c
      end ].

(** Removing the first [Dialog] of a list that holds it at most once leaves
    none. *)
Lemma list_remove_Dialog (l : list OverlayClass) :
  (count_occ OverlayClass_eq_dec l cls_Dialog <= 1)%nat ->
  cls_in cls_Dialog (list_remove cls_Dialog l) = false.
Proof.
  assert (H0 : forall l', count_occ OverlayClass_eq_dec l' cls_Dialog = 0%nat ->
                          cls_in cls_Dialog l' = false).
  { induction l' as [|y l' IH]; simpl; [reflexivity|].
    unfold cls_eqb at 1.
    destruct (OverlayClass_eq_dec y cls_Dialog) as [E|E];
      destruct (OverlayClass_eq_dec cls_Dialog y) as [E'|E'];
      try congruence; try discriminate.
    simpl. exact IH. }
  induction l as [|y l IH]; simpl; [reflexivity|].
  unfold cls_eqb at 1.
  destruct (OverlayClass_eq_dec y cls_Dialog) as [E|E]; intro Hc.
  - apply H0. lia.
  - simpl. unfold cls_eqb at 1.
    destruct (OverlayClass_eq_dec cls_Dialog y) as [E'|E']; [congruence|].
    simpl. apply IH. exact Hc.
Qed.

Section ClassificationFacts.

Variable gettext : string -> string.
Variable getActiveObject : nat -> option OutlookApplication.
Variable py_int : string -> PyResult Z.
Variable getAncestor_GA_PARENT : Z -> Z.
Variable getClassName : Z -> string.

(** C8, as the code has it: for a node that is an IAccessible, whose
    overlay list names [Dialog] at most once, and whose parent window has
    the class AfxWndW, the list that the hook leaves does not hold
    [Dialog], whatever the hook goes on to insert and whether or not it
    ends with an exception. *)
Theorem embedded_dialog_form_drops_Dialog (obj : NVDAObject) (s : HookState) :
  isIAccessible obj = true ->
  (count_occ OverlayClass_eq_dec (clsList s) cls_Dialog <= 1)%nat ->
  getAncestor_GA_PARENT (windowHandle obj) <> 0 ->
  getClassName (getAncestor_GA_PARENT (windowHandle obj)) = "AfxWndW" ->
  cls_in cls_Dialog
    (clsList (final (chooseNVDAObjectOverlayClasses gettext getActiveObject py_int
                       getAncestor_GA_PARENT getClassName obj s)))
  = false.
Proof.
  intros HIA Hcount Hparent Hclass.
  unfold chooseNVDAObjectOverlayClasses.
  (* the rule on UIA rows *)
  set (s1 := if (isUIA obj
                 && str_in (UIAElement_cachedClassName obj)
                      ["LeafRow"; "ThreadItem"; "ThreadHeader"])%bool
             then {| hook_world := hook_world s;
                     clsList := insert0 cls_UIAGridRow (clsList s) |}
             else s).
  assert (Hc1 : (count_occ OverlayClass_eq_dec (clsList s1) cls_Dialog <= 1)%nat).
  { subst s1. destruct (isUIA obj && _)%bool; [exact Hcount | exact Hcount]. }
  rewrite (final_bind_return _ _ s s1 tt []);
    [| subst s1; destruct (isUIA obj && _)%bool; reflexivity].
  rewrite HIA. cbn [negb].
  rewrite (final_bind_return _ _ s1 s1 s1 []); [| reflexivity].
  (* the rule on Dialog *)
  set (s2 := {| hook_world := hook_world s1;
                clsList := if cls_in cls_Dialog (clsList s1)
                           then list_remove cls_Dialog (clsList s1)
                           else clsList s1 |}).
  assert (Hc2 : cls_in cls_Dialog (clsList s2) = false).
  { subst s2. simpl. destruct (cls_in cls_Dialog (clsList s1)) eqn:Hin;
      [now apply list_remove_Dialog | exact Hin]. }
  rewrite (final_bind_return _ _ s1 s2 tt []).
  2:{ subst s2. cbv zeta. rewrite Hclass.
      replace (getAncestor_GA_PARENT (windowHandle obj) =? 0) with false
        by (symmetry; now apply Z.eqb_neq).
      destruct (cls_in cls_Dialog (clsList s1)); simpl;
        [reflexivity | now destruct s1]. }
  (* the rest of the hook *)
  revert Hc2. generalize s2. clear.
  intro h.
  match goal with
  | |- _ -> cls_in _ (clsList (final (?m h))) = false =>
      revert h; change (keeps_Dialog_out m)
  end.
  cbv zeta. keeps_steps.
Qed.

End ClassificationFacts.

(** C8 as stated fails: a node that is not an IAccessible, here a UIA
    dialog whose parent window has the class AfxWndW, keeps [Dialog]: the
    hook returns before the rule on [Dialog]. *)
Lemma non_IAccessible_node_keeps_Dialog :
  cls_in cls_Dialog
    (clsList (final (chooseNVDAObjectOverlayClasses untranslated never_available
                       int_fails parent_is_7 class_is_AfxWndW sample_UIA_dialog
                       {| hook_world := fresh_world;
                          clsList := [cls_Dialog; cls_other "UIA"] |})))
  = true.
Proof. reflexivity. Qed.

(** C8 on an IAccessible dialog with the same parent. *)
Lemma embedded_dialog_form_drops_Dialog_witness :
  isIAccessible sample_IAccessible_dialog = true
  /\ (count_occ OverlayClass_eq_dec [cls_Dialog; cls_other "IAccessible"] cls_Dialog <= 1)%nat
  /\ parent_is_7 (windowHandle sample_IAccessible_dialog) <> 0
  /\ class_is_AfxWndW (parent_is_7 (windowHandle sample_IAccessible_dialog)) = "AfxWndW"
  /\ cls_in cls_Dialog
       (clsList (final (chooseNVDAObjectOverlayClasses untranslated never_available
                          int_fails parent_is_7 class_is_AfxWndW
                          sample_IAccessible_dialog
                          {| hook_world := fresh_world;
                             clsList := [cls_Dialog; cls_other "IAccessible"] |})))
     = false.
Proof.
  split; [reflexivity |].
  split; [vm_compute; lia |].
  split; [discriminate |].
  split; [reflexivity |].
  apply (embedded_dialog_form_drops_Dialog untranslated never_available int_fails
           parent_is_7 class_is_AfxWndW sample_IAccessible_dialog
           {| hook_world := fresh_world;
              clsList := [cls_Dialog; cls_other "IAccessible"] |}).
  - reflexivity.
  - vm_compute; lia.
  - discriminate.
  - reflexivity.
Defined.

(* ================================================================== *)
(** * The version without a remote object model *)
(* ================================================================== *)

Section VersionFacts.

Variable gettext : string -> string.
Variable getActiveObject : nat -> option OutlookApplication.
Variable py_int : string -> PyResult Z.
Variable GetTimeFormatEx : datetime -> string.
Variable GetDateFormatEx : datetime -> string.
Variable GetTimeFormat : datetime -> string.
Variable UIAHandler_handler : bool.
Variable UIA_focus : option UIAObject.

(** Reading [nativeOm] never raises. *)
Lemma nativeOm_returns (w : World) :
  exists v : option OutlookApplication,
    outcome (nativeOm gettext getActiveObject w) = Return v.
Proof.
  destruct (nativeOm_attr (appModule w)) as [v|] eqn:Ha.
  - exists v. now rewrite (nativeOm_cached gettext getActiveObject w v Ha).
  - destruct (getActiveObject (getActiveObject_calls w)) as [om|] eqn:Ho.
    + exists (Some om). now rewrite (nativeOm_success gettext getActiveObject w om Ha Ho).
    + exists None.
      destruct (_hasTriedoutlookAppSwitch (appModule w)) eqn:Ht.
      * now rewrite (nativeOm_later_failure gettext getActiveObject w Ht Ha Ho).
      * now rewrite (nativeOm_first_failure gettext getActiveObject w (conj Ht Ha) Ho).
Qed.

(** C10: in a state where the read of [nativeOm] gives [None],
    [outlookVersion] is 0 and does nothing but that read; [reportFocus] of
    the calendar view then makes the call [event_valueChange] and no other
    call of its own, and [event_gainFocus] of the grid client makes the
    call to the base [event_gainFocus] and no other, whether or not UI
    Automation is available. *)
Theorem outlookVersion_without_nativeOm (w : World)
    (view : CalendarView) (client : SuperGridClient2010) :
  outcome (nativeOm gettext getActiveObject w) = Return None ->
  let read := nativeOm gettext getActiveObject w in
  outlookVersion gettext getActiveObject py_int w
  = (Return 0, final read, trace read)
  /\ reportFocus gettext getActiveObject py_int
       GetTimeFormatEx GetDateFormatEx GetTimeFormat view w
     = (Return tt, final read, (trace read ++ [event_valueChange])%list)
  /\ SuperGridClient2010_event_gainFocus gettext getActiveObject py_int
       UIAHandler_handler UIA_focus client w
     = (Return tt, final read, (trace read ++ [super_event_gainFocus])%list).
Proof.
  intros Hnone read.
  assert (Hv : outlookVersion gettext getActiveObject py_int w
               = (Return 0, final read, trace read)).
  { unfold outlookVersion, _get_outlookVersion, bind. subst read.
    destruct (nativeOm gettext getActiveObject w) as [[r w1] t].
    unfold outcome in Hnone. simpl in Hnone. subst r.
    unfold ret, final, trace. simpl. now rewrite app_nil_r. }
  split; [exact Hv |].
  split.
  - unfold reportFocus, bind. rewrite Hv. reflexivity.
  - unfold SuperGridClient2010_event_gainFocus, bind. rewrite Hv. reflexivity.
Qed.

End VersionFacts.

(** C10 in the world where [None] has been written to the attribute: no
    acquisition is tried and the calls are the two fallbacks alone. *)
Lemma outlookVersion_without_nativeOm_witness :
  outcome (nativeOm untranslated never_available world_without_Outlook) = Return None
  /\ outlookVersion untranslated never_available int_fails world_without_Outlook
     = (Return 0, world_without_Outlook, [])
  /\ reportFocus untranslated never_available int_fails
       clock_text long_date_text clock_text {| cv_windowHandle := 1 |}
       world_without_Outlook
     = (Return tt, world_without_Outlook, [event_valueChange])
  /\ SuperGridClient2010_event_gainFocus untranslated never_available int_fails
       true None {| sgc_parent := 3 |} world_without_Outlook
     = (Return tt, world_without_Outlook, [super_event_gainFocus]).
Proof.
  split; [reflexivity |].
  apply (outlookVersion_without_nativeOm untranslated never_available int_fails
           clock_text long_date_text clock_text true None world_without_Outlook
           {| cv_windowHandle := 1 |} {| sgc_parent := 3 |}).
  reflexivity.
Defined.

(** The same on a fresh session on which the acquisition fails: the read of
    [nativeOm] shows the waiting dialog, and the fallback follows. *)
Example reportFocus_on_fresh_session :
  trace (reportFocus untranslated never_available int_fails
           clock_text long_date_text clock_text {| cv_windowHandle := 1 |} fresh_world)
  = [Dialog_Center; mainFrame_prePopup; Dialog_Show "Waiting for Outlook...";
     api_processPendingEvents; PumpEvents 1; Dialog_Destroy; mainFrame_postPopup;
     event_valueChange].
Proof. reflexivity. Qed.

(* ================================================================== *)
(** * The session: how often the acquisition is tried *)
(* ================================================================== *)

Lemma final_bind_ret {S A B : Type} (m : Eff S A) (f : A -> B) (s : S) :
  final (bind m (fun a => ret (f a)) s) = final (m s).
Proof.
  unfold bind, final, ret. destruct (m s) as [[[a | e] s1] t]; reflexivity.
Qed.

Section MoreSessionFacts.

Variable gettext : string -> string.
Variable getActiveObject : nat -> option OutlookApplication.

Lemma nativeOm_reads_final_step (n : nat) (w w1 : World)
    (v : option OutlookApplication) (t : list HostCall) :
  nativeOm gettext getActiveObject w = (Return v, w1, t) ->
  final (nativeOm_reads gettext getActiveObject (S n) w)
  = final (nativeOm_reads gettext getActiveObject n w1).
Proof.
  intro H. simpl. rewrite (final_bind_return _ _ w w1 v t H).
  apply final_bind_ret.
Qed.

Lemma nativeOm_reads_calls_after_switch (n : nat) (w : World) :
  _hasTriedoutlookAppSwitch (appModule w) = true ->
  (getActiveObject_calls (final (nativeOm_reads gettext getActiveObject n w))
   <= S (getActiveObject_calls w))%nat.
Proof.
  intro Ht. destruct n as [|n]; [eff_simpl; lia|].
  destruct (nativeOm_attr (appModule w)) as [v|] eqn:Ha.
  - rewrite (nativeOm_reads_cached gettext getActiveObject _ w v Ha). eff_simpl. lia.
  - destruct (getActiveObject (getActiveObject_calls w)) as [om|] eqn:Ho.
    + rewrite (nativeOm_reads_final_step n w _ _ _
                 (nativeOm_success gettext getActiveObject w om Ha Ho)).
      rewrite nativeOm_reads_cached with (v := Some om) by reflexivity.
      eff_simpl. lia.
    + rewrite (nativeOm_reads_final_step n w _ _ _
                 (nativeOm_later_failure gettext getActiveObject w Ht Ha Ho)).
      rewrite nativeOm_reads_cached with (v := None) by reflexivity.
      eff_simpl. lia.
Qed.

(** X1: whatever the acquisitions give and however often the attribute is
    read, a session calls [getActiveObject] at most twice, shows the
    waiting dialog at most once and logs at most one error. *)
Theorem session_acquisition_bounds (n : nat) (w : World) :
  untried w ->
  let r := nativeOm_reads gettext getActiveObject n w in
  (getActiveObject_calls (final r) <= 2 + getActiveObject_calls w)%nat
  /\ (count_calls is_Dialog_Show (trace r) <= 1)%nat
  /\ (count_calls is_log_error (trace r) <= 1)%nat.
Proof.
  intros Hu r. subst r.
  split; [| exact (waiting_dialog_at_most_once gettext getActiveObject n w Hu)].
  destruct n as [|n]; [eff_simpl; lia|].
  destruct (getActiveObject (getActiveObject_calls w)) as [om|] eqn:Ho.
  - rewrite (nativeOm_reads_final_step n w _ _ _
               (nativeOm_success gettext getActiveObject w om (proj2 Hu) Ho)).
    rewrite nativeOm_reads_cached with (v := Some om) by reflexivity.
    eff_simpl. lia.
  - rewrite (nativeOm_reads_final_step n w _ _ _
               (nativeOm_first_failure gettext getActiveObject w Hu Ho)).
    match goal with
    | |- context [nativeOm_reads _ _ n ?w1] =>
        pose proof (nativeOm_reads_calls_after_switch n w1 eq_refl) as H
    end.
    simpl in H. lia.
Qed.

(** X2: when the first attempt fails and the second succeeds, the first read
    shows the waiting dialog once and returns [None], the second read
    returns the object without logging anything, and every later read
    returns the same object without any host call or attempt. *)
Theorem nativeOm_recovers_on_second_attempt (w : World) (om : OutlookApplication) :
  untried w ->
  getActiveObject (getActiveObject_calls w) = None ->
  getActiveObject (S (getActiveObject_calls w)) = Some om ->
  let first := nativeOm gettext getActiveObject w in
  let second := nativeOm gettext getActiveObject (final first) in
  outcome first = Return None
  /\ count_calls is_Dialog_Show (trace first) = 1%nat
  /\ outcome second = Return (Some om)
  /\ trace second = []
  /\ (forall n : nat,
        nativeOm_reads gettext getActiveObject n (final second)
        = (Return (repeat (Some om) n), final second, [])).
Proof.
  intros Hu H1 H2 first second.
  assert (E1 : first = nativeOm gettext getActiveObject w) by reflexivity.
  rewrite (nativeOm_first_failure gettext getActiveObject w Hu H1) in E1.
  assert (E2 : second = nativeOm gettext getActiveObject (final first)) by reflexivity.
  rewrite E1 in E2. unfold final in E2. simpl in E2.
  rewrite (nativeOm_success gettext getActiveObject _ om) in E2 by (simpl; auto).
  simpl in E2. rewrite E1, E2. simpl.
  repeat split.
  intro n. apply nativeOm_reads_cached. reflexivity.
Qed.

End MoreSessionFacts.

(** X1 on a fresh session with five reads and no Outlook. *)
Lemma session_acquisition_bounds_witness :
  untried fresh_world
  /\ let r := nativeOm_reads untranslated never_available 5 fresh_world in
     (getActiveObject_calls (final r) <= 2 + getActiveObject_calls fresh_world)%nat
     /\ (count_calls is_Dialog_Show (trace r) <= 1)%nat
     /\ (count_calls is_log_error (trace r) <= 1)%nat.
Proof.
  split; [split; reflexivity |].
  apply (session_acquisition_bounds untranslated never_available 5 fresh_world).
  split; reflexivity.
Defined.

Lemma nativeOm_recovers_on_second_attempt_witness :
  untried fresh_world
  /\ available_later (getActiveObject_calls fresh_world) = None
  /\ available_later (S (getActiveObject_calls fresh_world)) = Some sample_Outlook
  /\ let first := nativeOm untranslated available_later fresh_world in
     let second := nativeOm untranslated available_later (final first) in
     outcome first = Return None
     /\ count_calls is_Dialog_Show (trace first) = 1%nat
     /\ outcome second = Return (Some sample_Outlook)
     /\ trace second = []
     /\ (forall n : nat,
           nativeOm_reads untranslated available_later n (final second)
           = (Return (repeat (Some sample_Outlook) n), final second, [])).
Proof.
  split; [split; reflexivity |].
  split; [reflexivity |]. split; [reflexivity |].
  apply (nativeOm_recovers_on_second_attempt untranslated available_later
           fresh_world sample_Outlook);
    [split; reflexivity | reflexivity | reflexivity].
Defined.

(* ================================================================== *)
(** * The version of a bound session *)
(* ================================================================== *)

Lemma split_from_prefix (sep : ascii) (major rest cur : string) :
  no_char sep major = true ->
  split_from sep (major ++ String sep rest) cur
  = (cur ++ major)%string :: split_from sep rest "".
Proof.
  revert cur. induction major as [|c major IH]; intros cur H; simpl.
  - rewrite Ascii.eqb_refl. now rewrite append_empty_r.
  - simpl in H. apply andb_prop in H as [Hc Hm].
    apply negb_true_iff in Hc. rewrite Hc. rewrite (IH _ Hm).
    rewrite append_assoc. reflexivity.
Qed.

Lemma split_from_no_sep (sep : ascii) (s cur : string) :
  no_char sep s = true ->
  split_from sep s cur = [(cur ++ s)%string].
Proof.
  revert cur. induction s as [|c s IH]; intros cur H; simpl.
  - now rewrite append_empty_r.
  - simpl in H. apply andb_prop in H as [Hc Hm].
    apply negb_true_iff in Hc. rewrite Hc. rewrite (IH _ Hm).
    rewrite append_assoc. reflexivity.
Qed.

Section BoundVersion.

Variable gettext : string -> string.
Variable getActiveObject : nat -> option OutlookApplication.
Variable py_int : string -> PyResult Z.

(** With the object written to the attribute, the version is [int] of the
    first dot-separated part and reading it changes nothing. *)
Lemma outlookVersion_bound (w : World) (om : OutlookApplication) :
  nativeOm_attr (appModule w) = Some (Some om) ->
  outlookVersion gettext getActiveObject py_int w
  = (py_int (hd "" (split "." (version om))), w, []).
Proof.
  intro Ha. unfold outlookVersion, _get_outlookVersion, bind.
  rewrite (nativeOm_cached gettext getActiveObject w (Some om) Ha).
  unfold lift. reflexivity.
Qed.

(** X3: on a bound session the version is [int] of the text before the
    first dot of the version string, whatever follows the dot, and of the
    whole string when it has no dot; reading it makes no host call and
    leaves the session as it is. *)
Theorem outlookVersion_major_part (w : World) (om : OutlookApplication)
    (major : string) :
  nativeOm_attr (appModule w) = Some (Some om) ->
  no_char "." major = true ->
  (version om = major \/ exists rest, version om = (major ++ "." ++ rest)%string) ->
  outlookVersion gettext getActiveObject py_int w = (py_int major, w, []).
Proof.
  intros Ha Hm Hv. rewrite (outlookVersion_bound w om Ha).
  replace (hd "" (split "." (version om))) with major; [reflexivity|].
  unfold split. destruct Hv as [Hv | [rest Hv]]; rewrite Hv.
  - now rewrite split_from_no_sep.
  - change (major ++ "." ++ rest)%string with (major ++ String "." rest)%string.
    now rewrite split_from_prefix.
Qed.

End BoundVersion.

Lemma outlookVersion_major_part_witness :
  nativeOm_attr (appModule (world_with sample_Outlook)) = Some (Some sample_Outlook)
  /\ no_char "." "16" = true
  /\ (version sample_Outlook = "16"
      \/ exists rest, version sample_Outlook = ("16" ++ "." ++ rest)%string)
  /\ outlookVersion untranslated never_available int_of_digits (world_with sample_Outlook)
     = (Return 16, world_with sample_Outlook, []).
Proof.
  split; [reflexivity |]. split; [reflexivity |].
  split; [right; exists "0.4266.1001"; reflexivity |].
  apply (outlookVersion_major_part untranslated never_available int_of_digits
           (world_with sample_Outlook) sample_Outlook "16");
    [reflexivity | reflexivity | right; exists "0.4266.1001"; reflexivity].
Defined.

(* ================================================================== *)
(** * CalendarView: reportFocus *)
(* ================================================================== *)

Section ReportFocusFacts.

Variable gettext : string -> string.
Variable getActiveObject : nat -> option OutlookApplication.
Variable py_int : string -> PyResult Z.
Variable GetTimeFormatEx : datetime -> string.
Variable GetDateFormatEx : datetime -> string.
Variable GetTimeFormat : datetime -> string.

(** With the message ids as they are written in the module, the branch that
    would read an unbound [startDateText] is never taken. *)
Lemma generateTimeRangeText_total (self : CalendarView) (w : World)
    (startTime endTime : datetime) :
  exists text : string,
    _generateTimeRangeText untranslated GetTimeFormatEx GetDateFormatEx
      self startTime endTime w
    = (Return text, set_lastStartDate w (Some (datetime_date startTime)), []).
Proof.
  rewrite generateTimeRangeText_cases. eexists. reflexivity.
Qed.

(** X4: with the message ids as they are written in the module, whatever
    the state and the slot, [_generateTimeRangeText] returns a text and does
    not raise: the local [startDateText] is bound whenever the all-day
    branch reads it.  It makes no host call, leaves the date of the start
    in [_lastStartDate] and changes nothing else of the state. *)
Theorem generateTimeRangeText_returns (self : CalendarView) (w : World)
    (startTime endTime : datetime) :
  let r := _generateTimeRangeText untranslated GetTimeFormatEx GetDateFormatEx
             self startTime endTime w in
  (exists text : string, outcome r = Return text)
  /\ trace r = []
  /\ CalendarView_lastStartDate (final r) = Some (datetime_date startTime)
  /\ appModule (final r) = appModule w
  /\ getActiveObject_calls (final r) = getActiveObject_calls w.
Proof.
  intro r. subst r.
  destruct (generateTimeRangeText_total self w startTime endTime) as [text H].
  rewrite H. split; [exists text; reflexivity | repeat split].
Qed.

(** X5: a slot that starts at midnight and lasts 86400 seconds is rendered
    as the long date of its start followed by (all day), in every state. *)
Theorem all_day_text_for_one_day_from_midnight (self : CalendarView) (w : World)
    (startTime endTime : datetime) :
  starts_at_midnight startTime = true ->
  0 <= hour endTime < 24 -> 0 <= minute endTime < 60 -> 0 <= second endTime < 60 ->
  datetime_sub_total_seconds endTime startTime = SECONDS_PER_DAY ->
  outcome (_generateTimeRangeText untranslated GetTimeFormatEx GetDateFormatEx
             self startTime endTime w)
  = Return (GetDateFormatEx startTime ++ " (all day)")%string.
Proof.
  intros Hm Hh Hmi Hs Hd.
  rewrite generateTimeRangeText_cases.
  rewrite (all_day_if_midnight_and_one_day startTime endTime Hm Hh Hmi Hs Hd).
  reflexivity.
Qed.

(** On a bound session [reportFocus] starts with the version test and
    reads nothing else of the session. *)
Lemma reportFocus_bound (view : CalendarView) (w : World)
    (om : OutlookApplication) (v : Z) :
  nativeOm_attr (appModule w) = Some (Some om) ->
  py_int (hd "" (split "." (version om))) = Return v ->
  reportFocus gettext getActiveObject py_int
    GetTimeFormatEx GetDateFormatEx GetTimeFormat view w
  = if v >=? 13 then
      match selection (activeExplorer om) with
      | p :: _ =>
          match appt_start p, appt_end p with
          | Some start, Some end_ =>
              bind (_generateTimeRangeText gettext GetTimeFormatEx GetDateFormatEx
                      view start end_)
                (fun t =>
                   bind (uncaught (appt_subject p))
                     (fun subject =>
                        call (ui_message
                                (str_format (gettext "Appointment {subject}, {time}")
                                   [("subject", subject); ("time", t)])))) w
          | _, _ => (Return tt, w, [super_reportFocus])
          end
      | [] =>
          match selectedStartTime (activeExplorer om),
                selectedEndTime (activeExplorer om) with
          | Some selStart, Some selEnd =>
              bind (_generateTimeRangeText gettext GetTimeFormatEx GetDateFormatEx
                      view selStart selEnd)
                (fun timeSlotText =>
                   bind (uncaught
                           (items_find (activeExplorer om)
                              (str_format
                                 ("[Start] < " ++ dquote ++ "{endLimit}" ++ dquote
                                  ++ " And [End] > " ++ dquote ++ "{startLimit}"
                                  ++ dquote)%string
                                 [("startLimit",
                                   pct_format "%s %s"
                                     [GetDateFormatEx selStart; GetTimeFormat selStart]);
                                  ("endLimit",
                                   pct_format "%s %s"
                                     [GetDateFormatEx selEnd; GetTimeFormat selEnd])])))
                     (fun found : bool =>
                        call (ui_message
                                (if found
                                 then (gettext "Has appointment" ++ " "
                                       ++ timeSlotText)%string
                                 else timeSlotText)))) w
          | _, _ => (Return tt, w, [super_reportFocus])
          end
      end
    else (Return tt, w, [event_valueChange]).
Proof.
  intros Ha Hv. unfold reportFocus.
  unfold bind at 1. rewrite (outlookVersion_bound gettext getActiveObject py_int w om Ha).
  rewrite Hv. destruct (v >=? 13).
  - unfold bind at 1. rewrite (nativeOm_cached gettext getActiveObject w (Some om) Ha).
    destruct (selection (activeExplorer om)) as [|p rest].
    + destruct (selectedStartTime (activeExplorer om)) as [s|];
        [destruct (selectedEndTime (activeExplorer om)) as [e|] |].
      * destruct (bind _ _ w) as [[r w1] t] eqn:E. simpl. reflexivity.
      * reflexivity.
      * reflexivity.
    + destruct (appt_start p) as [s|]; [destruct (appt_end p) as [e|] |].
      * destruct (bind _ _ w) as [[r w1] t] eqn:E. simpl. reflexivity.
      * reflexivity.
      * reflexivity.
  - reflexivity.
Qed.

(** X7: on a bound session of version 13 or later, when the start or the
    end of the selected appointment, or of the selected time slot when no
    appointment is selected, cannot be read, [reportFocus] calls the base
    [reportFocus] and nothing else, and the state, [_lastStartDate]
    included, is left as it was. *)
Theorem reportFocus_unreadable_times (view : CalendarView) (w : World)
    (om : OutlookApplication) (v : Z) :
  nativeOm_attr (appModule w) = Some (Some om) ->
  py_int (hd "" (split "." (version om))) = Return v ->
  13 <= v ->
  (exists p rest, selection (activeExplorer om) = p :: rest
                  /\ (appt_start p = None \/ appt_end p = None))
  \/ (selection (activeExplorer om) = []
      /\ (selectedStartTime (activeExplorer om) = None
          \/ selectedEndTime (activeExplorer om) = None)) ->
  reportFocus gettext getActiveObject py_int
    GetTimeFormatEx GetDateFormatEx GetTimeFormat view w
  = (Return tt, w, [super_reportFocus]).
Proof.
  intros Ha Hv Hge Hsel. rewrite (reportFocus_bound view w om v Ha Hv).
  replace (v >=? 13) with true by (symmetry; apply Z.geb_le; lia).
  destruct Hsel as [[p [rest [Hs [H | H]]]] | [Hs [H | H]]]; rewrite Hs, ?H.
  - reflexivity.
  - destruct (appt_start p); reflexivity.
  - reflexivity.
  - destruct (selectedStartTime (activeExplorer om)); reflexivity.
Qed.

End ReportFocusFacts.

Section ReportFocusTexts.

Variable getActiveObject : nat -> option OutlookApplication.
Variable py_int : string -> PyResult Z.
Variable GetTimeFormatEx : datetime -> string.
Variable GetDateFormatEx : datetime -> string.
Variable GetTimeFormat : datetime -> string.

(** X6: on a bound session whose version can be parsed, and with the
    message ids as they are written in the module, [reportFocus] either
    returns after exactly one host call, which is one of [ui.message], the
    base [reportFocus] and [event_valueChange], or raises the [COMError] of
    a remote read that it does not guard, after no host call at all.  Below
    version 13 it returns after [event_valueChange] and leaves the state as
    it was.  It returns whenever the subject of every selected appointment
    can be read and every search of the folder's items succeeds. *)
Theorem reportFocus_one_announcement (view : CalendarView) (w : World)
    (om : OutlookApplication) (v : Z) :
  nativeOm_attr (appModule w) = Some (Some om) ->
  py_int (hd "" (split "." (version om))) = Return v ->
  let r := reportFocus untranslated getActiveObject py_int
             GetTimeFormatEx GetDateFormatEx GetTimeFormat view w in
  ((outcome r = Return tt
    /\ exists c : HostCall, trace r = [c] /\ is_announcement c = true)
   \/ (outcome r = Raise COMError /\ trace r = []))
  /\ (v < 13 -> r = (Return tt, w, [event_valueChange]))
  /\ ((forall p, In p (selection (activeExplorer om)) -> appt_subject p <> None) ->
      (forall query, items_find (activeExplorer om) query <> None) ->
      outcome r = Return tt).
Proof.
  intros Ha Hv r. subst r.
  rewrite (reportFocus_bound untranslated getActiveObject py_int
             GetTimeFormatEx GetDateFormatEx GetTimeFormat view w om v Ha Hv).
  destruct (v >=? 13) eqn:Hge.
  - assert (Hnot : ~ v < 13) by (apply Z.geb_le in Hge; lia).
    destruct (selection (activeExplorer om)) as [|p rest].
    + destruct (selectedStartTime (activeExplorer om)) as [s|];
        [destruct (selectedEndTime (activeExplorer om)) as [e|] |].
      * destruct (generateTimeRangeText_total GetTimeFormatEx GetDateFormatEx
                    view w s e) as [text Ht].
        unfold bind. rewrite Ht.
        match goal with
        | |- context [items_find ?ex ?q] =>
            generalize (fun H : forall query, items_find ex query <> None => H q);
            destruct (items_find ex q) as [found|]
        end; intro Hq; eff_simpl.
        -- split; [left; split; [reflexivity | eexists; split; reflexivity] |].
           split; [intro; contradiction | reflexivity].
        -- split; [right; split; reflexivity |].
           split; [intro; contradiction |].
           intros _ Hf. exfalso. apply (Hq Hf). reflexivity.
      * split; [left; split; [reflexivity | eexists; split; reflexivity] |].
        split; [intro; contradiction | reflexivity].
      * split; [left; split; [reflexivity | eexists; split; reflexivity] |].
        split; [intro; contradiction | reflexivity].
    + destruct (appt_start p) as [s|]; [destruct (appt_end p) as [e|] |].
      * destruct (generateTimeRangeText_total GetTimeFormatEx GetDateFormatEx
                    view w s e) as [text Ht].
        unfold bind. rewrite Ht.
        destruct (appt_subject p) as [subject|] eqn:Hsub; eff_simpl.
        -- split; [left; split; [reflexivity | eexists; split; reflexivity] |].
           split; [intro; contradiction | reflexivity].
        -- split; [right; split; reflexivity |].
           split; [intro; contradiction |].
           intros Hp _. exfalso. apply (Hp p); [left; reflexivity | exact Hsub].
      * split; [left; split; [reflexivity | eexists; split; reflexivity] |].
        split; [intro; contradiction | reflexivity].
      * split; [left; split; [reflexivity | eexists; split; reflexivity] |].
        split; [intro; contradiction | reflexivity].
  - split; [left; split; [reflexivity | eexists; split; reflexivity] |].
    split; reflexivity.
Qed.

(** X8: on a bound session of version 13 or later with appointments
    selected, the first of them having a start and an end that can be read,
    [reportFocus] computes the time range of that appointment with
    [_generateTimeRangeText], which leaves the date of its start in
    [_lastStartDate], and then reads its subject.  When the subject can be
    read it speaks Appointment <subject>, <time range> and returns; when
    that read fails the [COMError] leaves [reportFocus], nothing is spoken,
    and [_lastStartDate] keeps the date just written. *)
Theorem reportFocus_appointment (view : CalendarView) (w : World)
    (om : OutlookApplication) (v : Z) (p : AppointmentItem)
    (rest : list AppointmentItem) (start end_ : datetime) (t : string) :
  nativeOm_attr (appModule w) = Some (Some om) ->
  py_int (hd "" (split "." (version om))) = Return v ->
  13 <= v ->
  selection (activeExplorer om) = p :: rest ->
  appt_start p = Some start ->
  appt_end p = Some end_ ->
  outcome (_generateTimeRangeText untranslated GetTimeFormatEx GetDateFormatEx
             view start end_ w) = Return t ->
  reportFocus untranslated getActiveObject py_int
    GetTimeFormatEx GetDateFormatEx GetTimeFormat view w
  = match appt_subject p with
    | Some subject =>
        (Return tt, set_lastStartDate w (Some (datetime_date start)),
         [ui_message ("Appointment " ++ subject ++ ", " ++ t)%string])
    | None =>
        (Raise COMError, set_lastStartDate w (Some (datetime_date start)), [])
    end.
Proof.
  intros Ha Hv Hge Hsel Hs He Ht.
  rewrite (reportFocus_bound untranslated getActiveObject py_int
             GetTimeFormatEx GetDateFormatEx GetTimeFormat view w om v Ha Hv).
  replace (v >=? 13) with true by (symmetry; apply Z.geb_le; lia).
  rewrite Hsel, Hs, He.
  destruct (generateTimeRangeText_total GetTimeFormatEx GetDateFormatEx
              view w start end_) as [text Hr].
  rewrite Hr in Ht. unfold outcome in Ht. simpl in Ht. injection Ht as Ht. subst text.
  unfold bind at 1. rewrite Hr.
  destruct (appt_subject p) as [subject|].
  - unfold bind, uncaught, ret, call, str_format, untranslated. simpl.
    rewrite append_empty_r. reflexivity.
  - reflexivity.
Qed.

(** X9: on a bound session of version 13 or later with no appointment
    selected and a selected time slot whose start and end can be read,
    [reportFocus] computes the text of the slot with
    [_generateTimeRangeText], which leaves the date of its start in
    [_lastStartDate], and then searches the folder's items, recurrences
    included, with the query
    [Start] < "<end of the slot>" And [End] > "<start of the slot>", each
    limit being the long date and the time of day.  When the search
    succeeds it speaks the text of the slot, with Has appointment in front
    exactly when an item was found, and returns; when the search fails the
    [COMError] leaves [reportFocus], nothing is spoken, and
    [_lastStartDate] keeps the date just written. *)
Theorem reportFocus_time_slot (view : CalendarView) (w : World)
    (om : OutlookApplication) (v : Z) (selStart selEnd : datetime) (t : string) :
  nativeOm_attr (appModule w) = Some (Some om) ->
  py_int (hd "" (split "." (version om))) = Return v ->
  13 <= v ->
  selection (activeExplorer om) = [] ->
  selectedStartTime (activeExplorer om) = Some selStart ->
  selectedEndTime (activeExplorer om) = Some selEnd ->
  outcome (_generateTimeRangeText untranslated GetTimeFormatEx GetDateFormatEx
             view selStart selEnd w) = Return t ->
  let query :=
    ("[Start] < " ++ dquote
     ++ (GetDateFormatEx selEnd ++ " " ++ GetTimeFormat selEnd) ++ dquote
     ++ " And [End] > " ++ dquote
     ++ (GetDateFormatEx selStart ++ " " ++ GetTimeFormat selStart) ++ dquote)%string in
  reportFocus untranslated getActiveObject py_int
    GetTimeFormatEx GetDateFormatEx GetTimeFormat view w
  = match items_find (activeExplorer om) query with
    | Some found =>
        (Return tt, set_lastStartDate w (Some (datetime_date selStart)),
         [ui_message ((if found then "Has appointment " else "") ++ t)%string])
    | None =>
        (Raise COMError, set_lastStartDate w (Some (datetime_date selStart)), [])
    end.
Proof.
  intros Ha Hv Hge Hsel Hs He Ht query.
  rewrite (reportFocus_bound untranslated getActiveObject py_int
             GetTimeFormatEx GetDateFormatEx GetTimeFormat view w om v Ha Hv).
  replace (v >=? 13) with true by (symmetry; apply Z.geb_le; lia).
  rewrite Hsel, Hs, He.
  destruct (generateTimeRangeText_total GetTimeFormatEx GetDateFormatEx
              view w selStart selEnd) as [text Hr].
  rewrite Hr in Ht. unfold outcome in Ht. simpl in Ht. injection Ht as Ht. subst text.
  unfold bind at 1. rewrite Hr.
  rewrite !pct_format_pair.
  assert (Hq : str_format
                 ("[Start] < " ++ dquote ++ "{endLimit}" ++ dquote
                  ++ " And [End] > " ++ dquote ++ "{startLimit}" ++ dquote)%string
                 [("startLimit", (GetDateFormatEx selStart ++ " " ++ GetTimeFormat selStart)%string);
                  ("endLimit", (GetDateFormatEx selEnd ++ " " ++ GetTimeFormat selEnd)%string)]
               = query).
  { subst query. unfold str_format, dquote. simpl.
    rewrite !append_assoc. simpl. reflexivity. }
  rewrite Hq. unfold untranslated.
  destruct (items_find (activeExplorer om) query) as [[|]|]; reflexivity.
Qed.

End ReportFocusTexts.

(** X5 across the end of February of a leap year. *)
Lemma all_day_text_for_one_day_from_midnight_witness :
  starts_at_midnight (mk_datetime 2024 2 29 0 0 0) = true
  /\ datetime_sub_total_seconds (mk_datetime 2024 3 1 0 0 0) (mk_datetime 2024 2 29 0 0 0)
     = SECONDS_PER_DAY
  /\ outcome (_generateTimeRangeText untranslated clock_text long_date_text
                {| cv_windowHandle := 1 |}
                (mk_datetime 2024 2 29 0 0 0) (mk_datetime 2024 3 1 0 0 0) fresh_world)
     = Return "29 February 2024 (all day)".
Proof.
  split; [reflexivity |]. split; [reflexivity |].
  apply (all_day_text_for_one_day_from_midnight clock_text long_date_text
           {| cv_windowHandle := 1 |} fresh_world
           (mk_datetime 2024 2 29 0 0 0) (mk_datetime 2024 3 1 0 0 0));
    [reflexivity | simpl; lia | simpl; lia | simpl; lia | reflexivity].
Defined.

Lemma reportFocus_one_announcement_witness :
  nativeOm_attr (appModule (world_with Outlook_with_appointment))
  = Some (Some Outlook_with_appointment)
  /\ int_of_digits (hd "" (split "." (version Outlook_with_appointment))) = Return 16
  /\ let r := reportFocus untranslated never_available int_of_digits
               clock_text long_date_text clock_text {| cv_windowHandle := 1 |}
               (world_with Outlook_with_appointment) in
     ((outcome r = Return tt
       /\ exists c : HostCall, trace r = [c] /\ is_announcement c = true)
      \/ (outcome r = Raise COMError /\ trace r = []))
     /\ (16 < 13 -> r = (Return tt, world_with Outlook_with_appointment,
                         [event_valueChange]))
     /\ ((forall p, In p (selection (activeExplorer Outlook_with_appointment)) ->
                    appt_subject p <> None) ->
         (forall query,
            items_find (activeExplorer Outlook_with_appointment) query <> None) ->
         outcome r = Return tt).
Proof.
  split; [reflexivity |]. split; [reflexivity |].
  apply (reportFocus_one_announcement never_available int_of_digits
           clock_text long_date_text clock_text {| cv_windowHandle := 1 |}
           (world_with Outlook_with_appointment) Outlook_with_appointment 16);
    reflexivity.
Defined.

Lemma reportFocus_unreadable_times_witness :
  nativeOm_attr (appModule (world_with Outlook_with_unreadable_appointment))
  = Some (Some Outlook_with_unreadable_appointment)
  /\ int_of_digits (hd "" (split "." (version Outlook_with_unreadable_appointment)))
     = Return 16
  /\ 13 <= 16
  /\ reportFocus untranslated never_available int_of_digits
       clock_text long_date_text clock_text {| cv_windowHandle := 1 |}
       (world_with Outlook_with_unreadable_appointment)
     = (Return tt, world_with Outlook_with_unreadable_appointment, [super_reportFocus]).
Proof.
  split; [reflexivity |]. split; [reflexivity |]. split; [lia |].
  apply (reportFocus_unreadable_times untranslated never_available int_of_digits
           clock_text long_date_text clock_text {| cv_windowHandle := 1 |}
           (world_with Outlook_with_unreadable_appointment)
           Outlook_with_unreadable_appointment 16);
    [reflexivity | reflexivity | lia |].
  left. eexists. eexists. split; [reflexivity |]. right. reflexivity.
Defined.

Lemma reportFocus_appointment_witness :
  nativeOm_attr (appModule (world_with Outlook_with_appointment))
  = Some (Some Outlook_with_appointment)
  /\ 13 <= 16
  /\ reportFocus untranslated never_available int_of_digits
       clock_text long_date_text clock_text {| cv_windowHandle := 1 |}
       (world_with Outlook_with_appointment)
     = (Return tt,
        set_lastStartDate (world_with Outlook_with_appointment)
          (Some {| d_year := 2024; d_month := 3; d_day := 1 |}),
        [ui_message "Appointment Review, 1 March 2024 10:00 to 11:00"]).
Proof.
  split; [reflexivity |]. split; [lia |].
  apply (reportFocus_appointment never_available int_of_digits
           clock_text long_date_text clock_text {| cv_windowHandle := 1 |}
           (world_with Outlook_with_appointment) Outlook_with_appointment 16
           sample_appointment [] (mk_datetime 2024 3 1 10 0 0)
           (mk_datetime 2024 3 1 11 0 0) "1 March 2024 10:00 to 11:00");
    [reflexivity | reflexivity | lia | reflexivity | reflexivity | reflexivity
    | reflexivity].
Defined.

Lemma reportFocus_time_slot_witness :
  nativeOm_attr (appModule (world_with Outlook_with_time_slot))
  = Some (Some Outlook_with_time_slot)
  /\ 13 <= 16
  /\ reportFocus untranslated never_available int_of_digits
       clock_text long_date_text clock_text {| cv_windowHandle := 1 |}
       (world_with Outlook_with_time_slot)
     = (Return tt,
        set_lastStartDate (world_with Outlook_with_time_slot)
          (Some {| d_year := 2024; d_month := 3; d_day := 1 |}),
        [ui_message "Has appointment 1 March 2024 10:00 to 10:30"]).
Proof.
  split; [reflexivity |]. split; [lia |].
  apply (reportFocus_time_slot never_available int_of_digits
           clock_text long_date_text clock_text {| cv_windowHandle := 1 |}
           (world_with Outlook_with_time_slot) Outlook_with_time_slot 16
           (mk_datetime 2024 3 1 10 0 0) (mk_datetime 2024 3 1 10 30 0)
           "1 March 2024 10:00 to 10:30");
    [reflexivity | reflexivity | lia | reflexivity | reflexivity | reflexivity
    | reflexivity].
Defined.

(** An appointment whose subject cannot be read: the error leaves
    [reportFocus], nothing is spoken, and the date of the appointment is in
    [_lastStartDate] all the same. *)
Example reportFocus_unreadable_subject :
  let om :=
    {| version := "16.0.4266.1001";
       activeExplorer :=
         {| selection := [ {| appt_start := Some (mk_datetime 2024 3 1 10 0 0);
                              appt_end := Some (mk_datetime 2024 3 1 11 0 0);
                              appt_subject := None |} ];
            selectedStartTime := None;
            selectedEndTime := None;
            items_find := fun _ => Some false |} |} in
  reportFocus untranslated never_available int_of_digits
    clock_text long_date_text clock_text {| cv_windowHandle := 1 |} (world_with om)
  = (Raise COMError,
     set_lastStartDate (world_with om)
       (Some {| d_year := 2024; d_month := 3; d_day := 1 |}),
     []).
Proof. reflexivity. Qed.

(** A time slot in a folder whose items cannot be searched. *)
Example reportFocus_unsearchable_folder :
  let om :=
    {| version := "16.0.4266.1001";
       activeExplorer :=
         {| selection := [];
            selectedStartTime := Some (mk_datetime 2024 3 1 10 0 0);
            selectedEndTime := Some (mk_datetime 2024 3 1 10 30 0);
            items_find := fun _ => None |} |} in
  reportFocus untranslated never_available int_of_digits
    clock_text long_date_text clock_text {| cv_windowHandle := 1 |} (world_with om)
  = (Raise COMError,
     set_lastStartDate (world_with om)
       (Some {| d_year := 2024; d_month := 3; d_day := 1 |}),
     []).
Proof. reflexivity. Qed.

(* ================================================================== *)
(** * The legacy message list over a sequence of events *)
(* ================================================================== *)

Section MoreLegacyListFacts.

Variable Window__init__ : PyVal -> PyResult unit.

(** [event_gainFocus] of the list, by whether a selection was read. *)
Lemma event_gainFocus_form (query : option PyVal) (self : MessageList_pre2003) :
  MessageList_pre2003_event_gainFocus Window__init__ query self
  = if py_truthy (selected_msg query)
    then (Raise (NameError "ArguementError"), self, [])
    else (Return tt, self, [super_event_gainFocus]).
Proof.
  unfold MessageList_pre2003_event_gainFocus, bind, get, call, lift, ret.
  destruct (py_truthy (selected_msg query)); [| reflexivity].
  rewrite MessageItem_positional_call_raises. reflexivity.
Qed.

(** X10: [event_gainFocus] of the legacy list calls the base
    [event_gainFocus] exactly when no remote selection can be read, and
    then returns; when a selection can be read it raises in
    [MessageItem(self,msg)] before the base handler is called, so that it
    makes no host call at all.  It never dispatches an event on a message
    item and leaves the list as it was. *)
Theorem legacy_list_gainFocus (query : option PyVal) (self : MessageList_pre2003) :
  let r := MessageList_pre2003_event_gainFocus Window__init__ query self in
  final r = self
  /\ count_calls is_executeEvent (trace r) = 0%nat
  /\ count_calls is_super_event_gainFocus (trace r)
     = (if py_truthy (selected_msg query) then 0 else 1)%nat
  /\ outcome r = (if py_truthy (selected_msg query)
                  then Raise (NameError "ArguementError") else Return tt).
Proof.
  intro r. subst r. rewrite event_gainFocus_form.
  destruct (py_truthy (selected_msg query)); repeat split.
Qed.

(** X11: through any sequence of focus events and navigation gestures,
    with any selections, the legacy list keeps the [curMessageItem] it
    started with, so its children stay what they were, and no event is ever
    dispatched on a message item. *)
Theorem legacy_list_never_gets_item (events : list ListEvent)
    (self : MessageList_pre2003) :
  fst (run_list_events Window__init__ events self) = self
  /\ MessageList_pre2003_get_children (fst (run_list_events Window__init__ events self))
     = MessageList_pre2003_get_children self
  /\ count_calls is_executeEvent (snd (run_list_events Window__init__ events self))
     = 0%nat.
Proof.
  assert (H : fst (run_list_events Window__init__ events self) = self
              /\ count_calls is_executeEvent
                   (snd (run_list_events Window__init__ events self)) = 0%nat).
  { induction events as [|ev rest IH]; [split; reflexivity|].
    simpl. destruct ev as [query | query].
    - rewrite event_gainFocus_form.
      destruct (py_truthy (selected_msg query)); unfold final, trace; simpl;
        destruct IH as [IH1 IH2]; split; assumption.
    - destruct (script_moveByMessage_inert Window__init__ query self) as [Hf Ht].
      rewrite Hf. destruct IH as [IH1 IH2]. split; [assumption|].
      rewrite count_calls_app, Ht, IH2. reflexivity. }
  destruct H as [H1 H2]. rewrite H1. repeat split; assumption.
Qed.

End MoreLegacyListFacts.

(* ================================================================== *)
(** * The contact string and the sent-message string *)
(* ================================================================== *)

Section ContactFacts.

Variable isspace_char : ascii -> bool.

Lemma kept_fields_without_blanks (fields : list (option string)) :
  kept_fields isspace_char
    (map (fun x => if contact_field_kept isspace_char x then x else None) fields)
  = kept_fields isspace_char fields.
Proof.
  induction fields as [|x rest IH]; [reflexivity|].
  simpl. destruct x as [s|]; simpl; [| exact IH].
  destruct (nonempty s && negb (isspace isspace_char s))%bool eqn:E; simpl.
  - rewrite E. now rewrite IH.
  - exact IH.
Qed.

(** X12: a field that is [None], empty or white space only has no part in
    the contact string: the string is that of the contact with such fields
    removed, it is empty when no field is left, and it is the full name
    alone, with no separator, when only the full name is left. *)
Theorem getContactString_blank_fields (obj : ContactItem) :
  getContactString isspace_char obj
  = getContactString isspace_char (without_blanks isspace_char obj)
  /\ (contact_field_kept isspace_char (fullName obj) = false ->
      contact_field_kept isspace_char (companyName obj) = false ->
      contact_field_kept isspace_char (jobTitle obj) = false ->
      contact_field_kept isspace_char (email1address obj) = false ->
      getContactString isspace_char obj = "")
  /\ (forall name : string,
        fullName obj = Some name ->
        contact_field_kept isspace_char (fullName obj) = true ->
        contact_field_kept isspace_char (companyName obj) = false ->
        contact_field_kept isspace_char (jobTitle obj) = false ->
        contact_field_kept isspace_char (email1address obj) = false ->
        getContactString isspace_char obj = name).
Proof.
  assert (Hdrop : forall x rest,
             contact_field_kept isspace_char x = false ->
             kept_fields isspace_char (x :: rest) = kept_fields isspace_char rest).
  { intros x rest H. simpl. destruct x as [s|]; [| reflexivity]. now rewrite H. }
  split; [| split].
  - unfold getContactString, without_blanks. cbn [fullName companyName jobTitle email1address].
    symmetry.
    exact (f_equal (join ", ")
             (kept_fields_without_blanks
                [fullName obj; companyName obj; jobTitle obj; email1address obj])).
  - intros H1 H2 H3 H4. unfold getContactString.
    rewrite !Hdrop by assumption. reflexivity.
  - intros name Hn H1 H2 H3 H4. unfold getContactString.
    rewrite Hn in *.
    assert (Hkeep : forall rest,
               kept_fields isspace_char (Some name :: rest)
               = name :: kept_fields isspace_char rest).
    { intro rest. change (kept_fields isspace_char (Some name :: rest))
        with (if contact_field_kept isspace_char (Some name)
              then name :: kept_fields isspace_char rest
              else kept_fields isspace_char rest).
      now rewrite H1. }
    rewrite Hkeep. rewrite !Hdrop by assumption. reflexivity.
Qed.

End ContactFacts.

Lemma getContactString_blank_fields_witness :
  let obj := {| fullName := Some "Ada Lovelace"; companyName := Some "  ";
                jobTitle := Some ""; email1address := None |} in
  contact_field_kept ascii_space (fullName obj) = true
  /\ contact_field_kept ascii_space (companyName obj) = false
  /\ contact_field_kept ascii_space (jobTitle obj) = false
  /\ contact_field_kept ascii_space (email1address obj) = false
  /\ getContactString ascii_space obj = "Ada Lovelace".
Proof.
  split; [reflexivity |]. split; [reflexivity |].
  split; [reflexivity |]. split; [reflexivity |].
  apply (proj2 (proj2 (getContactString_blank_fields ascii_space
                         {| fullName := Some "Ada Lovelace"; companyName := Some "  ";
                            jobTitle := Some ""; email1address := None |}))
           "Ada Lovelace"); reflexivity.
Defined.

(** X13: with the message ids as they are written in the module, the
    sent-message string is <to>, subject: <subject>, sent: <sentOn>: the
    three parts in that order, joined by a comma and a space, each argument
    placed after its label. *)
Theorem getSentMessageString_text (obj : SentMessage) :
  getSentMessageString untranslated obj
  = (sent_to obj ++ ", subject: " ++ sent_subject obj ++ ", sent: " ++ sentOn obj)%string.
Proof.
  unfold getSentMessageString, untranslated. cbn [app].
  rewrite pct_format_subject.
  assert (Hs : pct_format "sent: %s" [sentOn obj] = ("sent: " ++ sentOn obj)%string)
    by (simpl; now rewrite append_empty_r).
  rewrite Hs. simpl. rewrite ?append_assoc. reflexivity.
Qed.

(* ================================================================== *)
(** * UIAGridRow: more on the tokens, the cells and the position *)
(* ================================================================== *)

Lemma join_split_from (sep : ascii) (s cur : string) :
  join (String sep "") (split_from sep s cur) = (cur ++ s)%string.
Proof.
  revert cur. induction s as [|c s IH]; intro cur.
  - simpl. now rewrite append_empty_r.
  - simpl. destruct (Ascii.eqb c sep) eqn:E.
    + apply Ascii.eqb_eq in E. subst c.
      pose proof (split_from_not_nil sep s "") as Hne.
      specialize (IH ""). destruct (split_from sep s "") as [|y l]; [contradiction|].
      cbn [join]. cbn [join] in IH. rewrite IH. reflexivity.
    + rewrite IH. rewrite append_assoc. reflexivity.
Qed.

(** Joining what [split] gives back restores the string. *)
Lemma join_split (sep : ascii) (s : string) :
  join (String sep "") (split sep s) = s.
Proof. unfold split. now rewrite join_split_from. Qed.

(** X14: for a silent class the value gives at most one token when the
    message is read and at most two when it is unread, however many tokens
    the value has. *)
Theorem value_tokens_silent_bound (value : string) (unread : bool)
    (messageClass : string) :
  str_in messageClass silentMessageClasses = true ->
  (List.length (value_tokens value unread messageClass)
   <= if unread then 2 else 1)%nat.
Proof.
  intro H. rewrite value_tokens_kept. unfold kept_value_tokens. rewrite H.
  rewrite length_skipn.
  destruct unread.
  - lia.
  - rewrite removelast_firstn_len, length_firstn. lia.
Qed.

Lemma value_tokens_silent_bound_witness :
  str_in "IPM.Note" silentMessageClasses = true
  /\ (List.length (value_tokens "Message Replied Forwarded Flagged Unread" true "IPM.Note")
      <= 2)%nat.
Proof.
  split; [reflexivity |].
  apply (value_tokens_silent_bound "Message Replied Forwarded Flagged Unread"
           true "IPM.Note").
  reflexivity.
Defined.

(** X15: for an unread message of a class that is not silent, the tokens
    taken from the value, joined by blanks, are the value itself. *)
Theorem value_tokens_unread_keep_value (value messageClass : string) :
  str_in messageClass silentMessageClasses = false ->
  join " " (value_tokens value true messageClass) = value.
Proof.
  intro H. rewrite value_tokens_kept. unfold kept_value_tokens. rewrite H.
  apply (join_split " " value).
Qed.

Lemma value_tokens_unread_keep_value_witness :
  str_in "IPM.Schedule.Meeting.Request" silentMessageClasses = false
  /\ join " " (value_tokens "Meeting request  Replied Unread" true
                 "IPM.Schedule.Meeting.Request")
     = "Meeting request  Replied Unread".
Proof.
  split; [reflexivity |].
  apply (value_tokens_unread_keep_value "Meeting request  Replied Unread"
           "IPM.Schedule.Meeting.Request").
  reflexivity.
Defined.

(** X16: when table headers are not reported, the texts of the cells are
    the names of the cached children that have one, in their order, each
    followed by a comma; the column headers play no part. *)
Theorem children_texts_without_headers (children : list CachedChild) :
  children_texts false [] children
  = map (fun name => (name ++ ",")%string)
      (filter nonempty (map cachedName children)).
Proof.
  induction children as [|e rest IH]; [reflexivity|].
  simpl. rewrite children_texts_app, IH.
  unfold child_text. rewrite andb_false_r. cbn [join nonempty String.eqb negb].
  destruct (nonempty (cachedName e)); reflexivity.
Qed.

Lemma info_get_set_same (info : list (string * Z)) (key : string) (value : Z) :
  info_get (info_set info key value) key = Some value.
Proof.
  induction info as [|[k v] rest IH]; simpl.
  - now rewrite String.eqb_refl.
  - destruct (String.eqb k key) eqn:E; simpl; rewrite E; [reflexivity | exact IH].
Qed.

Lemma info_get_set_other (info : list (string * Z)) (key other : string) (value : Z) :
  other <> key ->
  info_get (info_set info key value) other = info_get info other.
Proof.
  intro Hne. induction info as [|[k v] rest IH]; simpl.
  - destruct (String.eqb key other) eqn:E; [| reflexivity].
    apply String.eqb_eq in E. congruence.
  - destruct (String.eqb k key) eqn:E; simpl.
    + apply String.eqb_eq in E. subst k.
      destruct (String.eqb key other) eqn:E2; [| reflexivity].
      apply String.eqb_eq in E2. congruence.
    + destruct (String.eqb k other); [reflexivity | exact IH].
Qed.

(** X17: the position info of a grid row has level 1 for a thread header
    and level 2 for a thread item whose parent is a grid row, and otherwise
    the level of the base class, if any; every other entry is that of the
    base class. *)
Theorem UIAGridRow_positionInfo_level (super_positionInfo : option (list (string * Z)))
    (UIAClassName : string) (parent_isUIAGridRow : bool) :
  let info := UIAGridRow_get_positionInfo super_positionInfo UIAClassName
                parent_isUIAGridRow in
  info_get info "level"
  = (if String.eqb UIAClassName "ThreadHeader" then Some 1
     else if (String.eqb UIAClassName "ThreadItem" && parent_isUIAGridRow)%bool
     then Some 2
     else info_get (default_info super_positionInfo) "level")
  /\ forall key : string,
       key <> "level" ->
       info_get info key = info_get (default_info super_positionInfo) key.
Proof.
  unfold UIAGridRow_get_positionInfo. fold (default_info super_positionInfo).
  cbv zeta. split.
  - destruct (String.eqb UIAClassName "ThreadHeader");
      [apply info_get_set_same|].
    destruct (String.eqb UIAClassName "ThreadItem" && parent_isUIAGridRow)%bool;
      [apply info_get_set_same | reflexivity].
  - intros key Hk.
    destruct (String.eqb UIAClassName "ThreadHeader");
      [now apply info_get_set_other|].
    destruct (String.eqb UIAClassName "ThreadItem" && parent_isUIAGridRow)%bool;
      [now apply info_get_set_other | reflexivity].
Qed.

(* ================================================================== *)
(** * The tab script of the mail viewer *)
(* ================================================================== *)

(** X18: [script_tab] sends the gesture first; it speaks exactly when the
    caret moved and the selection is in a table or not collapsed, expands
    to the cell exactly when the caret moved into a table with a collapsed
    selection, and updates braille exactly when the caret moved. *)
Theorem script_tab_calls (caretMoved inTable isCollapsed : bool) :
  let calls := script_tab caretMoved inTable isCollapsed in
  hd_error calls = Some tab_gesture_send
  /\ makes tab_speakTextInfo calls = (caretMoved && (inTable || negb isCollapsed))%bool
  /\ makes tab_expand_UNIT_CELL calls = (caretMoved && inTable && isCollapsed)%bool
  /\ makes tab_braille_handleCaretMove calls = caretMoved
  /\ last calls tab_gesture_send
     = (if caretMoved then tab_braille_handleCaretMove else tab_gesture_send).
Proof.
  destruct caretMoved, inTable, isCollapsed; repeat split.
Qed.

(* ================================================================== *)
(** * SuperGridClient2010: where the focus goes *)
(* ================================================================== *)

Section GridClientFacts.

Variable gettext : string -> string.
Variable getActiveObject : nat -> option OutlookApplication.
Variable py_int : string -> PyResult Z.
Variable UIAHandler_handler : bool.
Variable UIA_focus : option UIAObject.

(** X20: on a bound session whose version can be parsed, [event_gainFocus]
    of the grid client returns, leaves the session as it is, and hands the
    focus on exactly once: either to the base handler or, as a gainFocus
    event, to the fetched UI Automation object.  The event is dispatched
    only for version 14 or later with UI Automation available and a
    fetched object that is a grid row, and the object dispatched is the
    fetched one with the client's parent as its parent. *)
Theorem SuperGridClient2010_gainFocus_one_handler (client : SuperGridClient2010)
    (w : World) (om : OutlookApplication) (v : Z) :
  nativeOm_attr (appModule w) = Some (Some om) ->
  py_int (hd "" (split "." (version om))) = Return v ->
  let r := SuperGridClient2010_event_gainFocus gettext getActiveObject py_int
             UIAHandler_handler UIA_focus client w in
  outcome r = Return tt
  /\ final r = w
  /\ (count_calls is_super_event_gainFocus (trace r)
      + count_calls is_executeEvent (trace r) = 1)%nat
  /\ (forall (eventName : string) (obj : UIAObject),
        In (executeEvent_UIA eventName obj) (trace r) ->
        eventName = "gainFocus"
        /\ 14 <= v
        /\ UIAHandler_handler = true
        /\ uia_parent obj = Some (sgc_parent client)
        /\ exists fetched : UIAObject,
             UIA_focus = Some fetched
             /\ uia_isUIAGridRow fetched = true
             /\ uia_runtimeId obj = uia_runtimeId fetched).
Proof.
  intros Ha Hv r.
  assert (E : r = (Return tt, w,
                   if ((v <? 14) || negb UIAHandler_handler)%bool
                   then [super_event_gainFocus]
                   else match UIA_focus with
                        | Some obj =>
                            if negb (uia_isUIAGridRow obj) then [super_event_gainFocus]
                            else [executeEvent_UIA "gainFocus"
                                    {| uia_isUIAGridRow := uia_isUIAGridRow obj;
                                       uia_runtimeId := uia_runtimeId obj;
                                       uia_parent := Some (sgc_parent client) |}]
                        | None => [log_debugWarning "Retrieving UIA focus failed";
                                   super_event_gainFocus]
                        end)).
  { subst r. unfold SuperGridClient2010_event_gainFocus. unfold bind at 1.
    rewrite (outlookVersion_bound gettext getActiveObject py_int w om Ha), Hv.
    destruct ((v <? 14) || negb UIAHandler_handler)%bool; [reflexivity|].
    destruct UIA_focus as [fetched|]; [| reflexivity].
    destruct (negb (uia_isUIAGridRow fetched)); reflexivity. }
  rewrite E. clear E r. unfold outcome, final, trace. cbn [fst snd].
  destruct (v <? 14) eqn:Hlt; simpl.
  { split; [reflexivity |]. split; [reflexivity |]. split; [reflexivity |].
    intros n o [H | []]. discriminate. }
  apply Z.ltb_ge in Hlt.
  destruct UIAHandler_handler; simpl.
  2:{ split; [reflexivity |]. split; [reflexivity |]. split; [reflexivity |].
      intros n o [H | []]. discriminate. }
  destruct UIA_focus as [fetched|]; simpl.
  2:{ split; [reflexivity |]. split; [reflexivity |]. split; [reflexivity |].
      intros n o [H | [H | []]]; discriminate. }
  destruct (uia_isUIAGridRow fetched) eqn:Hrow; simpl.
  2:{ split; [reflexivity |]. split; [reflexivity |]. split; [reflexivity |].
      intros n o [H | []]. discriminate. }
  split; [reflexivity |]. split; [reflexivity |]. split; [reflexivity |].
  intros n o [H | []]. injection H as Hn Ho. subst n o. simpl.
  split; [reflexivity |]. split; [exact Hlt |]. split; [reflexivity |].
  split; [reflexivity |].
  exists fetched. split; [reflexivity |]. split; [exact Hrow | reflexivity].
Qed.

End GridClientFacts.

Lemma SuperGridClient2010_gainFocus_one_handler_witness :
  nativeOm_attr (appModule (world_with sample_Outlook)) = Some (Some sample_Outlook)
  /\ int_of_digits (hd "" (split "." (version sample_Outlook))) = Return 16
  /\ let fetched := {| uia_isUIAGridRow := true; uia_runtimeId := 42; uia_parent := None |} in
     let r := SuperGridClient2010_event_gainFocus untranslated never_available
                int_of_digits true (Some fetched) {| sgc_parent := 3 |}
                (world_with sample_Outlook) in
     outcome r = Return tt
     /\ final r = world_with sample_Outlook
     /\ (count_calls is_super_event_gainFocus (trace r)
         + count_calls is_executeEvent (trace r) = 1)%nat
     /\ (forall (eventName : string) (obj : UIAObject),
           In (executeEvent_UIA eventName obj) (trace r) ->
           eventName = "gainFocus"
           /\ 14 <= 16
           /\ true = true
           /\ uia_parent obj = Some 3
           /\ exists fetched' : UIAObject,
                Some fetched = Some fetched'
                /\ uia_isUIAGridRow fetched' = true
                /\ uia_runtimeId obj = uia_runtimeId fetched').
Proof.
  split; [reflexivity |]. split; [reflexivity |].
  apply (SuperGridClient2010_gainFocus_one_handler untranslated never_available
           int_of_digits true
           (Some {| uia_isUIAGridRow := true; uia_runtimeId := 42; uia_parent := None |})
           {| sgc_parent := 3 |} (world_with sample_Outlook) sample_Outlook 16);
    reflexivity.
Defined.

(* ================================================================== *)
(** * The classification hook, rule by rule *)
(* ================================================================== *)

Lemma bind_return_eq {S A B : Type} (m : Eff S A) (k : A -> Eff S B)
    (s s1 : S) (a : A) :
  m s = (Return a, s1, []) -> bind m k s = k a s1.
Proof.
  intro H. unfold bind. rewrite H. destruct (k a s1) as [[r s2] t]. reflexivity.
Qed.

Section HookFacts.

Variable gettext : string -> string.
Variable getActiveObject : nat -> option OutlookApplication.
Variable py_int : string -> PyResult Z.
Variable getAncestor_GA_PARENT : Z -> Z.
Variable getClassName : Z -> string.

(** The hook on an object that is not an IAccessible. *)
Lemma hook_not_IAccessible_form (obj : NVDAObject) (w : World) (l : list OverlayClass) :
  isIAccessible obj = false ->
  chooseNVDAObjectOverlayClasses gettext getActiveObject py_int
    getAncestor_GA_PARENT getClassName obj {| hook_world := w; clsList := l |}
  = (Return tt, {| hook_world := w; clsList := after_row_rule obj l |}, []).
Proof.
  intro HIA. unfold chooseNVDAObjectOverlayClasses.
  rewrite (bind_return_eq _ _ _ {| hook_world := w; clsList := after_row_rule obj l |} tt).
  - rewrite HIA. reflexivity.
  - unfold after_row_rule. destruct (isUIA obj && _)%bool; reflexivity.
Qed.

(** The hook on an IAccessible: the rules before the window rules change
    the list only; the version is read for a message list window only. *)
Lemma hook_IAccessible_form (obj : NVDAObject) (w : World) (l : list OverlayClass) :
  isIAccessible obj = true ->
  let l4 := before_window_rules getAncestor_GA_PARENT getClassName obj l in
  chooseNVDAObjectOverlayClasses gettext getActiveObject py_int
    getAncestor_GA_PARENT getClassName obj {| hook_world := w; clsList := l |}
  = if is_address_book_row obj then
      (Return tt, {| hook_world := w; clsList := insert0 cls_AddressBookEntry l4 |}, [])
    else if is_message_list_window obj then
      match outlookVersion gettext getActiveObject py_int w with
      | (Return v, w', t) =>
          (Return tt,
           {| hook_world := w';
              clsList := after_calendar_rule obj (after_message_list_rule obj v l4) |},
           t)
      | (Raise e, w', t) => (Raise e, {| hook_world := w'; clsList := l4 |}, t)
      end
    else
      (Return tt, {| hook_world := w; clsList := after_calendar_rule obj l4 |}, []).
Proof.
  intros HIA l4'. unfold chooseNVDAObjectOverlayClasses.
  set (l1 := after_row_rule obj l).
  rewrite (bind_return_eq _ _ _ {| hook_world := w; clsList := l1 |} tt);
    [| subst l1; unfold after_row_rule; destruct (isUIA obj && _)%bool; reflexivity].
  rewrite HIA. cbn [negb].
  rewrite (bind_return_eq _ _ _ {| hook_world := w; clsList := l1 |}
             {| hook_world := w; clsList := l1 |}); [| reflexivity].
  set (l2 := after_dialog_rule getAncestor_GA_PARENT getClassName obj l1).
  rewrite (bind_return_eq _ _ _ {| hook_world := w; clsList := l2 |} tt);
    [| subst l2; unfold after_dialog_rule; cbv zeta; cbn [clsList];
       destruct (cls_in cls_Dialog l1); [| reflexivity];
       destruct (negb _ && _)%bool; reflexivity].
  rewrite (bind_return_eq _ _ _ {| hook_world := w; clsList := l2 |}
             {| hook_world := w; clsList := l2 |}); [| reflexivity].
  set (l3 := after_document_rule l2).
  rewrite (bind_return_eq _ _ _ {| hook_world := w; clsList := l3 |} tt);
    [| subst l3; unfold after_document_rule; cbn [clsList];
       destruct (cls_in cls_WordDocument l2); reflexivity].
  cbv zeta.
  set (l4 := after_control_rules obj l3).
  rewrite (bind_return_eq _ _ _ {| hook_world := w; clsList := l4 |} tt);
    [| subst l4; unfold after_control_rules;
       destruct ((windowControlID obj =? 4352) && _)%bool; [reflexivity|];
       destruct (role_eqb (role obj) ROLE_TABLECELL && _)%bool; [reflexivity|];
       destruct (String.eqb (windowClassName obj) "REListBox20W" && _)%bool;
         [reflexivity|];
       destruct (role_eqb (role obj) ROLE_LISTITEM && (_ || _))%bool; reflexivity].
  change l4' with l4. clear l4'.
  fold (is_address_book_row obj). fold (is_message_list_window obj).
  fold (is_calendar_window obj).
  destruct (is_address_book_row obj); [reflexivity|].
  destruct (is_message_list_window obj).
  - unfold bind, in_world. cbn [hook_world clsList].
    destruct (outlookVersion gettext getActiveObject py_int w) as [[[v | e] w'] t];
      [| reflexivity].
    unfold after_calendar_rule, after_message_list_rule, update_clsList, ret.
    cbn [hook_world clsList].
    destruct (negb (v =? 0) && (v <=? 9))%bool;
      [| destruct ((event_objectID obj =? OBJID_CLIENT) && (event_childID obj =? 0))%bool];
      destruct (is_calendar_window obj); cbn [hook_world clsList];
      rewrite ?app_nil_r; reflexivity.
  - unfold bind, ret, update_clsList, after_calendar_rule. cbn [hook_world clsList].
    destruct (is_calendar_window obj); reflexivity.
Qed.

(** X21: for an object that is not an IAccessible the hook returns without
    a host call or a read of the session, and the overlay list is the one
    given, with [UIAGridRow] in front when the object is a UIA element
    whose cached class name is LeafRow, ThreadItem or ThreadHeader. *)
Theorem hook_not_IAccessible (obj : NVDAObject) (s : HookState) :
  isIAccessible obj = false ->
  chooseNVDAObjectOverlayClasses gettext getActiveObject py_int
    getAncestor_GA_PARENT getClassName obj s
  = (Return tt,
     {| hook_world := hook_world s;
        clsList :=
          if (isUIA obj
              && str_in (UIAElement_cachedClassName obj)
                   ["LeafRow"; "ThreadItem"; "ThreadHeader"])%bool
          then cls_UIAGridRow :: clsList s else clsList s |},
     []).
Proof.
  intro HIA. destruct s as [w l].
  rewrite (hook_not_IAccessible_form obj w l HIA). reflexivity.
Qed.

(** X22: the hook reads the session, and so may show the waiting dialog,
    for a message list window of an IAccessible only; for every other
    object it returns with no host call and the world as it was. *)
Theorem hook_reads_session_for_message_lists_only (obj : NVDAObject) (s : HookState) :
  isIAccessible obj = false \/ is_message_list_window obj = false ->
  let r := chooseNVDAObjectOverlayClasses gettext getActiveObject py_int
             getAncestor_GA_PARENT getClassName obj s in
  outcome r = Return tt /\ trace r = [] /\ hook_world (final r) = hook_world s.
Proof.
  intros H r. subst r. destruct s as [w l].
  destruct (isIAccessible obj) eqn:HIA.
  - destruct H as [H | H]; [discriminate|].
    rewrite (hook_IAccessible_form obj w l HIA). cbv zeta. rewrite H.
    destruct (is_address_book_row obj); repeat split.
  - rewrite (hook_not_IAccessible_form obj w l HIA). repeat split.
Qed.

End HookFacts.


Lemma extends_refl (base : list OverlayClass) : extends base base.
Proof. exists []. split; reflexivity. Qed.

Lemma extends_insert0 (c : OverlayClass) (base l : list OverlayClass) :
  is_module_class c = true -> extends base l -> extends base (insert0 c l).
Proof.
  intros Hc [pre [Hl Hpre]]. exists (c :: pre). split.
  - unfold insert0. now rewrite Hl.
  - simpl. now rewrite Hc, Hpre.
Qed.

Lemma extends_after_document (base l : list OverlayClass) :
  extends base l -> extends base (after_document_rule l).
Proof.
  intro H. unfold after_document_rule.
  destruct (cls_in cls_WordDocument l); [now apply extends_insert0 | exact H].
Qed.

Lemma extends_after_control (obj : NVDAObject) (base l : list OverlayClass) :
  extends base l -> extends base (after_control_rules obj l).
Proof.
  intro H. unfold after_control_rules.
  repeat match goal with
         | |- extends _ (if ?c then _ else _) => destruct c
         end; try exact H; now apply extends_insert0.
Qed.

Lemma extends_after_message_list (obj : NVDAObject) (v : Z) (base l : list OverlayClass) :
  extends base l -> extends base (after_message_list_rule obj v l).
Proof.
  intro H. unfold after_message_list_rule.
  repeat match goal with
         | |- extends _ (if ?c then _ else _) => destruct c
         end; try exact H; now apply extends_insert0.
Qed.

Lemma extends_after_calendar (obj : NVDAObject) (base l : list OverlayClass) :
  extends base l -> extends base (after_calendar_rule obj l).
Proof.
  intro H. unfold after_calendar_rule.
  destruct (is_calendar_window obj); [now apply extends_insert0 | exact H].
Qed.

Lemma extends_after_dialog_row (getAncestor_GA_PARENT : Z -> Z)
    (getClassName : Z -> string) (obj : NVDAObject) (l : list OverlayClass) :
  extends (after_dialog_rule getAncestor_GA_PARENT getClassName obj l)
    (after_dialog_rule getAncestor_GA_PARENT getClassName obj (after_row_rule obj l)).
Proof.
  unfold after_row_rule.
  destruct (isUIA obj && _)%bool; [| apply extends_refl].
  unfold after_dialog_rule, insert0.
  change (cls_in cls_Dialog (cls_UIAGridRow :: l)) with (cls_in cls_Dialog l).
  destruct (cls_in cls_Dialog l); [| now exists [cls_UIAGridRow]].
  destruct (negb _ && _)%bool; now exists [cls_UIAGridRow].
Qed.

Lemma cls_eqb_refl (c : OverlayClass) : cls_eqb c c = true.
Proof. unfold cls_eqb. destruct (OverlayClass_eq_dec c c); congruence. Qed.

Lemma cls_eqb_eq (a b : OverlayClass) : cls_eqb a b = true -> a = b.
Proof. unfold cls_eqb. destruct (OverlayClass_eq_dec a b); [auto | discriminate]. Qed.

Lemma cls_in_app (c : OverlayClass) (l1 l2 : list OverlayClass) :
  cls_in c (l1 ++ l2) = (cls_in c l1 || cls_in c l2)%bool.
Proof. unfold cls_in. apply existsb_app. Qed.

Lemma cls_in_list_remove_other (c x : OverlayClass) (l : list OverlayClass) :
  c <> x -> cls_in c l = true -> cls_in c (list_remove x l) = true.
Proof.
  intros Hne. induction l as [|y l IH]; simpl; [auto|].
  intro H. apply orb_prop in H.
  destruct (cls_eqb y x) eqn:Eyx.
  - apply cls_eqb_eq in Eyx. subst y.
    destruct H as [H | H]; [apply cls_eqb_eq in H; contradiction | exact H].
  - simpl. destruct H as [H | H]; [now rewrite H|].
    rewrite (IH H). apply orb_true_r.
Qed.

Lemma cls_in_list_remove_same (x : OverlayClass) (l : list OverlayClass) :
  cls_in x (list_remove x l) = true -> cls_in x l = true.
Proof.
  induction l as [|y l IH]; simpl; [auto|].
  destruct (cls_eqb y x) eqn:Eyx.
  - intro H. rewrite H. apply orb_true_r.
  - simpl. intro H. apply orb_prop in H. destruct H as [H | H]; [now rewrite H|].
    rewrite (IH H). apply orb_true_r.
Qed.

Lemma module_classes_without_Dialog (pre : list OverlayClass) :
  forallb is_module_class pre = true -> cls_in cls_Dialog pre = false.
Proof.
  induction pre as [|c pre IH]; simpl; [reflexivity|].
  intro H. apply andb_prop in H as [Hc Hpre]. rewrite (IH Hpre).
  destruct c; try discriminate; reflexivity.
Qed.

Lemma calendar_class_tests (obj : NVDAObject) :
  str_in (windowClassName obj) ["WeekViewWnd"; "DayViewWnd"] = true ->
  is_address_book_row obj = false
  /\ is_message_list_window obj = false
  /\ is_calendar_window obj = true.
Proof.
  intro H. unfold is_address_book_row, is_message_list_window, is_calendar_window.
  rewrite H. rewrite orb_true_r.
  simpl in H. apply orb_prop in H.
  destruct H as [H | H]; [| apply orb_prop in H; destruct H as [H | H]; [| discriminate]];
    apply String.eqb_eq in H; rewrite H; simpl;
    rewrite ?andb_false_r; repeat split.
Qed.

Lemma message_list_class_tests (obj : NVDAObject) :
  is_message_list_window obj = true ->
  is_address_book_row obj = false /\ is_calendar_window obj = false.
Proof.
  unfold is_address_book_row, is_message_list_window, is_calendar_window.
  intro H. apply orb_prop in H.
  destruct H as [H | H]; apply andb_prop in H as [Hc Hid];
    apply String.eqb_eq in Hc; apply Z.eqb_eq in Hid; rewrite Hc, Hid; simpl;
    rewrite ?andb_false_r; split; reflexivity.
Qed.

Section HookRules.

Variable gettext : string -> string.
Variable getActiveObject : nat -> option OutlookApplication.
Variable py_int : string -> PyResult Z.
Variable getAncestor_GA_PARENT : Z -> Z.
Variable getClassName : Z -> string.

Lemma extends_before_window_rules (obj : NVDAObject) (l : list OverlayClass) :
  extends (after_dialog_rule getAncestor_GA_PARENT getClassName obj l)
    (before_window_rules getAncestor_GA_PARENT getClassName obj l).
Proof.
  unfold before_window_rules.
  apply extends_after_control, extends_after_document, extends_after_dialog_row.
Qed.

(** X23: whatever the hook does, and whether or not it ends with an
    exception, the list it leaves is the given list, without the first
    [Dialog] when the rule on [Dialog] applies, with classes of the module
    in front of it.  So a class other than [Dialog] that was in the list is
    still in it, and [Dialog] is in it only if it was. *)
Theorem hook_keeps_generic_classes (obj : NVDAObject) (s : HookState) :
  let l' := clsList (final (chooseNVDAObjectOverlayClasses gettext getActiveObject
                              py_int getAncestor_GA_PARENT getClassName obj s)) in
  extends (if isIAccessible obj
           then after_dialog_rule getAncestor_GA_PARENT getClassName obj (clsList s)
           else clsList s) l'
  /\ (forall c : OverlayClass,
        c <> cls_Dialog -> cls_in c (clsList s) = true -> cls_in c l' = true)
  /\ (cls_in cls_Dialog l' = true -> cls_in cls_Dialog (clsList s) = true).
Proof.
  intro l'.
  assert (Hext : extends (if isIAccessible obj
                          then after_dialog_rule getAncestor_GA_PARENT getClassName
                                 obj (clsList s)
                          else clsList s) l').
  { subst l'. destruct s as [w l]. cbn [clsList].
    destruct (isIAccessible obj) eqn:HIA.
    - rewrite (hook_IAccessible_form gettext getActiveObject py_int
                 getAncestor_GA_PARENT getClassName obj w l HIA). cbv zeta.
      pose proof (extends_before_window_rules obj l) as Hb.
      destruct (is_address_book_row obj).
      + unfold final. cbn [fst snd clsList]. now apply extends_insert0.
      + destruct (is_message_list_window obj).
        * destruct (outlookVersion gettext getActiveObject py_int w)
            as [[[v | e] w'] t]; unfold final; cbn [fst snd clsList].
          -- now apply extends_after_calendar, extends_after_message_list.
          -- exact Hb.
        * unfold final. cbn [fst snd clsList]. now apply extends_after_calendar.
    - rewrite (hook_not_IAccessible_form gettext getActiveObject py_int
                 getAncestor_GA_PARENT getClassName obj w l HIA).
      unfold final. cbn [fst snd clsList]. unfold after_row_rule.
      destruct (isUIA obj && _)%bool; [| apply extends_refl].
      apply extends_insert0; [reflexivity | apply extends_refl]. }
  split; [exact Hext |].
  destruct Hext as [pre [Hl Hpre]]. rewrite Hl. split.
  - intros c Hc Hin. rewrite cls_in_app.
    assert (Hbase : cls_in c (if isIAccessible obj
                              then after_dialog_rule getAncestor_GA_PARENT getClassName
                                     obj (clsList s)
                              else clsList s) = true).
    { destruct (isIAccessible obj); [| exact Hin].
      unfold after_dialog_rule.
      destruct (cls_in cls_Dialog (clsList s)); [| exact Hin].
      destruct (negb _ && _)%bool; [| exact Hin].
      now apply cls_in_list_remove_other. }
    rewrite Hbase. apply orb_true_r.
  - rewrite cls_in_app, (module_classes_without_Dialog pre Hpre). cbn [orb].
    destruct (isIAccessible obj); [| auto].
    unfold after_dialog_rule.
    destruct (cls_in cls_Dialog (clsList s)) eqn:Hd; [reflexivity|].
    rewrite Hd. auto.
Qed.

(** X24: for an IAccessible in a window that [isBadUIAWindow] reports, a
    week or day view, the hook puts [CalendarView] at the front of the
    list, without a host call or a read of the session. *)
Theorem hook_calendar_view_in_front (obj : NVDAObject) (s : HookState) :
  isIAccessible obj = true ->
  windowClassName obj = getClassName (windowHandle obj) ->
  isBadUIAWindow getClassName (windowHandle obj) = true ->
  let r := chooseNVDAObjectOverlayClasses gettext getActiveObject py_int
             getAncestor_GA_PARENT getClassName obj s in
  outcome r = Return tt
  /\ trace r = []
  /\ hook_world (final r) = hook_world s
  /\ hd_error (clsList (final r)) = Some cls_CalendarView.
Proof.
  intros HIA Hclass Hbad r. subst r. destruct s as [w l].
  unfold isBadUIAWindow in Hbad. rewrite <- Hclass in Hbad.
  destruct (str_in (windowClassName obj) ["WeekViewWnd"; "DayViewWnd"]) eqn:E;
    [| discriminate].
  destruct (calendar_class_tests obj E) as [Ha [Hm Hc]].
  rewrite (hook_IAccessible_form gettext getActiveObject py_int
             getAncestor_GA_PARENT getClassName obj w l HIA). cbv zeta.
  rewrite Ha, Hm. unfold after_calendar_rule. rewrite Hc.
  repeat split.
Qed.

(** X25: for an IAccessible list item of an OUTEXVLB window the hook puts
    [AddressBookEntry] at the front of the list, without a host call or a
    read of the session. *)
Theorem hook_address_book_entry_in_front (obj : NVDAObject) (s : HookState) :
  isIAccessible obj = true ->
  role obj = ROLE_LISTITEM ->
  windowClassName obj = "OUTEXVLB" ->
  let r := chooseNVDAObjectOverlayClasses gettext getActiveObject py_int
             getAncestor_GA_PARENT getClassName obj s in
  outcome r = Return tt
  /\ trace r = []
  /\ hook_world (final r) = hook_world s
  /\ hd_error (clsList (final r)) = Some cls_AddressBookEntry.
Proof.
  intros HIA Hrole Hclass r. subst r. destruct s as [w l].
  rewrite (hook_IAccessible_form gettext getActiveObject py_int
             getAncestor_GA_PARENT getClassName obj w l HIA). cbv zeta.
  unfold is_address_book_row. rewrite Hrole, Hclass. repeat split.
Qed.

(** X26: for an IAccessible in a message list window, with the version
    read as [v]: for a version of 9 or less other than 0 the hook puts
    [MessageList_pre2003] at the front of the list; for version 0, which
    is the version without Outlook, and for 10 or later, it puts
    [SuperGridClient2010] there when the event is that of the client with
    child id 0.  The host calls of the hook are those of the read of the
    version. *)
Theorem hook_message_list_by_version (obj : NVDAObject) (s : HookState) (v : Z) :
  isIAccessible obj = true ->
  is_message_list_window obj = true ->
  outcome (outlookVersion gettext getActiveObject py_int (hook_world s)) = Return v ->
  let r := chooseNVDAObjectOverlayClasses gettext getActiveObject py_int
             getAncestor_GA_PARENT getClassName obj s in
  outcome r = Return tt
  /\ trace r = trace (outlookVersion gettext getActiveObject py_int (hook_world s))
  /\ (v <> 0 -> v <= 9 ->
      hd_error (clsList (final r)) = Some cls_MessageList_pre2003)
  /\ (v = 0 \/ 9 < v ->
      event_objectID obj = OBJID_CLIENT -> event_childID obj = 0 ->
      hd_error (clsList (final r)) = Some cls_SuperGridClient2010).
Proof.
  intros HIA Hm Hv r. subst r. destruct s as [w l]. cbn [hook_world] in *.
  destruct (message_list_class_tests obj Hm) as [Ha Hc].
  rewrite (hook_IAccessible_form gettext getActiveObject py_int
             getAncestor_GA_PARENT getClassName obj w l HIA). cbv zeta.
  rewrite Ha, Hm.
  destruct (outlookVersion gettext getActiveObject py_int w) as [[r0 w'] t].
  unfold outcome in Hv. cbn [fst snd] in Hv. subst r0.
  unfold after_calendar_rule. rewrite Hc.
  unfold outcome, trace, final, after_message_list_rule. cbn [fst snd clsList].
  split; [reflexivity |]. split; [reflexivity |]. split.
  - intros Hne Hle.
    replace (v =? 0) with false by (symmetry; now apply Z.eqb_neq).
    replace (v <=? 9) with true by (symmetry; now apply Z.leb_le).
    reflexivity.
  - intros Hver Hobj Hchild.
    replace (negb (v =? 0) && (v <=? 9))%bool with false.
    + rewrite Hobj, Hchild. reflexivity.
    + symmetry. destruct Hver as [H0 | H9].
      * subst v. reflexivity.
      * replace (v <=? 9) with false by (symmetry; apply Z.leb_gt; lia).
        apply andb_false_r.
Qed.

End HookRules.

Lemma hook_not_IAccessible_witness :
  isIAccessible sample_UIA_row = false
  /\ chooseNVDAObjectOverlayClasses untranslated never_available int_fails
       parent_is_7 class_is_AfxWndW sample_UIA_row
       {| hook_world := fresh_world; clsList := [cls_other "UIA"] |}
     = (Return tt,
        {| hook_world := fresh_world; clsList := [cls_UIAGridRow; cls_other "UIA"] |},
        []).
Proof.
  split; [reflexivity |].
  apply (hook_not_IAccessible untranslated never_available int_fails
           parent_is_7 class_is_AfxWndW sample_UIA_row
           {| hook_world := fresh_world; clsList := [cls_other "UIA"] |}).
  reflexivity.
Defined.

Lemma hook_reads_session_for_message_lists_only_witness :
  (isIAccessible sample_week_view = false \/ is_message_list_window sample_week_view = false)
  /\ let r := chooseNVDAObjectOverlayClasses untranslated never_available int_fails
               parent_is_7 class_of_window sample_week_view
               {| hook_world := fresh_world; clsList := [cls_other "IAccessible"] |} in
     outcome r = Return tt /\ trace r = [] /\ hook_world (final r) = fresh_world.
Proof.
  split; [right; reflexivity |].
  apply (hook_reads_session_for_message_lists_only untranslated never_available
           int_fails parent_is_7 class_of_window sample_week_view
           {| hook_world := fresh_world; clsList := [cls_other "IAccessible"] |}).
  right. reflexivity.
Defined.

Lemma hook_calendar_view_in_front_witness :
  isIAccessible sample_week_view = true
  /\ windowClassName sample_week_view = class_of_window (windowHandle sample_week_view)
  /\ isBadUIAWindow class_of_window (windowHandle sample_week_view) = true
  /\ let r := chooseNVDAObjectOverlayClasses untranslated never_available int_fails
               parent_is_7 class_of_window sample_week_view
               {| hook_world := fresh_world; clsList := [cls_other "IAccessible"] |} in
     outcome r = Return tt
     /\ trace r = []
     /\ hook_world (final r) = fresh_world
     /\ hd_error (clsList (final r)) = Some cls_CalendarView.
Proof.
  split; [reflexivity |]. split; [reflexivity |]. split; [reflexivity |].
  apply (hook_calendar_view_in_front untranslated never_available int_fails
           parent_is_7 class_of_window sample_week_view
           {| hook_world := fresh_world; clsList := [cls_other "IAccessible"] |});
    reflexivity.
Defined.

Lemma hook_address_book_entry_in_front_witness :
  isIAccessible sample_address_book_row = true
  /\ role sample_address_book_row = ROLE_LISTITEM
  /\ windowClassName sample_address_book_row = "OUTEXVLB"
  /\ let r := chooseNVDAObjectOverlayClasses untranslated never_available int_fails
               parent_is_7 class_is_AfxWndW sample_address_book_row
               {| hook_world := fresh_world; clsList := [cls_other "IAccessible"] |} in
     outcome r = Return tt
     /\ trace r = []
     /\ hook_world (final r) = fresh_world
     /\ hd_error (clsList (final r)) = Some cls_AddressBookEntry.
Proof.
  split; [reflexivity |]. split; [reflexivity |]. split; [reflexivity |].
  apply (hook_address_book_entry_in_front untranslated never_available int_fails
           parent_is_7 class_is_AfxWndW sample_address_book_row
           {| hook_world := fresh_world; clsList := [cls_other "IAccessible"] |});
    reflexivity.
Defined.

(** X26 without Outlook: the version is 0 and the modern client is chosen. *)
Lemma hook_message_list_by_version_witness :
  isIAccessible sample_message_list = true
  /\ is_message_list_window sample_message_list = true
  /\ outcome (outlookVersion untranslated never_available int_fails world_without_Outlook)
     = Return 0
  /\ let r := chooseNVDAObjectOverlayClasses untranslated never_available int_fails
               parent_is_7 class_is_AfxWndW sample_message_list
               {| hook_world := world_without_Outlook;
                  clsList := [cls_other "IAccessible"] |} in
     outcome r = Return tt
     /\ trace r = trace (outlookVersion untranslated never_available int_fails
                           world_without_Outlook)
     /\ (0 <> 0 -> 0 <= 9 ->
         hd_error (clsList (final r)) = Some cls_MessageList_pre2003)
     /\ (0 = 0 \/ 9 < 0 ->
         event_objectID sample_message_list = OBJID_CLIENT ->
         event_childID sample_message_list = 0 ->
         hd_error (clsList (final r)) = Some cls_SuperGridClient2010).
Proof.
  split; [reflexivity |]. split; [reflexivity |]. split; [reflexivity |].
  apply (hook_message_list_by_version untranslated never_available int_fails
           parent_is_7 class_is_AfxWndW sample_message_list
           {| hook_world := world_without_Outlook;
              clsList := [cls_other "IAccessible"] |} 0);
    reflexivity.
Defined.

(* ================================================================== *)
(** * AutoCompleteListItem and event_NVDAObject_init *)
(* ================================================================== *)

Section HostRoleFacts.

Variable ROLE_EDITABLETEXT : Role.
Variable ROLE_PANE : Role.
Variable ROLE_MENUBAR : Role.
Variable ROLE_MENUITEM : Role.
Variable ROLE_TREEVIEW : Role.
Variable ROLE_TREEVIEWITEM : Role.
Variable ROLE_LIST : Role.
Variable ROLE_UNKNOWN : Role.
Variable Window_get_parent : Z -> Z.

Lemma role_eqb_eq (a b : Role) : role_eqb a b = true -> a = b.
Proof. unfold role_eqb. destruct (Role_eq_dec a b); [auto | discriminate]. Qed.

Lemma role_eqb_refl (a : Role) : role_eqb a a = true.
Proof. unfold role_eqb. destruct (Role_eq_dec a a); congruence. Qed.

(** X27: on a state change an autocomplete item either makes no call, or
    cancels the speech and then speaks its name, in this order and once.
    It makes no call when it is not selected, or is invisible, unavailable
    or off screen, and it speaks only while the focus is on an editable
    text or a button. *)
Theorem autocomplete_stateChange_calls (states : list State) (focus_role : Role)
    (name : string) :
  let calls := AutoCompleteListItem_event_stateChange ROLE_EDITABLETEXT
                 states focus_role name in
  (calls = [] \/ calls = [speech_cancelSpeech; ui_message_of name])
  /\ (state_in STATE_SELECTED states = false
      \/ state_in STATE_INVISIBLE states = true
      \/ state_in STATE_UNAVAILABLE states = true
      \/ state_in STATE_OFFSCREEN states = true ->
      calls = [])
  /\ (calls <> [] -> focus_role = ROLE_EDITABLETEXT \/ focus_role = ROLE_BUTTON).
Proof.
  intro calls. subst calls. unfold AutoCompleteListItem_event_stateChange.
  split; [| split].
  - destruct (_ && _)%bool; [right | left]; reflexivity.
  - intros [H | [H | [H | H]]]; rewrite H; cbn [negb];
      rewrite ?andb_false_r; reflexivity.
  - destruct (role_eqb focus_role ROLE_EDITABLETEXT) eqn:E1;
      [intros _; left; now apply role_eqb_eq|].
    destruct (role_eqb focus_role ROLE_BUTTON) eqn:E2;
      [intros _; right; now apply role_eqb_eq|].
    cbn [orb andb]. intro H. contradiction H. reflexivity.
Qed.

(** X28: [event_NVDAObject_init] changes the role of an object only from
    unknown to list item, and only in a message list window (SUPERGRID
    with control 4704, rctrl_renwnd32 with control 109); a second call
    leaves the role as the first left it.  The relaxation for focus events
    is decided on the role read on entry: provided the unknown role is none
    of tree view, tree view item, list and list item, the call that turns an
    unknown object into a list item leaves
    [shouldAllowIAccessibleFocusEvent] as it was, and a second call sets
    it. *)
Theorem NVDAObject_init_role (obj : InitObject) :
  role_in ROLE_UNKNOWN [ROLE_TREEVIEW; ROLE_TREEVIEWITEM; ROLE_LIST; ROLE_LISTITEM]
  = false ->
  let init := event_NVDAObject_init ROLE_EDITABLETEXT ROLE_PANE ROLE_MENUBAR
                ROLE_MENUITEM ROLE_TREEVIEW ROLE_TREEVIEWITEM ROLE_LIST ROLE_UNKNOWN
                Window_get_parent in
  let in_message_list :=
    ((String.eqb (init_windowClassName obj) "SUPERGRID"
      && (init_windowControlID obj =? 4704))
     || (String.eqb (init_windowClassName obj) "rctrl_renwnd32"
         && (init_windowControlID obj =? 109)))%bool in
  init_role (init obj)
  = (if (in_message_list && role_eqb (init_role obj) ROLE_UNKNOWN)%bool
     then ROLE_LISTITEM else init_role obj)
  /\ init_role (init (init obj)) = init_role (init obj)
  /\ (in_message_list = true -> init_role obj = ROLE_UNKNOWN ->
      init_shouldAllowIAccessibleFocusEvent (init obj)
      = init_shouldAllowIAccessibleFocusEvent obj
      /\ init_shouldAllowIAccessibleFocusEvent (init (init obj)) = true).
Proof.
  intros Hunknown init in_message_list.
  assert (Hul : role_eqb ROLE_LISTITEM ROLE_UNKNOWN = false).
  { unfold role_in in Hunknown. simpl in Hunknown.
    apply orb_false_elim in Hunknown as [_ H].
    apply orb_false_elim in H as [_ H].
    apply orb_false_elim in H as [_ H].
    apply orb_false_elim in H as [H _].
    unfold role_eqb in *.
    destruct (Role_eq_dec ROLE_UNKNOWN ROLE_LISTITEM) as [E|E]; [discriminate|].
    destruct (Role_eq_dec ROLE_LISTITEM ROLE_UNKNOWN) as [E'|E']; [congruence | reflexivity]. }
  assert (Hrole : forall o,
             init_role (init o)
             = (if (((String.eqb (init_windowClassName o) "SUPERGRID"
                      && (init_windowControlID o =? 4704))
                     || (String.eqb (init_windowClassName o) "rctrl_renwnd32"
                         && (init_windowControlID o =? 109)))
                    && role_eqb (init_role o) ROLE_UNKNOWN)%bool
                then ROLE_LISTITEM else init_role o)) by reflexivity.
  split; [apply Hrole |]. split.
  - rewrite (Hrole (init obj)). rewrite (Hrole obj).
    change (init_windowClassName (init obj)) with (init_windowClassName obj).
    change (init_windowControlID (init obj)) with (init_windowControlID obj).
    fold in_message_list.
    destruct (in_message_list && role_eqb (init_role obj) ROLE_UNKNOWN)%bool eqn:E.
    + rewrite Hul, andb_false_r. reflexivity.
    + rewrite E. reflexivity.
  - intros Hm Hr.
    assert (Hfirst : init_role (init obj) = ROLE_LISTITEM).
    { rewrite (Hrole obj). fold in_message_list.
      rewrite Hm, Hr, role_eqb_refl. reflexivity. }
    split.
    + subst init. unfold event_NVDAObject_init. cbn [init_shouldAllowIAccessibleFocusEvent].
      rewrite Hr, Hunknown. reflexivity.
    + change (init_shouldAllowIAccessibleFocusEvent (init (init obj)))
        with (if role_in (init_role (init obj))
                   [ROLE_TREEVIEW; ROLE_TREEVIEWITEM; ROLE_LIST; ROLE_LISTITEM]
              then true
              else init_shouldAllowIAccessibleFocusEvent (init obj)).
      rewrite Hfirst. unfold role_in. simpl.
      rewrite ?role_eqb_refl, ?orb_true_r. reflexivity.
Qed.

End HostRoleFacts.

(** X28 with the unknown role 0 and the roles 20, 21, 14 for tree view,
    tree view item and list. *)
Lemma NVDAObject_init_role_witness :
  role_in (ROLE_other 0) [ROLE_other 20; ROLE_other 21; ROLE_other 14; ROLE_LISTITEM]
  = false
  /\ let init := event_NVDAObject_init (ROLE_other 8) (ROLE_other 56) (ROLE_other 10)
                  (ROLE_other 11) (ROLE_other 20) (ROLE_other 21) (ROLE_other 14)
                  (ROLE_other 0) (fun id => id - 1) in
     init_role (init sample_unknown_row) = ROLE_LISTITEM
     /\ init_role (init (init sample_unknown_row)) = init_role (init sample_unknown_row)
     /\ (true = true -> ROLE_other 0 = ROLE_other 0 ->
         init_shouldAllowIAccessibleFocusEvent (init sample_unknown_row) = false
         /\ init_shouldAllowIAccessibleFocusEvent (init (init sample_unknown_row)) = true).
Proof.
  split; [reflexivity |].
  apply (NVDAObject_init_role (ROLE_other 8) (ROLE_other 56) (ROLE_other 10)
           (ROLE_other 11) (ROLE_other 20) (ROLE_other 21) (ROLE_other 14)
           (ROLE_other 0) (fun id => id - 1) sample_unknown_row).
  reflexivity.
Defined.

(** X17 for a thread item under a grid row, with the entries of the base
    class. *)
Lemma UIAGridRow_positionInfo_level_witness :
  let info := UIAGridRow_get_positionInfo
                (Some [("indexInGroup", 3); ("level", 7); ("similarItemsInGroup", 12)])
                "ThreadItem" true in
  info_get info "level" = Some 2
  /\ info_get info "indexInGroup" = Some 3
  /\ info_get info "similarItemsInGroup" = Some 12.
Proof.
  pose proof (UIAGridRow_positionInfo_level
                (Some [("indexInGroup", 3); ("level", 7); ("similarItemsInGroup", 12)])
                "ThreadItem" true) as [Hlevel Hother].
  split; [exact Hlevel |].
  split; [apply (Hother "indexInGroup") | apply (Hother "similarItemsInGroup")];
    discriminate.
Defined.
